(** * Fulcio [serve] command: a shallow embedding of cmd/app/serve.go

    The development follows the source file top to bottom:
    - the settings store (viper) and the flag set declared by [newServeCmd];
    - a small state-and-exit monad for [runServeCmd], whose state is the
      settings store together with the trace of log lines and listeners;
    - the blocks of [runServeCmd] in source order (settings binding, the
      [--ca] validation switch, algorithm loading, config loading, the CA
      construction switch, the CT log client, the servers);
    - [StartDuplexServer] with its interceptor chain and receive limit.

    Library calls whose result depends on the outside world (file system,
    key stores, network) are fields of the record [Env]. *)

From Stdlib Require Import ZArith String Ascii List Bool Lia.
From stdpp Require Import base option list strings gmap.

Local Open Scope string_scope.
Local Open Scope Z_scope.

(** ** Go strings *)

Module GoStrings.

Definition HasSuffix (s suffix : string) : bool :=
  let n := String.length s in
  let m := String.length suffix in
  (m <=? n)%nat && String.eqb (substring (n - m) m s) suffix.

Definition HasPrefix (s pre : string) : bool := String.prefix pre s.

(** strings.TrimSuffix: [s] without the trailing [suffix], or [s] itself. *)
Definition TrimSuffix (s suffix : string) : string :=
  if HasSuffix s suffix
  then substring 0 (String.length s - String.length suffix) s
  else s.

(** strings.TrimPrefix *)
Definition TrimPrefix (s pre : string) : string :=
  if HasPrefix s pre
  then substring (String.length pre) (String.length s - String.length pre) s
  else s.

Definition upper_ascii (c : ascii) : ascii :=
  let n := nat_of_ascii c in
  if (97 <=? n)%nat && (n <=? 122)%nat then ascii_of_nat (n - 32) else c.

(** strings.ToUpper on ASCII text. *)
Fixpoint ToUpper (s : string) : string :=
  match s with
  | EmptyString => EmptyString
  | String c r => String (upper_ascii c) (ToUpper r)
  end.

(** The ASCII white space: space, and tab to carriage return. *)
Definition is_space (c : ascii) : bool :=
  let n := nat_of_ascii c in
  (n =? 32)%nat || ((9 <=? n)%nat && (n <=? 13)%nat).

(** unicode.IsSpace on the UTF-8 text [s]: the number of bytes of the white
    space character [s] starts with, 0 when it starts with none.  Besides
    the ASCII ones these are U+0085 and U+00A0 (C2 85, C2 A0), U+1680
    (E1 9A 80), U+2000 to U+200A, U+2028, U+2029 and U+202F (E2 80 ..),
    U+205F (E2 81 9F) and U+3000 (E3 80 80). *)
Definition space_width (s : string) : nat :=
  match s with
  | EmptyString => 0%nat
  | String c r =>
      let b1 := nat_of_ascii c in
      if is_space c then 1%nat
      else
        match r with
        | EmptyString => 0%nat
        | String d r' =>
            let b2 := nat_of_ascii d in
            if (b1 =? 194)%nat && ((b2 =? 133)%nat || (b2 =? 160)%nat) then 2%nat
            else
              match r' with
              | EmptyString => 0%nat
              | String e _ =>
                  let b3 := nat_of_ascii e in
                  if (b1 =? 225)%nat && (b2 =? 154)%nat && (b3 =? 128)%nat then 3%nat
                  else if (b1 =? 226)%nat && (b2 =? 128)%nat
                          && (((128 <=? b3)%nat && (b3 <=? 138)%nat)
                              || (b3 =? 168)%nat || (b3 =? 169)%nat || (b3 =? 175)%nat)
                  then 3%nat
                  else if (b1 =? 226)%nat && (b2 =? 129)%nat && (b3 =? 159)%nat
                  then 3%nat
                  else if (b1 =? 227)%nat && (b2 =? 128)%nat && (b3 =? 128)%nat
                  then 3%nat
                  else 0%nat
              end
        end
  end.

(** strings.Fields: the maximal runs of characters that are not white
    space.  [cur] is the run being read, kept reversed; [skip] counts the
    bytes still to pass of a white space character of several bytes.  (A
    byte that begins one of those characters is never the continuation of
    another character, so reading bytes finds them where Go's decoding by
    runes does.) *)
Fixpoint fields_go (s : string) (skip : nat) (cur : list ascii) : list string :=
  let flush := match cur with
               | [] => []
               | _ => [string_of_list_ascii (rev cur)]
               end in
  match s with
  | EmptyString => flush
  | String c r =>
      match skip with
      | S k => fields_go r k cur
      | O =>
          match space_width (String c r) with
          | O => fields_go r 0%nat (c :: cur)
          | S k => flush ++ fields_go r k []
          end
      end
  end.

Definition Fields (s : string) : list string := fields_go s 0%nat [].

(** The double quote character, for messages that quote a flag name. *)
Definition dquote : string := String (ascii_of_nat 34) EmptyString.

End GoStrings.

(** ** Values and errors *)

(** Go's [error], as its message.  The serve command compares an error with
    http.ErrServerClosed and otherwise only logs it; the comparison is made
    on the message. *)
Definition error : Type := string.

Definition Result (A : Type) : Type := A + error.

(** time.Duration counts nanoseconds in an int64. *)
Definition Duration : Type := Z.
Definition Nanosecond : Duration := 1.
Definition Microsecond : Duration := 1000 * Nanosecond.
Definition Millisecond : Duration := 1000 * Microsecond.
Definition Second : Duration := 1000 * Millisecond.
Definition Minute : Duration := 60 * Second.

(** What a flag, an environment variable or a config file entry can hold.
    A flag given on the command line has the type it was declared with;
    an environment variable is a string. *)
Inductive Value : Type :=
| VString (s : string)
| VBool (b : bool)
| VDuration (d : Duration)
| VStringSlice (l : list string).

(** v1.PublicKeyDetails of protobuf-specs (the constants that name a
    concrete key type and hash). *)
Inductive PublicKeyDetails : Type :=
| PUBLIC_KEY_DETAILS_UNSPECIFIED
| PKCS1_RSA_PKCS1V5
| PKCS1_RSA_PSS
| PKIX_RSA_PKCS1V5
| PKIX_RSA_PSS
| PKIX_RSA_PKCS1V15_2048_SHA256
| PKIX_RSA_PKCS1V15_3072_SHA256
| PKIX_RSA_PKCS1V15_4096_SHA256
| PKIX_RSA_PSS_2048_SHA256
| PKIX_RSA_PSS_3072_SHA256
| PKIX_RSA_PSS_4096_SHA256
| PKIX_ECDSA_P256_HMAC_SHA_256
| PKIX_ECDSA_P256_SHA_256
| PKIX_ECDSA_P384_SHA_384
| PKIX_ECDSA_P521_SHA_512
| PKIX_ED25519
| PKIX_ED25519_PH
| LMS_SHA256
| LMOTS_SHA256.

#[global] Instance PublicKeyDetails_eq_dec : EqDecision PublicKeyDetails.
Proof. solve_decision. Defined.

(** The key family, its parameter and the hash a constant stands for, as
    its name spells them. *)
Inductive KeyAlg : Type := ECDSA | RSA_PKCS1V15 | RSA_PSS | ED25519 | LMS | LMOTS.
Inductive KeyParam : Type :=
| P256 | P384 | P521 | Bits (n : Z) | NoParam.
Inductive HashAlg : Type := SHA_256 | SHA_384 | SHA_512 | HMAC_SHA_256 | NoPrehash.

Definition details_triple (d : PublicKeyDetails)
  : option (KeyAlg * KeyParam * HashAlg) :=
  match d with
  | PKIX_RSA_PKCS1V15_2048_SHA256 => Some (RSA_PKCS1V15, Bits 2048, SHA_256)
  | PKIX_RSA_PKCS1V15_3072_SHA256 => Some (RSA_PKCS1V15, Bits 3072, SHA_256)
  | PKIX_RSA_PKCS1V15_4096_SHA256 => Some (RSA_PKCS1V15, Bits 4096, SHA_256)
  | PKIX_RSA_PSS_2048_SHA256 => Some (RSA_PSS, Bits 2048, SHA_256)
  | PKIX_RSA_PSS_3072_SHA256 => Some (RSA_PSS, Bits 3072, SHA_256)
  | PKIX_RSA_PSS_4096_SHA256 => Some (RSA_PSS, Bits 4096, SHA_256)
  | PKIX_ECDSA_P256_HMAC_SHA_256 => Some (ECDSA, P256, HMAC_SHA_256)
  | PKIX_ECDSA_P256_SHA_256 => Some (ECDSA, P256, SHA_256)
  | PKIX_ECDSA_P384_SHA_384 => Some (ECDSA, P384, SHA_384)
  | PKIX_ECDSA_P521_SHA_512 => Some (ECDSA, P521, SHA_512)
  | PKIX_ED25519 => Some (ED25519, NoParam, NoPrehash)
  | PKIX_ED25519_PH => Some (ED25519, NoParam, SHA_512)
  | LMS_SHA256 => Some (LMS, NoParam, SHA_256)
  | LMOTS_SHA256 => Some (LMOTS, NoParam, SHA_256)
  | _ => None
  end.

(** ** Data handed between the serve command and its collaborators *)

(** An identity provider entry and the loaded configuration file (the
    [OIDCIssuers] and [MetaIssuers] maps of the configuration file). *)
Record OIDCIssuer : Type := {
  IssuerURL : string;
  ClientID : string;
  IssuerType : string;
}.

Record FulcioConfig : Type := {
  OIDCIssuers : gmap string OIDCIssuer;
  MetaIssuers : gmap string OIDCIssuer;
}.

(** DER bytes of an X.509 certificate. *)
Definition Certificate : Type := string.

(** pkcs11ca.Params *)
Record pkcs11ca_Params : Type := {
  ConfigPath : string;
  RootID : string;
  CAPath : option string;
}.

(** certauth.CertificateAuthority: one constructor per backend, holding the
    arguments its constructor was called with. *)
Inductive CertificateAuthority : Type :=
| GoogleCA (parent : string)
| PKCS11CA (params : pkcs11ca_Params)
| FileCA (certFile keyFile keyPass : string) (watch : bool)
| EphemeralCA
| KMSCA (resource : string) (certs : list Certificate)
| TinkCA (kmsResource keysetPath certChainPath : string).

(** signature.AlgorithmRegistryConfig: the permitted algorithms. *)
Definition AlgorithmRegistryConfig : Type := list PublicKeyDetails.

(** identity.IssuerPool: the issuers built from the configuration. *)
Definition IssuerPool : Type := list OIDCIssuer.

(** tls.Config, http.Transport and http.Client, with the fields the serve
    command sets; an unset field has Go's zero value. *)
Definition VersionTLS12 : Z := 0x0303.

Record tls_Config : Type := {
  RootCAs : list Certificate;
  MinVersion : Z;
}.

Record http_Transport : Type := {
  TLSClientConfig : tls_Config;
}.

Record http_Client : Type := {
  Timeout : Duration;
  Transport : option http_Transport;
}.

(** jsonclient.Options: [PublicKey] is the PEM text of the log's key, the
    empty string when none is given.  [Logger] is the adaptor over the
    process logger and carries no data. *)
Record jsonclient_Options : Type := {
  PublicKey : string;
}.

(** ctclient.LogClient, as the arguments of [ctclient.New] that built it. *)
Record LogClient : Type := {
  lc_uri : string;
  lc_httpClient : http_Client;
  lc_opts : jsonclient_Options;
}.

Inductive StatResult : Type :=
| StatOk
| StatNotExist (e : error)   (* os.IsNotExist(err) holds *)
| StatError (e : error).     (* any other error *)

(** ** The settings store (viper) *)

(** A pflag.Flag after the command line was parsed: its declared default and
    the value given on the command line, if any. *)
Record Flag : Type := {
  flag_default : Value;
  flag_given : option Value;
}.

(** The state of the settings store.  Keys are taken whole and in lower
    case, as the serve command writes them. *)
Record Viper : Type := {
  v_config : gmap string Value;       (* entries read by ReadInConfig *)
  v_configName : string;
  v_configType : string;
  v_configPaths : list string;
  v_pflags : gmap string Flag;        (* flags bound by BindPFlags *)
  v_envPrefix : string;
  v_automaticEnv : bool;
  v_aliases : gmap string string;     (* alias -> key *)
}.

Definition viper_New : Viper :=
  {| v_config := ∅; v_configName := "config"; v_configType := "";
     v_configPaths := []; v_pflags := ∅; v_envPrefix := "";
     v_automaticEnv := false; v_aliases := ∅ |}.

(** ** Unary RPCs and interceptors *)

(** A unary call as the gRPC server hands it on: method, metadata, and the
    request message as received. *)
Record Call : Type := {
  call_method : string;
  call_metadata : list (string * string);
  call_message : string;
}.

(** What running a handler comes to: it returns (a response or an error),
    or it panics. *)
Inductive Outcome : Type :=
| Returned (r : Result string)
| Panicked (p : string).

Definition UnaryHandler : Type := Call -> Outcome.
Definition UnaryServerInterceptor : Type := Call -> UnaryHandler -> Outcome.

(** server.NewGRPCCAServer's result, as the arguments it was built from. *)
Record GRPCCAServer : Type := {
  srv_ct : option LogClient;
  srv_ca : CertificateAuthority;
  srv_algorithmRegistry : AlgorithmRegistryConfig;
  srv_ip : IssuerPool;
}.

(** The options [StartDuplexServer] gives to duplex.New that bear on the
    gRPC server: port, keepalive, the unary interceptors in chain order,
    and the receive limit. *)
Record Duplex : Type := {
  d_Port : Z;
  d_MaxConnectionIdle : Duration;
  d_UnaryInterceptors : list UnaryServerInterceptor;
  d_MaxRecvMsgSize : Z;
}.

(** ** The world the process runs in *)

Record Env : Type := {
  (* process inputs *)
  cmdline : gmap string Value;        (* flags given on the command line *)
  environ : gmap string string;       (* environment variables *)
  (* os and path/filepath *)
  os_Stat : string -> StatResult;
  os_ReadFile : string -> Result string;
  filepath_Clean : string -> string;
  filepath_Abs : string -> Result string;
  filepath_Ext : string -> string;
  filepath_Base : string -> string;
  filepath_Dir : string -> string;
  (* viper *)
  viper_SupportedExts : list string;
  viper_ReadInConfig : string -> string -> list string -> Result (gmap string Value);
  cast_ToInt : string -> Z;
  cast_ToDuration : string -> Duration;
  Duration_String : Duration -> string;
  (* sigstore/pkg/signature and cryptoutils *)
  FormatSignatureAlgorithmFlag : PublicKeyDetails -> Result string;
  ParseSignatureAlgorithmFlag : string -> Result PublicKeyDetails;
  NewAlgorithmRegistryConfig : list PublicKeyDetails -> Result AlgorithmRegistryConfig;
  LoadCertificatesFromPEM : string -> Result (list Certificate);
  AppendCertsFromPEM : string -> option (list Certificate);
  (* packages of this repository outside cmd/app/serve.go *)
  LegacyUnixDomainSocket : string;
  config_Load : string -> Result FulcioConfig;
  NewIssuerPool : FulcioConfig -> IssuerPool;
  ca_New : CertificateAuthority -> option error;   (* does the backend come up? *)
  ctclient_New_err : string -> http_Client -> jsonclient_Options -> option error;
  panicRecoveryHandler : string -> error;
  PassFulcioConfigThruContext : FulcioConfig -> UnaryServerInterceptor;
  createGRPCServer_err : option error;
  createLegacyGRPCServer_err : option error;
  (* interceptors of other libraries *)
  middleware_UnaryRequestID : UnaryServerInterceptor;
  grpc_zap_UnaryServerInterceptor : UnaryServerInterceptor;
  grpc_prometheus_UnaryServerInterceptor : UnaryServerInterceptor;
  (* network *)
  RegisterHandler_err : string -> option error;
  net_Listen_err : string -> Z -> option error;
  duplex_Serve : option error;           (* what d.Serve returns at shutdown *)
  prom_ListenAndServe : option error;
  prom_Shutdown : option error;
}.

(** ** The startup monad: settings store, trace, fatal exit *)

(** Listeners that accept requests once started, with the server behind
    them. *)
Inductive Listener : Type :=
| DuplexListener (host : string) (port : Z) (d : Duplex) (srv : GRPCCAServer)
| GRPCListener (srv : GRPCCAServer)
| LegacyUnixListener (socket : string) (srv : GRPCCAServer)
| HTTPListener (endpoint : string)
| DuplexMetricsListener (port : Z)
| MetricsListener (addr : string).

Inductive Event : Type :=
| LogWarn (msg : string)
| LogInfo (msg : string)
| LogError (msg : string)
| Serving (l : Listener).       (* the listener began to serve *)

(** What log.Logger.Fatal and log.Logger.Fatalf were called with. *)
Inductive FatalMsg : Type :=
| FatalErr (e : error)
| FatalNil
| FatalText (msg : string)
| FatalInvalidCA (ca : string)
| FatalAlgorithms (cfg : list PublicKeyDetails) (e : error)
| FatalConfigPath (cp : string) (e : error)
| FatalKmsChainRead (path : string) (e : error)
| FatalKmsChainPEM (path : string) (e : error).

Record State : Type := {
  viper : Viper;
  trace : list Event;
}.

(** A step either yields a value or ends the process with an exit code. *)
Inductive Res (A : Type) : Type :=
| Val (a : A)
| Exit (code : Z) (why : FatalMsg).
Arguments Val {A} a.
Arguments Exit {A} code why.

Definition M (A : Type) : Type := State -> Res A * State.

Definition ret {A} (a : A) : M A := fun s => (Val a, s).

Definition bind {A B} (m : M A) (k : A -> M B) : M B :=
  fun s =>
    match m s with
    | (Val a, s') => k a s'
    | (Exit c w, s') => (Exit c w, s')
    end.

Declare Scope startup_scope.
Delimit Scope startup_scope with startup.
Notation "x <- m ;; k" := (bind m (fun x => k))
  (at level 100, m at next level, right associativity) : startup_scope.
Notation "m ;;; k" := (bind m (fun _ => k))
  (at level 100, right associativity) : startup_scope.
Local Open Scope startup_scope.

(** log.Logger.Fatal: the process exits with status 1. *)
Definition Fatal {A} (why : FatalMsg) : M A := fun s => (Exit 1 why, s).

Definition emit (e : Event) : M unit :=
  fun s => (Val tt, {| viper := viper s; trace := trace s ++ [e] |}).

Definition getViper : M Viper := fun s => (Val (viper s), s).

Definition modifyViper (f : Viper -> Viper) : M unit :=
  fun s => (Val tt, {| viper := f (viper s); trace := trace s |}).

(** [when c m]: Go's [if c { m }]. *)
Definition when (c : bool) (m : M unit) : M unit := if c then m else ret tt.

(** The listeners a trace started, in order. *)
Definition listeners (t : list Event) : list Listener :=
  omap (fun e => match e with Serving l => Some l | _ => None end) t.

(** The CA servers behind them, and the duplex servers with their options. *)
Definition servers (t : list Event) : list GRPCCAServer :=
  omap (fun l => match l with
                 | DuplexListener _ _ _ srv
                 | GRPCListener srv
                 | LegacyUnixListener _ srv => Some srv
                 | _ => None
                 end) (listeners t).

Definition duplexes (t : list Event) : list Duplex :=
  omap (fun l => match l with
                 | DuplexListener _ _ d _ => Some d
                 | _ => None
                 end) (listeners t).

(** No listener has begun to serve. *)
Definition never_served (s : State) : Prop := listeners (trace s) = [].

(** The state of the process when [main] starts. *)
Definition initial : State := {| viper := viper_New; trace := [] |}.

(** ** cmd/app/serve.go *)

Definition serveCmdEnvPrefix : string := "FULCIO_SERVE".
Definition defaultConfigPath : string := "/etc/fulcio-config/config.yaml".

(** 1 << 22, 4MiB *)
Definition maxMsgSize : Z := Z.shiftl 1 22.

(** http.ErrServerClosed *)
Definition http_ErrServerClosed : error := "http: Server closed".

(** The algorithms [newServeCmd] hands to
    [buildDefaultClientSigningAlgorithms]. *)
Definition defaultAllowedAlgorithms : list PublicKeyDetails :=
  [ PKIX_ECDSA_P256_SHA_256;
    PKIX_ECDSA_P384_SHA_384;
    PKIX_ECDSA_P521_SHA_512;
    PKIX_RSA_PKCS1V15_2048_SHA256;
    PKIX_RSA_PKCS1V15_3072_SHA256;
    PKIX_RSA_PKCS1V15_4096_SHA256;
    PKIX_ED25519 ].

Section ServeCmd.

Variable E : Env.

Import GoStrings.

(** viper's realKey: an alias stands for its key. *)
Definition realKey (v : Viper) (key : string) : string :=
  default key (v_aliases v !! key).

(** mergeWithEnvPrefix *)
Definition envKey (v : Viper) (key : string) : string :=
  if String.eqb (v_envPrefix v) "" then ToUpper key
  else ToUpper (v_envPrefix v ++ "_" ++ key).

(** getEnv: an empty variable counts as unset. *)
Definition getEnv (name : string) : option string :=
  match environ E !! name with
  | Some val => if String.eqb val "" then None else Some val
  | None => None
  end.

(** viper's find: command-line flag, environment, config file, and, when
    [flagDefault] holds, the flag's default. *)
Definition find (v : Viper) (key : string) (flagDefault : bool) : option Value :=
  let k := realKey v key in
  match v_pflags v !! k ≫= flag_given with
  | Some x => Some x
  | None =>
      match (if v_automaticEnv v then getEnv (envKey v k) else None) with
      | Some val => Some (VString val)
      | None =>
          match v_config v !! k with
          | Some x => Some x
          | None =>
              if flagDefault then flag_default <$> (v_pflags v !! k) else None
          end
      end
  end.

Definition IsSet (v : Viper) (key : string) : bool :=
  match find v key false with Some _ => true | None => false end.

(** The typed getters cast what [find] returns (spf13/cast); a value that
    does not cast gives Go's zero value. *)

(** strconv.ParseBool, with false on error as cast.ToBool has it. *)
Definition ParseBool (s : string) : bool :=
  existsb (String.eqb s) ["1"; "t"; "T"; "TRUE"; "true"; "True"].

Definition GetString (v : Viper) (key : string) : string :=
  match find v key true with
  | Some (VString s) => s
  | Some (VBool b) => if b then "true" else "false"
  | Some (VDuration d) => Duration_String E d
  | Some (VStringSlice _) | None => ""
  end.

Definition GetBool (v : Viper) (key : string) : bool :=
  match find v key true with
  | Some (VBool b) => b
  | Some (VString s) => ParseBool s
  | Some (VDuration d) => negb (d =? 0)
  | Some (VStringSlice _) | None => false
  end.

Definition GetInt (v : Viper) (key : string) : Z :=
  match find v key true with
  | Some (VString s) => cast_ToInt E s
  | Some (VBool b) => if b then 1 else 0
  | Some (VDuration _) | Some (VStringSlice _) | None => 0
  end.

Definition GetDuration (v : Viper) (key : string) : Duration :=
  match find v key true with
  | Some (VDuration d) => d
  | Some (VString s) => cast_ToDuration E s
  | Some (VBool _) | Some (VStringSlice _) | None => 0
  end.

Definition GetStringSlice (v : Viper) (key : string) : list string :=
  match find v key true with
  | Some (VStringSlice l) => l
  | Some (VString s) => Fields s
  | Some (VBool b) => [if b then "true" else "false"]
  | Some (VDuration d) => [Duration_String E d]
  | None => []
  end.

Definition getString (key : string) : M string :=
  v <- getViper ;; ret (GetString v key).
Definition isSet (key : string) : M bool :=
  v <- getViper ;; ret (IsSet v key).

(** *** buildDefaultClientSigningAlgorithms *)

(** The loop of [buildDefaultClientSigningAlgorithms]; [algorithmStrings]
    is the slice appended to. *)
Fixpoint formatAlgorithms (allowedAlgorithms : list PublicKeyDetails)
    (algorithmStrings : list string) : M (list string) :=
  match allowedAlgorithms with
  | [] => ret algorithmStrings
  | algorithm :: rest =>
      match FormatSignatureAlgorithmFlag E algorithm with
      | inr err => Fatal (FatalErr err)
      | inl algorithmString =>
          formatAlgorithms rest (algorithmStrings ++ [algorithmString])
      end
  end.

Definition buildDefaultClientSigningAlgorithms
    (allowedAlgorithms : list PublicKeyDetails) : M (list string) :=
  formatAlgorithms allowedAlgorithms [].

(** *** newServeCmd *)

Definition RegisterAlias (alias key : string) (v : Viper) : Viper :=
  {| v_config := v_config v; v_configName := v_configName v;
     v_configType := v_configType v; v_configPaths := v_configPaths v;
     v_pflags := v_pflags v; v_envPrefix := v_envPrefix v;
     v_automaticEnv := v_automaticEnv v;
     v_aliases := <[alias := key]> (v_aliases v) |}.

(** The flags [newServeCmd] declares with their defaults, in source order;
    [algorithms] is what [buildDefaultClientSigningAlgorithms] returned. *)
Definition serveFlags (algorithms : list string) : list (string * Value) :=
  [ ("config", VString "");
    ("log_type", VString "dev");
    ("ca", VString "");
    ("aws-hsm-root-ca-path", VString "");
    ("gcp_private_ca_parent", VString "");
    ("hsm-caroot-id", VString "");
    ("ct-log-url", VString "http://localhost:6962/test");
    ("ct-log-public-key-path", VString "");
    ("config-path", VString defaultConfigPath);
    ("pkcs11-config-path", VString "config/crypto11.conf");
    ("fileca-cert", VString "");
    ("fileca-key", VString "");
    ("fileca-key-passwd", VString "");
    ("fileca-watch", VBool true);
    ("kms-resource", VString "");
    ("kms-cert-chain-path", VString "");
    ("tink-kms-resource", VString "");
    ("tink-cert-chain-path", VString "");
    ("tink-keyset-path", VString "");
    ("host", VString "0.0.0.0");
    ("port", VString "8080");
    ("grpc-host", VString "0.0.0.0");
    ("grpc-port", VString "8081");
    ("metrics-port", VString "2112");
    ("legacy-unix-domain-socket", VString (LegacyUnixDomainSocket E));
    ("read-header-timeout", VDuration (10 * Second));
    ("grpc-tls-certificate", VString "");
    ("grpc-tls-key", VString "");
    ("idle-connection-timeout", VDuration (30 * Second));
    ("ct-log.tls-ca-cert", VString "");
    ("client-signing-algorithms", VStringSlice algorithms) ].

(** The command's flag declarations; the two aliases are registered with
    the settings store on the way. *)
Definition newServeCmd : M (list (string * Value)) :=
  algorithms <- buildDefaultClientSigningAlgorithms defaultAllowedAlgorithms ;;
  modifyViper (RegisterAlias "http-host" "host") ;;;
  modifyViper (RegisterAlias "http-port" "port") ;;;
  ret (serveFlags algorithms).

(** The flag set once cobra has parsed the command line: each declared flag
    with the value given for it, if any.  [cmdline] is keyed by flag name
    after the command's normalisation of http-host and http-port. *)
Definition parseFlags (decls : list (string * Value)) : gmap string Flag :=
  list_to_map
    (map (fun d => (d.1, {| flag_default := d.2;
                            flag_given := cmdline E !! d.1 |})) decls).

(** The variable the [config] flag is bound to. *)
Definition serveCmdConfigFilePath (flags : gmap string Flag) : string :=
  match flags !! "config" with
  | Some {| flag_given := Some (VString p) |} => p
  | _ => ""
  end.

(** *** checkServeCmdConfigFile *)

Definition SetConfigName (name : string) (v : Viper) : Viper :=
  {| v_config := v_config v; v_configName := name;
     v_configType := v_configType v; v_configPaths := v_configPaths v;
     v_pflags := v_pflags v; v_envPrefix := v_envPrefix v;
     v_automaticEnv := v_automaticEnv v; v_aliases := v_aliases v |}.

Definition SetConfigType (ty : string) (v : Viper) : Viper :=
  {| v_config := v_config v; v_configName := v_configName v;
     v_configType := ty; v_configPaths := v_configPaths v;
     v_pflags := v_pflags v; v_envPrefix := v_envPrefix v;
     v_automaticEnv := v_automaticEnv v; v_aliases := v_aliases v |}.

Definition AddConfigPath (dir : string) (v : Viper) : Viper :=
  {| v_config := v_config v; v_configName := v_configName v;
     v_configType := v_configType v;
     v_configPaths := v_configPaths v ++ [dir];
     v_pflags := v_pflags v; v_envPrefix := v_envPrefix v;
     v_automaticEnv := v_automaticEnv v; v_aliases := v_aliases v |}.

Definition setConfig (c : gmap string Value) (v : Viper) : Viper :=
  {| v_config := c; v_configName := v_configName v;
     v_configType := v_configType v; v_configPaths := v_configPaths v;
     v_pflags := v_pflags v; v_envPrefix := v_envPrefix v;
     v_automaticEnv := v_automaticEnv v; v_aliases := v_aliases v |}.

Definition ReadInConfig : M (option error) :=
  v <- getViper ;;
  match viper_ReadInConfig E (v_configName v) (v_configType v) (v_configPaths v) with
  | inr err => ret (Some err)
  | inl c => modifyViper (setConfig c) ;;; ret None
  end.

Definition checkServeCmdConfigFile (path : string) : M (option error) :=
  if negb (String.eqb path "") then
    match os_Stat E path with
    | StatNotExist err | StatError err =>
        ret (Some ("unable to stat config file provided: " ++ err))
    | StatOk =>
        match filepath_Abs E path with
        | inr err =>
            ret (Some ("unable to determine absolute path of config file provided: " ++ err))
        | inl abspath =>
            let extWithDot := filepath_Ext E abspath in
            let ext := TrimPrefix extWithDot "." in
            let extIsValid := existsb (String.eqb ext) (viper_SupportedExts E) in
            if negb extIsValid then
              ret (Some ("config file must have one of the following extensions: "
                         ++ String.concat ", " (viper_SupportedExts E)))
            else
              modifyViper (SetConfigName (TrimSuffix (filepath_Base E abspath) extWithDot)) ;;;
              modifyViper (SetConfigType ext) ;;;
              modifyViper (AddConfigPath (filepath_Dir E path)) ;;;
              r <- ReadInConfig ;;
              match r with
              | Some err => ret (Some ("unable to parse config file provided: " ++ err))
              | None => ret None
              end
        end
    end
  else ret None.

(** *** runServeCmd, lines 160-172: settings binding *)

(** viper.BindPFlags: every flag of the set becomes a source of the store.
    It reports an error only for a nil flag, which a parsed set has not. *)
Definition BindPFlags (flags : gmap string Flag) : M (option error) :=
  modifyViper (fun v =>
    {| v_config := v_config v; v_configName := v_configName v;
       v_configType := v_configType v; v_configPaths := v_configPaths v;
       v_pflags := flags ∪ v_pflags v; v_envPrefix := v_envPrefix v;
       v_automaticEnv := v_automaticEnv v; v_aliases := v_aliases v |}) ;;;
  ret None.

Definition SetEnvPrefix (prefix : string) (v : Viper) : Viper :=
  {| v_config := v_config v; v_configName := v_configName v;
     v_configType := v_configType v; v_configPaths := v_configPaths v;
     v_pflags := v_pflags v; v_envPrefix := prefix;
     v_automaticEnv := v_automaticEnv v; v_aliases := v_aliases v |}.

Definition AutomaticEnv (v : Viper) : Viper :=
  {| v_config := v_config v; v_configName := v_configName v;
     v_configType := v_configType v; v_configPaths := v_configPaths v;
     v_pflags := v_pflags v; v_envPrefix := v_envPrefix v;
     v_automaticEnv := true; v_aliases := v_aliases v |}.

(** [if err := f(); err != nil { log.Logger.Fatal(err) }] *)
Definition fatalOnErr (m : M (option error)) : M unit :=
  err <- m ;;
  match err with
  | Some e => Fatal (FatalErr e)
  | None => ret tt
  end.

Definition bindSettings (flags : gmap string Flag) : M unit :=
  fatalOnErr (checkServeCmdConfigFile (serveCmdConfigFilePath flags)) ;;;
  fatalOnErr (BindPFlags flags) ;;;
  modifyViper (SetEnvPrefix serveCmdEnvPrefix) ;;;
  modifyViper AutomaticEnv.

(** *** runServeCmd, lines 174-222: the [--ca] validation switch *)

(** The case a Go [switch] on the [ca] setting selects; both switches of
    [runServeCmd] list their cases as string constants, the first that
    equals the value wins. *)
Inductive ValidationCase : Type :=
| VEmpty | VPkcs11ca | VGoogleca | VFileca | VKmsca | VTinkca | VEphemeralca
| VDefault.

Definition validationCase (ca : string) : ValidationCase :=
  if String.eqb ca "" then VEmpty
  else if String.eqb ca "pkcs11ca" then VPkcs11ca
  else if String.eqb ca "googleca" then VGoogleca
  else if String.eqb ca "fileca" then VFileca
  else if String.eqb ca "kmsca" then VKmsca
  else if String.eqb ca "tinkca" then VTinkca
  else if String.eqb ca "ephemeralca" then VEphemeralca
  else VDefault.

(** [if !viper.IsSet(key) { log.Logger.Fatal(msg) }] *)
Definition mustBeSet (key msg : string) : M unit :=
  set <- isSet key ;;
  when (negb set) (Fatal (FatalText msg)).

Definition validateCA : M unit :=
  ca <- getString "ca" ;;
  match validationCase ca with
  | VEmpty =>
      Fatal (FatalText ("required flag " ++ dquote ++ "ca" ++ dquote ++ " not set"))
  | VPkcs11ca =>
      mustBeSet "hsm-caroot-id" "hsm-caroot-id must be set when using pkcs11ca"
  | VGoogleca =>
      mustBeSet "gcp_private_ca_parent"
                "gcp_private_ca_parent must be set when using googleca" ;;;
      deprecated <- isSet "gcp_private_ca_version" ;;
      when deprecated
        (emit (LogWarn "gcp_private_ca_version is deprecated and will soon be removed; please remove it"))
  | VFileca =>
      mustBeSet "fileca-cert"
                "fileca-cert must be set to certificate path when using fileca" ;;;
      mustBeSet "fileca-key"
                "fileca-key must be set to private key path when using fileca" ;;;
      mustBeSet "fileca-key-passwd"
                "fileca-key-passwd must be set to encryption password for private key file when using fileca"
  | VKmsca =>
      mustBeSet "kms-resource" "kms-resource must be set when using kmsca" ;;;
      mustBeSet "kms-cert-chain-path" "kms-cert-chain-path must be set when using kmsca"
  | VTinkca =>
      mustBeSet "tink-kms-resource" "tink-kms-resource must be set when using tinkca" ;;;
      mustBeSet "tink-cert-chain-path" "tink-cert-chain-path must be set when using tinkca" ;;;
      mustBeSet "tink-keyset-path" "tink-keyset-path must be set when using tinkca"
  | VEphemeralca => ret tt
  | VDefault =>
      ca' <- getString "ca" ;;
      Fatal (FatalInvalidCA ca')
  end.

(** *** runServeCmd, lines 227-239: the allowed client algorithms *)

(** log.ConfigureLogger (line 225) and flag.CommandLine.Parse (line 242)
    touch neither the settings store nor the trace. *)

(** The loop over [algorithmStrings]; [algorithmConfig] is the slice
    appended to. *)
Fixpoint parseAlgorithms (algorithmStrings : list string)
    (algorithmConfig : list PublicKeyDetails) : M (list PublicKeyDetails) :=
  match algorithmStrings with
  | [] => ret algorithmConfig
  | s :: rest =>
      match ParseSignatureAlgorithmFlag E s with
      | inr err => Fatal (FatalErr err)
      | inl algorithmValue => parseAlgorithms rest (algorithmConfig ++ [algorithmValue])
      end
  end.

Definition loadAlgorithmConfig : M (list PublicKeyDetails) :=
  v <- getViper ;;
  parseAlgorithms (GetStringSlice v "client-signing-algorithms") [].

Definition loadAlgorithms : M AlgorithmRegistryConfig :=
  algorithmConfig <- loadAlgorithmConfig ;;
  match NewAlgorithmRegistryConfig E algorithmConfig with
  | inr err => Fatal (FatalAlgorithms algorithmConfig err)
  | inl algorithmRegistry => ret algorithmRegistry
  end.

(** *** runServeCmd, lines 244-255: the configuration file *)

(** The path [config.Load] is called with. *)
Definition configPath : M string :=
  cp <- getString "config-path" ;;
  if String.eqb cp defaultConfigPath then
    match os_Stat E cp with
    | StatNotExist err =>
        emit (LogWarn ("warn loading --config-path=" ++ cp ++ ": " ++ err
                       ++ ", fall back to json")) ;;;
        ret (TrimSuffix cp ".yaml" ++ ".json")
    | StatOk | StatError _ => ret cp
    end
  else ret cp.

Definition loadConfig : M FulcioConfig :=
  cp <- configPath ;;
  match config_Load E cp with
  | inr err => Fatal (FatalConfigPath cp err)
  | inl cfg => ret cfg
  end.

(** *** runServeCmd, lines 257-300: the CA construction switch *)

Inductive ConstructionCase : Type :=
| CGoogleca | CPkcs11ca | CFileca | CEphemeralca | CKmsca | CTinkca
| CDefault.

Definition constructionCase (ca : string) : ConstructionCase :=
  if String.eqb ca "googleca" then CGoogleca
  else if String.eqb ca "pkcs11ca" then CPkcs11ca
  else if String.eqb ca "fileca" then CFileca
  else if String.eqb ca "ephemeralca" then CEphemeralca
  else if String.eqb ca "kmsca" then CKmsca
  else if String.eqb ca "tinkca" then CTinkca
  else CDefault.

(** A backend constructor: the backend, or the error it failed with. *)
Definition construct (ca : CertificateAuthority) : Result CertificateAuthority :=
  match ca_New E ca with
  | Some err => inr err
  | None => inl ca
  end.

(** The switch itself: [baseca, err] after it. *)
Definition constructCA : M (Result CertificateAuthority) :=
  v <- getViper ;;
  match constructionCase (GetString v "ca") with
  | CGoogleca =>
      ret (construct (GoogleCA (GetString v "gcp_private_ca_parent")))
  | CPkcs11ca =>
      let params :=
        {| ConfigPath := GetString v "pkcs11-config-path";
           RootID := GetString v "hsm-caroot-id";
           CAPath := if IsSet v "aws-hsm-root-ca-path"
                     then Some (GetString v "aws-hsm-root-ca-path")
                     else None |} in
      ret (construct (PKCS11CA params))
  | CFileca =>
      let certFile := GetString v "fileca-cert" in
      let keyFile := GetString v "fileca-key" in
      let keyPass := GetString v "fileca-key-passwd" in
      let watch := GetBool v "fileca-watch" in
      ret (construct (FileCA certFile keyFile keyPass watch))
  | CEphemeralca =>
      ret (construct EphemeralCA)
  | CKmsca =>
      match os_ReadFile E (filepath_Clean E (GetString v "kms-cert-chain-path")) with
      | inr err => Fatal (FatalKmsChainRead (GetString v "kms-cert-chain-path") err)
      | inl data =>
          match LoadCertificatesFromPEM E data with
          | inr err => Fatal (FatalKmsChainPEM (GetString v "kms-cert-chain-path") err)
          | inl certs => ret (construct (KMSCA (GetString v "kms-resource") certs))
          end
      end
  | CTinkca =>
      ret (construct (TinkCA (GetString v "tink-kms-resource")
                             (GetString v "tink-keyset-path")
                             (GetString v "tink-cert-chain-path")))
  | CDefault =>
      ret (inr "invalid value for configured CA: <nil>")
  end.

(** [baseca] once the error of the switch is checked.  The deferred
    [baseca.Close()] runs when [runServeCmd] returns and is not part of the
    state followed here. *)
Definition newCA : M CertificateAuthority :=
  r <- constructCA ;;
  match r with
  | inr err => Fatal (FatalErr err)
  | inl baseca => ret baseca
  end.

(** *** runServeCmd, lines 302-345: the CT log client *)

(** [opts] once the optional public key is read. *)
Definition ctOptions : M jsonclient_Options :=
  pubKeyPath <- getString "ct-log-public-key-path" ;;
  if negb (String.eqb pubKeyPath "") then
    match os_ReadFile E (filepath_Clean E pubKeyPath) with
    | inr err => Fatal (FatalErr err)
    | inl pemPubKey => ret {| PublicKey := pemPubKey |}
    end
  else ret {| PublicKey := "" |}.

(** [httpClient], with or without a TLS root of its own. *)
Definition ctHTTPClient : M http_Client :=
  tlsCaCertPath <- getString "ct-log.tls-ca-cert" ;;
  if negb (String.eqb tlsCaCertPath "") then
    match os_ReadFile E (filepath_Clean E tlsCaCertPath) with
    | inr err => Fatal (FatalErr err)
    | inl tlsCaCert =>
        match AppendCertsFromPEM E tlsCaCert with
        | None => Fatal (FatalText "failed to append TLS CA certificate")
        | Some caCertPool =>
            let tlsConfig := {| RootCAs := caCertPool; MinVersion := VersionTLS12 |} in
            let transport := {| TLSClientConfig := tlsConfig |} in
            ret {| Timeout := 30 * Second; Transport := Some transport |}
        end
    end
  else ret {| Timeout := 30 * Second; Transport := None |}.

(** ctclient.New *)
Definition ctclient_New (uri : string) (hc : http_Client)
    (opts : jsonclient_Options) : Result LogClient :=
  match ctclient_New_err E uri hc opts with
  | Some err => inr err
  | None => inl {| lc_uri := uri; lc_httpClient := hc; lc_opts := opts |}
  end.

(** [ctClient]: nil ([None]) unless a log URL is configured. *)
Definition newCTClient : M (option LogClient) :=
  logURL <- getString "ct-log-url" ;;
  if negb (String.eqb logURL "") then
    opts <- ctOptions ;;
    httpClient <- ctHTTPClient ;;
    match ctclient_New logURL httpClient opts with
    | inr err => Fatal (FatalErr err)
    | inl ctClient => ret (Some ctClient)
    end
  else ret None.

(** *** StartDuplexServer *)

(** grpcmw.ChainUnaryServer: the first interceptor is the outermost, each
    one receives the rest of the chain as its handler. *)
Definition ChainUnaryServer (interceptors : list UnaryServerInterceptor)
  : UnaryServerInterceptor :=
  fun call handler =>
    fold_right (fun (interceptor : UnaryServerInterceptor) (chained : UnaryHandler) =>
                  fun c => interceptor c chained)
               handler interceptors call.

(** grpc_recovery.UnaryServerInterceptor with a recovery handler: a panic
    of the wrapped handler becomes the error the recovery handler gives. *)
Definition grpc_recovery_UnaryServerInterceptor (recoveryHandler : string -> error)
  : UnaryServerInterceptor :=
  fun call handler =>
    match handler call with
    | Panicked p => Returned (inr (recoveryHandler p))
    | Returned r => Returned r
    end.

(** The interceptors in the order [StartDuplexServer] lists them. *)
Definition duplexInterceptors (cfg : FulcioConfig) : list UnaryServerInterceptor :=
  [ grpc_recovery_UnaryServerInterceptor (panicRecoveryHandler E);
    middleware_UnaryRequestID E;
    grpc_zap_UnaryServerInterceptor E;
    PassFulcioConfigThruContext E cfg;
    grpc_prometheus_UnaryServerInterceptor E ].

(** [d], the result of duplex.New. *)
Definition newDuplex (cfg : FulcioConfig) (v : Viper) (port : Z) : Duplex :=
  {| d_Port := port;
     d_MaxConnectionIdle := GetDuration v "idle-connection-timeout";
     d_UnaryInterceptors := duplexInterceptors cfg;
     d_MaxRecvMsgSize := maxMsgSize |}.

Definition NewGRPCCAServer (ctClient : option LogClient)
    (baseca : CertificateAuthority) (algorithmRegistry : AlgorithmRegistryConfig)
    (ip : IssuerPool) : GRPCCAServer :=
  {| srv_ct := ctClient; srv_ca := baseca;
     srv_algorithmRegistry := algorithmRegistry; srv_ip := ip |}.

Definition StartDuplexServer (cfg : FulcioConfig) (ctClient : option LogClient)
    (baseca : CertificateAuthority) (algorithmRegistry : AlgorithmRegistryConfig)
    (host : string) (port metricsPort : Z) (ip : IssuerPool) : M (option error) :=
  v <- getViper ;;
  let d := newDuplex cfg v port in
  let grpcCAServer := NewGRPCCAServer ctClient baseca algorithmRegistry ip in
  match RegisterHandler_err E "protobuf.RegisterCAHandlerFromEndpoint" with
  | Some err => ret (Some ("registering grpc ca handler: " ++ err))
  | None =>
  match RegisterHandler_err E "legacy.RegisterCAHandlerFromEndpoint" with
  | Some err => ret (Some ("registering legacy grpc ca handler: " ++ err))
  | None =>
  match RegisterHandler_err E "duplexHealthz" with
  | Some err => ret (Some ("registering healthz endpoint: " ++ err))
  | None =>
      emit (Serving (DuplexMetricsListener metricsPort)) ;;;
      match net_Listen_err E host port with
      | Some err => ret (Some ("creating listener: " ++ err))
      | None =>
          emit (LogInfo "Starting duplex server...") ;;;
          emit (Serving (DuplexListener host port d grpcCAServer)) ;;;
          match duplex_Serve E with
          | Some err => ret (Some ("duplex server: " ++ err))
          | None => ret None
          end
      end
  end end end.

(** *** runServeCmd, lines 346-412: the servers *)

(** The servers of the split mode.  The listeners run on goroutines of
    their own; the trace lists them in the order they are started, and the
    shutdown goroutine where the main goroutine waits for it.
    [createGRPCServer] is not among the source files: it is passed
    [ctClient], [baseca], [algorithmRegistry] and [ip], and its CA service
    is taken to be the server built from them.  A [Serving] event says
    that the listener was handed to the call that starts it
    (startTCPListener, startUnixListener, startListener,
    prom.ListenAndServe); those of the first three are not among the
    source files either, and whether the listener then comes up is theirs
    to say.  The two waits of the main goroutine, for the shutdown
    goroutine and for the wait group, leave no event: [Val tt] is the
    result once they are over. *)
Definition serveSplit (cfg : FulcioConfig) (ctClient : option LogClient)
    (baseca : CertificateAuthority) (algorithmRegistry : AlgorithmRegistryConfig)
    (ip : IssuerPool) : M unit :=
  v <- getViper ;;
  let httpServerEndpoint := GetString v "http-host" ++ ":" ++ GetString v "http-port" in
  match createGRPCServer_err E with
  | Some err => Fatal (FatalErr err)
  | None =>
      let caService := NewGRPCCAServer ctClient baseca algorithmRegistry ip in
      emit (Serving (GRPCListener caService)) ;;;
      match createLegacyGRPCServer_err E with
      | Some err => Fatal (FatalErr err)
      | None =>
          emit (Serving (LegacyUnixListener (GetString v "legacy-unix-domain-socket")
                                            caService)) ;;;
          emit (Serving (HTTPListener httpServerEndpoint)) ;;;
          emit (Serving (MetricsListener (":" ++ GetString v "metrics-port"))) ;;;
          match prom_ListenAndServe E with
          | Some err =>
              when (negb (String.eqb err http_ErrServerClosed)) (Fatal (FatalErr err))
          | None => ret tt
          end ;;;
          match prom_Shutdown E with
          | Some err => emit (LogError ("HTTP server Shutdown: " ++ err))
          | None => ret tt
          end ;;;
          emit (LogInfo "stopped prom server") ;;;
          emit (LogInfo "prom server shutdown")
      end
  end.

Definition serveAll (cfg : FulcioConfig) (ctClient : option LogClient)
    (baseca : CertificateAuthority) (algorithmRegistry : AlgorithmRegistryConfig)
  : M unit :=
  let ip := NewIssuerPool E cfg in
  v <- getViper ;;
  let portsMatch := String.eqb (GetString v "port") (GetString v "grpc-port") in
  let hostsMatch := String.eqb (GetString v "host") (GetString v "grpc-host") in
  if portsMatch && hostsMatch then
    let port := GetInt v "port" in
    let metricsPort := GetInt v "metrics-port" in
    err <- StartDuplexServer cfg ctClient baseca algorithmRegistry
                             (GetString v "host") port metricsPort ip ;;
    match err with
    | Some e =>
        if negb (String.eqb e http_ErrServerClosed) then Fatal (FatalErr e) else ret tt
    | None => Fatal FatalNil
    end
  else serveSplit cfg ctClient baseca algorithmRegistry ip.

(** *** runServeCmd *)

(** Lines 160-255: everything before the CA is constructed. *)
Definition preflight (flags : gmap string Flag)
  : M (AlgorithmRegistryConfig * FulcioConfig) :=
  bindSettings flags ;;;
  validateCA ;;;
  algorithmRegistry <- loadAlgorithms ;;
  cfg <- loadConfig ;;
  ret (algorithmRegistry, cfg).

Definition runServeCmd (flags : gmap string Flag) : M unit :=
  pre <- preflight flags ;;
  let '(algorithmRegistry, cfg) := pre in
  baseca <- newCA ;;
  ctClient <- newCTClient ;;
  serveAll cfg ctClient baseca algorithmRegistry.

(** The serve command from process start: the command is built, the
    command line parsed, and [runServeCmd] run. *)
Definition serve : M unit :=
  decls <- newServeCmd ;;
  runServeCmd (parseFlags decls).

Definition run : Res unit * State := serve initial.
End ServeCmd.

(** ** The gRPC server in front of the handlers *)

Module GRPC.

(** The status with code ResourceExhausted a too large message is refused
    with. *)
Definition ResourceExhausted : error := "grpc: received message larger than max".

Definition message_size (c : Call) : Z := Z.of_nat (String.length (call_message c)).

(** A unary call on a server built with the options [d]: a message over
    the receive limit is refused when it is read; any other call runs the
    interceptor chain around the method's handler. *)
Definition serveUnary (d : Duplex) (handler : UnaryHandler) (c : Call) : Outcome :=
  if d_MaxRecvMsgSize d <? message_size c
  then Returned (inr ResourceExhausted)
  else ChainUnaryServer (d_UnaryInterceptors d) c handler.

(** A panic that reaches the server's goroutine ends the process. *)
Definition process_survives (o : Outcome) : Prop :=
  match o with
  | Returned _ => True
  | Panicked _ => False
  end.

Definition is_error_response (o : Outcome) : Prop :=
  match o with
  | Returned (inr _) => True
  | _ => False
  end.

End GRPC.

(** ** The issuance handler *)

Module Issuance.

(** The issuance handler, the certificate body and the exchange with the CT
    log live in packages (server, ca, ctl) that are not among the source
    files.  Everything in this module is modelled from the specification:
    the steps and their order are those of its section 4.G, the error kinds
    those of section 7, the artifacts those of section 3.  Cryptographic
    checks and the remote parties are fields of [Backend]. *)

(** Modelled from the spec: the error kinds surfaced to clients (section 7). *)
Inductive ErrorKind : Type :=
| invalid_argument | unsupported_algorithm | invalid_credentials
| permission_denied | failed_precondition | unavailable
| deadline_exceeded | internal.

(** Modelled from the spec: an X.509 extension, (OID, critical, value). *)
Record Extension : Type := {
  ext_oid : string;
  ext_critical : bool;
  ext_value : string;
}.

(** Modelled from the spec: the [tbsCertificate] of step 5; times are Unix
    times in nanoseconds. *)
Record TBSCertificate : Type := {
  tbs_serial : Z;
  NotBefore : Z;
  NotAfter : Z;
  tbs_publicKey : string;
  tbs_san : string;
  tbs_extensions : list Extension;
}.

(** Modelled from the spec: a certificate body with the CA's signature
    (precertificate or final certificate). *)
Record SignedCertificate : Type := {
  cert_tbs : TBSCertificate;
  cert_signature : string;
}.

(** Modelled from the spec: the request of section 6, a CSR or a raw
    public key with its proof of possession, and the OIDC token. *)
Inductive KeyMaterial : Type :=
| CSR (der : string)
| PublicKeyAndProof (details : PublicKeyDetails) (content : string)
                    (proof_of_possession : string).

Record Request : Type := {
  oidc_identity_token : string;
  key_material : KeyMaterial;
}.

(** Modelled from the spec: the response of section 6; the SCT is absent
    when CT is disabled. *)
Record SigningCertificate : Type := {
  certificate : SignedCertificate;
  chain : list Certificate;
  signed_certificate_timestamp : option string;
}.

(** Modelled from the spec: what a principal contributes to the
    certificate, its SAN entry and its extensions (section 4.A). *)
Record Principal : Type := {
  principal_san : string;
  principal_extensions : list Extension;
}.

(** Modelled from the spec: the collaborators of the handler.  The clock,
    the CA's configured validity window, the serial source, key parsing,
    proof of possession, token verification with principal extraction
    (sections 4.B, 4.C, 4.A), the CA's signature and trust bundle (4.D),
    and the log's add-pre-chain after its one retry (4.F).  Section 4.G,
    step 5, gives the window as "the CA's configured window (<= 10 min)":
    a window is a configuration value of at most ten minutes, and the
    bound comes with it. *)
Record Backend : Type := {
  now : Z;
  validity_window : Duration;
  validity_window_bounded : validity_window <= 10 * Minute;
  fresh_serial : Z;
  public_key_of : KeyMaterial -> option (PublicKeyDetails * string);
  proof_of_possession_ok : Request -> bool;
  principal_of_token : IssuerPool -> string -> ErrorKind + Principal;
  ca_sign : CertificateAuthority -> TBSCertificate -> option string;
  trust_bundle : CertificateAuthority -> list Certificate;
  add_pre_chain : LogClient -> SignedCertificate -> option string;
}.

(** Modelled from the spec: what handling one request comes to, the
    response and the precertificates that were sent to the log on the way
    (the only external write, section 5). *)
Record Handled : Type := {
  response : ErrorKind + SigningCertificate;
  submitted : list SignedCertificate;
}.

(** Modelled from the spec: the poison and SCT-list extensions of steps 6
    and 7. *)
Definition asn1_NULL : string := String "005"%char (String "000"%char EmptyString).

Definition poison : Extension :=
  {| ext_oid := "1.3.6.1.4.1.11129.2.4.3"; ext_critical := true;
     ext_value := asn1_NULL |}.

Definition sct_list (sct : string) : Extension :=
  {| ext_oid := "1.3.6.1.4.1.11129.2.4.2"; ext_critical := false;
     ext_value := sct |}.

Definition with_extension (x : Extension) (t : TBSCertificate) : TBSCertificate :=
  {| tbs_serial := tbs_serial t; NotBefore := NotBefore t; NotAfter := NotAfter t;
     tbs_publicKey := tbs_publicKey t; tbs_san := tbs_san t;
     tbs_extensions := tbs_extensions t ++ [x] |}.

Definition rejected (e : ErrorKind) (sent : list SignedCertificate) : Handled :=
  {| response := inl e; submitted := sent |}.

(** Modelled from the spec: steps 5 to 8 for a verified principal.  With a
    CT client the precertificate is signed and submitted, and the final
    certificate carries the SCT; without one the body is signed once and
    the response has no SCT. *)
Definition issue (B : Backend) (srv : GRPCCAServer) (key : string)
    (p : Principal) : Handled :=
  let tbs :=
    {| tbs_serial := fresh_serial B;
       NotBefore := now B;
       NotAfter := now B + validity_window B;
       tbs_publicKey := key;
       tbs_san := principal_san p;
       tbs_extensions := principal_extensions p |} in
  match srv_ct srv with
  | Some log =>
      let pre := with_extension poison tbs in
      match ca_sign B (srv_ca srv) pre with
      | None => rejected unavailable []
      | Some sig =>
          let precert := {| cert_tbs := pre; cert_signature := sig |} in
          match add_pre_chain B log precert with
          | None => rejected unavailable [precert]
          | Some sct =>
              let final := with_extension (sct_list sct) tbs in
              match ca_sign B (srv_ca srv) final with
              | None => rejected unavailable [precert]
              | Some sig' =>
                  {| response :=
                       inr {| certificate := {| cert_tbs := final; cert_signature := sig' |};
                              chain := trust_bundle B (srv_ca srv);
                              signed_certificate_timestamp := Some sct |};
                     submitted := [precert] |}
              end
          end
      end
  | None =>
      match ca_sign B (srv_ca srv) tbs with
      | None => rejected unavailable []
      | Some sig =>
          {| response :=
               inr {| certificate := {| cert_tbs := tbs; cert_signature := sig |};
                      chain := trust_bundle B (srv_ca srv);
                      signed_certificate_timestamp := None |};
             submitted := [] |}
      end
  end.

(** Modelled from the spec: the pipeline of section 4.G, steps 1 to 4, then
    [issue]. *)
Definition CreateSigningCertificate (B : Backend) (srv : GRPCCAServer)
    (req : Request) : Handled :=
  match public_key_of B (key_material req) with
  | None => rejected invalid_argument []
  | Some (details, key) =>
      if negb (bool_decide (details ∈ srv_algorithmRegistry srv))
      then rejected unsupported_algorithm []
      else if negb (proof_of_possession_ok B req)
      then rejected failed_precondition []
      else match principal_of_token B (srv_ip srv) (oidc_identity_token req) with
           | inl e => rejected e []
           | inr p => issue B srv key p
           end
  end.

End Issuance.

(** ** Settings of a run *)

(** The backends the construction switch handles. *)
Definition handled_backends : list string :=
  ["googleca"; "pkcs11ca"; "fileca"; "ephemeralca"; "kmsca"; "tinkca"].

Section Misconfiguration.
Variable E : Env.
Variable v : Viper.

Definition unset (key : string) : Prop := IsSet E v key = false.

(** The [ca] setting is empty, names no backend, or names one whose
    companion settings are not all set. *)
Definition ca_misconfigured : Prop :=
  let ca := GetString E v "ca" in
  ca = ""
  \/ ca ∉ handled_backends
  \/ (ca = "pkcs11ca" /\ unset "hsm-caroot-id")
  \/ (ca = "googleca" /\ unset "gcp_private_ca_parent")
  \/ (ca = "fileca" /\
      (unset "fileca-cert" \/ unset "fileca-key" \/ unset "fileca-key-passwd"))
  \/ (ca = "kmsca" /\ (unset "kms-resource" \/ unset "kms-cert-chain-path"))
  \/ (ca = "tinkca" /\
      (unset "tink-kms-resource" \/ unset "tink-cert-chain-path"
       \/ unset "tink-keyset-path")).

End Misconfiguration.

(** The state [s] after one more warning line. *)
Definition warned (s : State) (msg : string) : State :=
  {| viper := viper s; trace := trace s ++ [LogWarn msg] |}.

(** The warning of line 247, for the default path and the error [err] of
    os.Stat. *)
Definition fallback_warning (err : error) : string :=
  "warn loading --config-path=/etc/fulcio-config/config.yaml: " ++ err
  ++ ", fall back to json".

(** The settings store as [runServeCmd] binds it, lines 160-172. *)
Definition settings (E : Env) (flags : gmap string Flag) (s : State) : Viper :=
  viper (bindSettings E flags s).2.

(** ** Predicates on settings, clients and listeners *)

Section Predicates.
Variable E : Env.

(** What [newCTClient] returns, read off the settings it ran with. *)
Definition ct_client_spec (v : Viper) (ct : option LogClient) : Prop :=
  match ct with
  | None => GetString E v "ct-log-url" = ""
  | Some c =>
      GetString E v "ct-log-url" <> ""
      /\ lc_uri c = GetString E v "ct-log-url"
      /\ (if String.eqb (GetString E v "ct-log-public-key-path") ""
          then PublicKey (lc_opts c) = ""
          else os_ReadFile E (filepath_Clean E (GetString E v "ct-log-public-key-path"))
               = inl (PublicKey (lc_opts c)))
      /\ Timeout (lc_httpClient c) = 30 * Second
      /\ (if String.eqb (GetString E v "ct-log.tls-ca-cert") ""
          then Transport (lc_httpClient c) = None
          else exists caCertPool,
                 Transport (lc_httpClient c)
                 = Some {| TLSClientConfig :=
                             {| RootCAs := caCertPool; MinVersion := VersionTLS12 |} |})
  end.

(** The listeners [serveAll] starts: behind each is the CA server built
    from the arguments, and a duplex server has the options of
    [newDuplex]. *)
Definition serves (cfg : FulcioConfig) (srv : GRPCCAServer) (l : Listener) : Prop :=
  match l with
  | DuplexListener _ _ d srv' =>
      srv' = srv
      /\ d_UnaryInterceptors d = duplexInterceptors E cfg
      /\ d_MaxRecvMsgSize d = maxMsgSize
  | GRPCListener srv' | LegacyUnixListener _ srv' => srv' = srv
  | HTTPListener _ | DuplexMetricsListener _ | MetricsListener _ => True
  end.

End Predicates.

(** ** Relations between the states of a run *)

(** [keeps I m]: running [m] relates the state before and after by [I], and
    when [m] ends the process the status is 1. *)
Definition keeps {A} (I : State -> State -> Prop) (m : M A) : Prop :=
  forall s, I s (m s).2 /\ forall c w, (m s).1 = Exit c w -> c = 1.

(** The two relations that matter: the settings store is the same, and no
    listener was started. *)
Definition same_settings (s s' : State) : Prop := viper s' = viper s.
Definition same_listeners (s s' : State) : Prop :=
  listeners (trace s') = listeners (trace s).
Definition untouched (s s' : State) : Prop :=
  same_settings s s' /\ same_listeners s s'.

(** The settings store agrees with [s] on flags and aliases. *)
Definition same_flags (s s' : State) : Prop :=
  v_pflags (viper s') = v_pflags (viper s)
  /\ v_aliases (viper s') = v_aliases (viper s).

(** Every listener started between [s] and [s'] satisfies [P]. *)
Definition started_with (P : Listener -> Prop) (s s' : State) : Prop :=
  forall l, l ∈ listeners (trace s') -> l ∈ listeners (trace s) \/ P l.

(** ** A sample world *)

Module Sample.

(** The flag names of sigstore's algorithm registry. *)
Definition format (d : PublicKeyDetails) : Result string :=
  match d with
  | PKIX_ECDSA_P256_SHA_256 => inl "ecdsa-sha2-256-nistp256"
  | PKIX_ECDSA_P384_SHA_384 => inl "ecdsa-sha2-384-nistp384"
  | PKIX_ECDSA_P521_SHA_512 => inl "ecdsa-sha2-512-nistp521"
  | PKIX_RSA_PKCS1V15_2048_SHA256 => inl "rsa-sign-pkcs1-2048-sha256"
  | PKIX_RSA_PKCS1V15_3072_SHA256 => inl "rsa-sign-pkcs1-3072-sha256"
  | PKIX_RSA_PKCS1V15_4096_SHA256 => inl "rsa-sign-pkcs1-4096-sha256"
  | PKIX_ED25519 => inl "ed25519"
  | PKIX_ED25519_PH => inl "ed25519-ph"
  | _ => inr "could not find matching flag for signature algorithm"
  end.

Definition names : list string :=
  [ "ecdsa-sha2-256-nistp256"; "ecdsa-sha2-384-nistp384";
    "ecdsa-sha2-512-nistp521"; "rsa-sign-pkcs1-2048-sha256";
    "rsa-sign-pkcs1-3072-sha256"; "rsa-sign-pkcs1-4096-sha256"; "ed25519" ].

Definition supported : list PublicKeyDetails :=
  defaultAllowedAlgorithms ++ [PKIX_ED25519_PH].

Definition parse (s : string) : Result PublicKeyDetails :=
  match List.find (fun d => match format d with
                            | inl t => String.eqb s t
                            | inr _ => false
                            end) supported with
  | Some d => inl d
  | None => inr "could not find matching signature algorithm"
  end.

Definition pass_through : UnaryServerInterceptor := fun c handler => handler c.

(** A world with the given command line, environment and files, in which
    every backend and every listener comes up. *)
Definition world (args : gmap string Value) (vars files : gmap string string) : Env :=
  {| cmdline := args;
     environ := vars;
     os_Stat := fun p => match files !! p with
                         | Some _ => StatOk
                         | None => StatNotExist "no such file or directory"
                         end;
     os_ReadFile := fun p => match files !! p with
                             | Some c => inl c
                             | None => inr "no such file or directory"
                             end;
     filepath_Clean := fun p => p;
     filepath_Abs := fun p => inl p;
     filepath_Ext := fun p => "";
     filepath_Base := fun p => p;
     filepath_Dir := fun p => p;
     viper_SupportedExts := ["json"; "toml"; "yaml"; "yml"];
     viper_ReadInConfig := fun _ _ _ => inr "Unsupported Config Type";
     cast_ToInt := fun s => if String.eqb s "8080" then 8080
                            else if String.eqb s "2112" then 2112 else 0;
     cast_ToDuration := fun s => 0;
     Duration_String := fun d => "0s";
     FormatSignatureAlgorithmFlag := format;
     ParseSignatureAlgorithmFlag := parse;
     NewAlgorithmRegistryConfig := fun l => inl l;
     LoadCertificatesFromPEM := fun pem => inl [pem];
     AppendCertsFromPEM := fun pem => Some [pem];
     LegacyUnixDomainSocket := "@fulcio-legacy-grpc-socket";
     config_Load := fun p => match files !! p with
                             | Some _ => inl {| OIDCIssuers := ∅; MetaIssuers := ∅ |}
                             | None => inr "no such file or directory"
                             end;
     NewIssuerPool := fun _ => [];
     ca_New := fun _ => None;
     ctclient_New_err := fun _ _ _ => None;
     panicRecoveryHandler := fun p => "panic: " ++ p;
     PassFulcioConfigThruContext := fun _ => pass_through;
     createGRPCServer_err := None;
     createLegacyGRPCServer_err := None;
     middleware_UnaryRequestID := pass_through;
     grpc_zap_UnaryServerInterceptor := pass_through;
     grpc_prometheus_UnaryServerInterceptor := pass_through;
     RegisterHandler_err := fun _ => None;
     net_Listen_err := fun _ _ => None;
     duplex_Serve := Some "context canceled";
     prom_ListenAndServe := Some http_ErrServerClosed;
     prom_Shutdown := None |}.

Definition config_json : gmap string string :=
  {[ "/etc/fulcio-config/config.json" := "{}" ]}.

(** [--ca=fileca] with the certificate and the key, but no password. *)
Definition no_password : Env :=
  world {[ "ca" := VString "fileca";
           "fileca-cert" := VString "/ca/cert.pem";
           "fileca-key" := VString "/ca/key.pem" ]} ∅ config_json.

(** [--ca=ephemeralca] and nothing else, the configuration in its .json
    place. *)
Definition ephemeral : Env :=
  world {[ "ca" := VString "ephemeralca" ]} ∅ config_json.

(** A server on one port (the HTTP and gRPC addresses agree), with a TLS
    root of its own for the log and a pinned log key. *)
Definition duplex : Env :=
  world {[ "ca" := VString "ephemeralca";
           "grpc-port" := VString "8080";
           "ct-log-url" := VString "https://ct_server:6962/test";
           "ct-log-public-key-path" := VString "/config/ct/pubkey.pem";
           "ct-log.tls-ca-cert" := VString "/config/tls/ca.crt" ]}
        ∅
        {[ "/etc/fulcio-config/config.yaml" := "OIDCIssuers: {}";
           "/config/ct/pubkey.pem" := "-----BEGIN PUBLIC KEY-----";
           "/config/tls/ca.crt" := "-----BEGIN CERTIFICATE-----" ]}.

(** The CT log switched off: [--ct-log-url=] with nothing after it. *)
Definition no_ct : Env :=
  world {[ "ca" := VString "ephemeralca"; "ct-log-url" := VString "" ]}
        ∅ config_json.

(** The servers these worlds start. *)
Definition server_with (ct : option LogClient) : GRPCCAServer :=
  {| srv_ct := ct; srv_ca := EphemeralCA;
     srv_algorithmRegistry := defaultAllowedAlgorithms; srv_ip := [] |}.

Definition default_client : LogClient :=
  {| lc_uri := "http://localhost:6962/test";
     lc_httpClient := {| Timeout := 30 * Second; Transport := None |};
     lc_opts := {| PublicKey := "" |} |}.

Definition duplex_client : LogClient :=
  {| lc_uri := "https://ct_server:6962/test";
     lc_httpClient :=
       {| Timeout := 30 * Second;
          Transport :=
            Some {| TLSClientConfig :=
                      {| RootCAs := ["-----BEGIN CERTIFICATE-----"];
                         MinVersion := VersionTLS12 |} |} |};
     lc_opts := {| PublicKey := "-----BEGIN PUBLIC KEY-----" |} |}.

(** What [StartDuplexServer] is called with in the [duplex] world. *)
Definition empty_config : FulcioConfig := {| OIDCIssuers := ∅; MetaIssuers := ∅ |}.

Definition duplex_options : Duplex :=
  {| d_Port := 8080;
     d_MaxConnectionIdle := 0;
     d_UnaryInterceptors := duplexInterceptors duplex empty_config;
     d_MaxRecvMsgSize := 4194304 |}.



End Sample.

(** ** A run from process start *)

(** The flag set [runServeCmd] is called with: the flags [newServeCmd]
    declares, filled from the command line. *)
Definition runServeCmd_flags (E : Env) : gmap string Flag :=
  match newServeCmd E initial with
  | (Val decls, _) => parseFlags E decls
  | (Exit _ _, _) => ∅
  end.

(** The state [runServeCmd] starts in, and the state where the settings
    are bound. *)
Definition runServeCmd_ready (E : Env) : State := (newServeCmd E initial).2.

Definition runServeCmd_bound (E : Env) : State :=
  (bindSettings E (runServeCmd_flags E) (runServeCmd_ready E)).2.

(** ** Further vocabulary for the serve command *)

(** The normalisation function [newServeCmd] installs on its flag set,
    lines 131-139. *)
Definition normalizeFlagName (name : string) : string :=
  if String.eqb name "http-port" then "port"
  else if String.eqb name "http-host" then "host"
  else name.

(** The [ca] value that selects a backend. *)
Definition backend_name (ca : CertificateAuthority) : string :=
  match ca with
  | GoogleCA _ => "googleca"
  | PKCS11CA _ => "pkcs11ca"
  | FileCA _ _ _ _ => "fileca"
  | EphemeralCA => "ephemeralca"
  | KMSCA _ _ => "kmsca"
  | TinkCA _ _ _ => "tinkca"
  end.

(** The deprecation warning of line 189. *)
Definition deprecation_warning : string :=
  "gcp_private_ca_version is deprecated and will soon be removed; please remove it".

(** Emitting a list of events, one after the other. *)
Definition logged (s : State) (events : list Event) : State :=
  {| viper := viper s; trace := trace s ++ events |}.

(** The backend [ca] was built from the settings [v]: each argument of its
    constructor is the setting the construction switch reads for it. *)
Definition built_from_settings (E : Env) (v : Viper) (ca : CertificateAuthority) : Prop :=
  match ca with
  | GoogleCA parent => parent = GetString E v "gcp_private_ca_parent"
  | PKCS11CA params =>
      ConfigPath params = GetString E v "pkcs11-config-path"
      /\ RootID params = GetString E v "hsm-caroot-id"
      /\ CAPath params = (if IsSet E v "aws-hsm-root-ca-path"
                          then Some (GetString E v "aws-hsm-root-ca-path")
                          else None)
  | FileCA certFile keyFile keyPass watch =>
      certFile = GetString E v "fileca-cert"
      /\ keyFile = GetString E v "fileca-key"
      /\ keyPass = GetString E v "fileca-key-passwd"
      /\ watch = GetBool E v "fileca-watch"
  | EphemeralCA => True
  | KMSCA resource certs =>
      resource = GetString E v "kms-resource"
      /\ exists data,
           os_ReadFile E (filepath_Clean E (GetString E v "kms-cert-chain-path")) = inl data
           /\ LoadCertificatesFromPEM E data = inl certs
  | TinkCA kmsResource keysetPath certChainPath =>
      kmsResource = GetString E v "tink-kms-resource"
      /\ keysetPath = GetString E v "tink-keyset-path"
      /\ certChainPath = GetString E v "tink-cert-chain-path"
  end.

(** The three handler registrations of [StartDuplexServer] all succeed. *)
Definition handlers_registered (E : Env) : bool :=
  match RegisterHandler_err E "protobuf.RegisterCAHandlerFromEndpoint",
        RegisterHandler_err E "legacy.RegisterCAHandlerFromEndpoint",
        RegisterHandler_err E "duplexHealthz" with
  | None, None, None => true
  | _, _, _ => false
  end.

(** The test of lines 348-350: the HTTP and gRPC addresses agree, one
    duplex server serves both. *)
Definition duplex_mode (E : Env) (v : Viper) : bool :=
  String.eqb (GetString E v "port") (GetString E v "grpc-port")
  && String.eqb (GetString E v "host") (GetString E v "grpc-host").

(** Listeners of the duplex server, and listeners of the split servers. *)
Definition of_duplex_server (l : Listener) : Prop :=
  match l with
  | DuplexListener _ _ _ _ | DuplexMetricsListener _ => True
  | _ => False
  end.

Definition of_split_servers (l : Listener) : Prop :=
  match l with
  | GRPCListener _ | LegacyUnixListener _ _ | HTTPListener _ | MetricsListener _ => True
  | _ => False
  end.

(** The CA server [srv] is made from the settings [v]: its backend is the
    one [ca] names, built from that backend's settings and accepted by its
    constructor; its algorithm registry is built from the parsed
    [client-signing-algorithms]; its issuer pool comes from the
    configuration loaded from [config-path], or from the .json fallback of
    the default path. *)
Definition wired_from_settings (E : Env) (v : Viper) (srv : GRPCCAServer) : Prop :=
  backend_name (srv_ca srv) = GetString E v "ca"
  /\ built_from_settings E v (srv_ca srv)
  /\ ca_New E (srv_ca srv) = None
  /\ (exists algorithmConfig,
        Forall2 (fun str a => ParseSignatureAlgorithmFlag E str = inl a)
                (GetStringSlice E v "client-signing-algorithms") algorithmConfig
        /\ NewAlgorithmRegistryConfig E algorithmConfig
           = inl (srv_algorithmRegistry srv))
  /\ (exists path cfg,
        config_Load E path = inl cfg
        /\ srv_ip srv = NewIssuerPool E cfg
        /\ (path = GetString E v "config-path"
            \/ GetString E v "config-path" = defaultConfigPath
               /\ (exists err, os_Stat E defaultConfigPath = StatNotExist err)
               /\ path = "/etc/fulcio-config/config.json")).

(** ** More sample worlds *)

Module Scenario.

(** googleca with its parent on the command line and the deprecated version
    in the environment. *)
Definition googleca_versioned : Env :=
  Sample.world {[ "ca" := VString "googleca";
                  "gcp_private_ca_parent" := VString "projects/p/locations/l/caPools/c" ]}
               {[ "FULCIO_SERVE_GCP_PRIVATE_CA_VERSION" := "v1" ]}
               Sample.config_json.

(** kmsca with a chain path that names no file. *)
Definition kmsca_no_chain : Env :=
  Sample.world {[ "ca" := VString "kmsca";
                  "kms-resource" := VString "gcpkms://projects/p/key";
                  "kms-cert-chain-path" := VString "/ca/chain.pem" ]}
               ∅ Sample.config_json.

(** An algorithm list with a name the registry does not know. *)
Definition bad_algorithm : Env :=
  Sample.world {[ "ca" := VString "ephemeralca";
                  "client-signing-algorithms" := VStringSlice ["ed25519"; "dsa-sha1"] ]}
               ∅ Sample.config_json.

(** A pinned key path that names no file, with the log switched off and
    with the default log URL. *)
Definition no_ct_missing_key : Env :=
  Sample.world {[ "ca" := VString "ephemeralca";
                  "ct-log-url" := VString "";
                  "ct-log-public-key-path" := VString "/config/ct/pubkey.pem" ]}
               ∅ Sample.config_json.

Definition ct_missing_key : Env :=
  Sample.world {[ "ca" := VString "ephemeralca";
                  "ct-log-public-key-path" := VString "/config/ct/pubkey.pem" ]}
               ∅ Sample.config_json.

(** The world [E] with a configuration file for the serve command at
    [dir]/[name].[ext], holding [content]. *)
Definition with_config_file (E : Env) (dir name ext : string)
    (content : gmap string Value) : Env :=
  let file := dir ++ "/" ++ name ++ "." ++ ext in
  {| cmdline := cmdline E;
     environ := environ E;
     os_Stat := fun p => if String.eqb p file then StatOk else os_Stat E p;
     os_ReadFile := os_ReadFile E;
     filepath_Clean := filepath_Clean E;
     filepath_Abs := filepath_Abs E;
     filepath_Ext := fun p => if String.eqb p file then "." ++ ext else filepath_Ext E p;
     filepath_Base := fun p => if String.eqb p file then name ++ "." ++ ext
                               else filepath_Base E p;
     filepath_Dir := fun p => if String.eqb p file then dir else filepath_Dir E p;
     viper_SupportedExts := viper_SupportedExts E;
     viper_ReadInConfig := fun n ty paths =>
       if String.eqb n name && String.eqb ty ext
          && existsb (String.eqb dir) paths
       then inl content else viper_ReadInConfig E n ty paths;
     cast_ToInt := cast_ToInt E;
     cast_ToDuration := cast_ToDuration E;
     Duration_String := Duration_String E;
     FormatSignatureAlgorithmFlag := FormatSignatureAlgorithmFlag E;
     ParseSignatureAlgorithmFlag := ParseSignatureAlgorithmFlag E;
     NewAlgorithmRegistryConfig := NewAlgorithmRegistryConfig E;
     LoadCertificatesFromPEM := LoadCertificatesFromPEM E;
     AppendCertsFromPEM := AppendCertsFromPEM E;
     LegacyUnixDomainSocket := LegacyUnixDomainSocket E;
     config_Load := config_Load E;
     NewIssuerPool := NewIssuerPool E;
     ca_New := ca_New E;
     ctclient_New_err := ctclient_New_err E;
     panicRecoveryHandler := panicRecoveryHandler E;
     PassFulcioConfigThruContext := PassFulcioConfigThruContext E;
     createGRPCServer_err := createGRPCServer_err E;
     createLegacyGRPCServer_err := createLegacyGRPCServer_err E;
     middleware_UnaryRequestID := middleware_UnaryRequestID E;
     grpc_zap_UnaryServerInterceptor := grpc_zap_UnaryServerInterceptor E;
     grpc_prometheus_UnaryServerInterceptor := grpc_prometheus_UnaryServerInterceptor E;
     RegisterHandler_err := RegisterHandler_err E;
     net_Listen_err := net_Listen_err E;
     duplex_Serve := duplex_Serve E;
     prom_ListenAndServe := prom_ListenAndServe E;
     prom_Shutdown := prom_Shutdown E |}.

(** The backend named in /etc/fulcio/serve.yaml, the HTTP port given on
    the command line and in the environment, the gRPC port in the
    environment and in the file. *)
Definition layered : Env :=
  with_config_file
    (Sample.world {[ "config" := VString "/etc/fulcio/serve.yaml";
                     "port" := VString "7000" ]}
                  {[ "FULCIO_SERVE_PORT" := "9000";
                     "FULCIO_SERVE_GRPC-PORT" := "9001" ]}
                  Sample.config_json)
    "/etc/fulcio" "serve" "yaml"
    {[ "ca" := VString "ephemeralca"; "grpc-port" := VString "9002";
       "metrics-port" := VString "2113" ]}.

(** [--config] names a file that is not there. *)
Definition config_missing : Env :=
  Sample.world {[ "config" := VString "/etc/fulcio/serve.yaml";
                  "ca" := VString "ephemeralca" ]}
               ∅ Sample.config_json.

(** fileca with certificate, key and password on the command line. *)
Definition fileca : Env :=
  Sample.world {[ "ca" := VString "fileca";
                  "fileca-cert" := VString "/ca/cert.pem";
                  "fileca-key" := VString "/ca/key.pem";
                  "fileca-key-passwd" := VString "secret" ]}
               ∅ Sample.config_json.

(** The settings file is there and FULCIO_SERVE_CONFIG names it, but the
    command line has no [--config]. *)
Definition config_in_env : Env :=
  with_config_file
    (Sample.world {[ "ca" := VString "ephemeralca" ]}
                  {[ "FULCIO_SERVE_CONFIG" := "/etc/fulcio/serve.yaml" ]}
                  Sample.config_json)
    "/etc/fulcio" "serve" "yaml"
    {[ "metrics-port" := VString "2113" ]}.

End Scenario.

(** * Verification *)

(** ** Small checks of the model *)

Example TrimSuffix_yaml :
  GoStrings.TrimSuffix "/etc/fulcio-config/config.yaml" ".yaml" ++ ".json"
  = "/etc/fulcio-config/config.json".
Proof. reflexivity. Qed.

Example TrimSuffix_other : GoStrings.TrimSuffix "config.json" ".yaml" = "config.json".
Proof. reflexivity. Qed.

Example TrimPrefix_dot : GoStrings.TrimPrefix ".yaml" "." = "yaml".
Proof. reflexivity. Qed.

Example ToUpper_env : GoStrings.ToUpper "fulcio_serve_ct-log-url" = "FULCIO_SERVE_CT-LOG-URL".
Proof. reflexivity. Qed.

Example Fields_spaces : GoStrings.Fields " ed25519  ecdsa-sha2-256-nistp256 "
                        = ["ed25519"; "ecdsa-sha2-256-nistp256"].
Proof. reflexivity. Qed.

(** A no-break space (U+00A0, the bytes C2 A0) and a line separator
    (U+2028, E2 80 A8) split as well. *)
Example Fields_unicode_spaces :
  GoStrings.Fields
    ("ed25519" ++ String (ascii_of_nat 194) (String (ascii_of_nat 160) "ed25519-ph")
     ++ String (ascii_of_nat 226) (String (ascii_of_nat 128)
                                     (String (ascii_of_nat 168) "x")))
  = ["ed25519"; "ed25519-ph"; "x"].
Proof. reflexivity. Qed.

Example maxMsgSize_bytes : maxMsgSize = 4194304.
Proof. reflexivity. Qed.

Example thirty_seconds : 30 * Second = 30000000000.
Proof. reflexivity. Qed.

Example validationCase_examples :
  map validationCase [""; "fileca"; "ephemeralca"; "FileCA"; "vault"]
  = [VEmpty; VFileca; VEphemeralca; VDefault; VDefault].
Proof. reflexivity. Qed.

Example constructionCase_examples :
  map constructionCase [""; "fileca"; "ephemeralca"; "FileCA"; "vault"]
  = [CDefault; CFileca; CEphemeralca; CDefault; CDefault].
Proof. reflexivity. Qed.

(** An unknown backend ends the run before anything is served. *)
Example run_unknown_backend :
  (run (Sample.world {[ "ca" := VString "vault" ]} ∅ ∅)).1
  = Exit 1 (FatalInvalidCA "vault")
  /\ trace (run (Sample.world {[ "ca" := VString "vault" ]} ∅ ∅)).2 = [].
Proof. split; vm_compute; reflexivity. Qed.

(** The backend can come from the environment: FULCIO_SERVE_CA. *)
Example run_backend_from_environment :
  (run (Sample.world ∅ {[ "FULCIO_SERVE_CA" := "pkcs11ca" ]} ∅)).1
  = Exit 1 (FatalText "hsm-caroot-id must be set when using pkcs11ca").
Proof. vm_compute. reflexivity. Qed.

(** In duplex mode the run ends in a fatal log even when the server shuts
    down, since the error [StartDuplexServer] returns is never
    http.ErrServerClosed itself. *)
Example run_duplex_ends_fatally :
  (run Sample.duplex).1 = Exit 1 (FatalErr "duplex server: context canceled")
  /\ length (duplexes (trace (run Sample.duplex).2)) = 1%nat.
Proof. split; vm_compute; reflexivity. Qed.

(** In split mode four listeners are started. *)
Example run_split_listeners :
  (run Sample.ephemeral).1 = Val tt
  /\ length (listeners (trace (run Sample.ephemeral).2)) = 4%nat.
Proof. split; vm_compute; reflexivity. Qed.

(** ** Facts about the startup monad *)

Section MonadFacts.
Context {A B : Type}.
Implicit Types (m : M A) (k : A -> M B) (s : State).

Lemma bind_Val m k s a s1 : m s = (Val a, s1) -> bind m k s = k a s1.
Proof. intros H. unfold bind. now rewrite H. Qed.

Lemma bind_Exit m k s c w s1 :
  m s = (Exit c w, s1) -> bind m k s = (Exit c w, s1).
Proof. intros H. unfold bind. now rewrite H. Qed.

Lemma bind_Val_inv m k s b s' :
  bind m k s = (Val b, s') ->
  exists a s1, m s = (Val a, s1) /\ k a s1 = (Val b, s').
Proof.
  unfold bind. destruct (m s) as [[a|c w] s1]; [eauto | discriminate].
Qed.

(** A result whose first component is known. *)
Lemma returns_fst m s a : (m s).1 = Val a -> m s = (Val a, (m s).2).
Proof. destruct (m s); simpl; intros ->; done. Qed.

End MonadFacts.

Section Keeps.
Variable I : State -> State -> Prop.
Hypothesis I_refl : forall s, I s s.
Hypothesis I_trans : forall s1 s2 s3, I s1 s2 -> I s2 s3 -> I s1 s3.

Lemma keeps_ret {A} (a : A) : keeps I (ret a).
Proof. intros s; split; [apply I_refl | discriminate]. Qed.

Lemma keeps_Fatal {A} w : keeps I (@Fatal A w).
Proof. intros s; split; [apply I_refl | simpl; congruence]. Qed.

Lemma keeps_getViper : keeps I getViper.
Proof. intros s; split; [apply I_refl | discriminate]. Qed.

Lemma keeps_bind {A B} (m : M A) (k : A -> M B) :
  keeps I m -> (forall a, keeps I (k a)) -> keeps I (bind m k).
Proof.
  intros Hm Hk s. destruct (Hm s) as [H1 H2]. unfold bind.
  destruct (m s) as [[a|c w] s1]; simpl in *.
  - destruct (Hk a s1) as [H3 H4]. split; [eauto | exact H4].
  - split; [exact H1 | intros c' w' [= <- <-]; eauto].
Qed.

Lemma keeps_when c (m : M unit) : keeps I m -> keeps I (when c m).
Proof. destruct c; [done | intros _; apply keeps_ret]. Qed.

End Keeps.

Lemma same_settings_refl s : same_settings s s.
Proof. done. Qed.
Lemma same_settings_trans s1 s2 s3 :
  same_settings s1 s2 -> same_settings s2 s3 -> same_settings s1 s3.
Proof. unfold same_settings. congruence. Qed.
Lemma same_listeners_refl s : same_listeners s s.
Proof. done. Qed.
Lemma same_listeners_trans s1 s2 s3 :
  same_listeners s1 s2 -> same_listeners s2 s3 -> same_listeners s1 s3.
Proof. unfold same_listeners. congruence. Qed.
Lemma untouched_refl s : untouched s s.
Proof. done. Qed.
Lemma untouched_trans s1 s2 s3 :
  untouched s1 s2 -> untouched s2 s3 -> untouched s1 s3.
Proof.
  intros [? ?] [? ?]; split;
    eauto using same_settings_trans, same_listeners_trans.
Qed.

Lemma listeners_app t1 t2 :
  listeners (t1 ++ t2)%list = (listeners t1 ++ listeners t2)%list.
Proof. apply omap_app. Qed.

Lemma keeps_emit_log e :
  match e with Serving _ => False | _ => True end -> keeps untouched (emit e).
Proof.
  intros He s; split; [|discriminate]. split; [done|].
  unfold same_listeners; simpl. rewrite listeners_app.
  destruct e; simpl in *; [apply app_nil_r .. | done].
Qed.

Lemma keeps_emit_settings e : keeps same_settings (emit e).
Proof. intros s; split; [done | discriminate]. Qed.

Lemma keeps_modifyViper_listeners f : keeps same_listeners (modifyViper f).
Proof. intros s; split; [done | discriminate]. Qed.

Ltac keeps_with refl trans leaf :=
  repeat first
    [ apply keeps_ret; [apply refl]
    | apply keeps_Fatal; [apply refl]
    | apply keeps_getViper; [apply refl]
    | leaf
    | apply keeps_when; [apply refl|]
    | apply keeps_bind; [apply trans | | intros ?]
    | progress case_match ].

Ltac keeps_untouched :=
  keeps_with untouched_refl untouched_trans
             ltac:(apply keeps_emit_log; exact Logic.I).
Ltac keeps_settings :=
  keeps_with same_settings_refl same_settings_trans
             ltac:(apply keeps_emit_settings).
Ltac keeps_listeners :=
  keeps_with same_listeners_refl same_listeners_trans
             ltac:(apply keeps_modifyViper_listeners).

(** ** The blocks of [runServeCmd], one by one *)

Section Blocks.
Variable E : Env.

Lemma keeps_formatAlgorithms l acc : keeps untouched (formatAlgorithms E l acc).
Proof.
  revert acc. induction l as [|a l IH]; intros acc; simpl; keeps_untouched.
  apply IH.
Qed.

Lemma keeps_bindSettings flags : keeps same_listeners (bindSettings E flags).
Proof.
  unfold bindSettings, fatalOnErr, checkServeCmdConfigFile, BindPFlags, ReadInConfig.
  keeps_listeners.
Qed.

Lemma keeps_validateCA : keeps untouched (validateCA E).
Proof. unfold validateCA, mustBeSet, isSet, getString. keeps_untouched. Qed.

Lemma keeps_parseAlgorithms l acc : keeps untouched (parseAlgorithms E l acc).
Proof.
  revert acc. induction l as [|x l IH]; intros acc; simpl; keeps_untouched.
  apply IH.
Qed.

Lemma keeps_loadAlgorithms : keeps untouched (loadAlgorithms E).
Proof.
  unfold loadAlgorithms, loadAlgorithmConfig. keeps_untouched.
  apply keeps_parseAlgorithms.
Qed.

Lemma keeps_loadConfig : keeps untouched (loadConfig E).
Proof. unfold loadConfig, configPath, getString. keeps_untouched. Qed.

Lemma keeps_newCA : keeps untouched (newCA E).
Proof. unfold newCA, constructCA. keeps_untouched. Qed.

Lemma keeps_newCTClient : keeps untouched (newCTClient E).
Proof. unfold newCTClient, ctOptions, ctHTTPClient, getString. keeps_untouched. Qed.

Lemma keeps_serveAll cfg ct ca ar : keeps same_settings (serveAll E cfg ct ca ar).
Proof. unfold serveAll, serveSplit, StartDuplexServer. keeps_settings. Qed.

End Blocks.

(** ** The validation switch *)

Section Validation.
Variable E : Env.

Lemma validationCase_handled ca :
  ca ∈ handled_backends <->
  match validationCase ca with VEmpty | VDefault => False | _ => True end.
Proof.
  unfold handled_backends, validationCase.
  rewrite !elem_of_cons, elem_of_nil.
  repeat match goal with
         | |- context [String.eqb ca ?x] =>
             destruct (String.eqb_spec ca x) as [->|?];
             [simpl; intuition discriminate|]
         end.
  intuition congruence.
Qed.

Lemma mustBeSet_unset key msg s :
  IsSet E (viper s) key = false ->
  mustBeSet E key msg s = (Exit 1 (FatalText msg), s).
Proof. intros H. unfold mustBeSet, isSet, bind, getViper, ret. simpl. now rewrite H. Qed.

Lemma mustBeSet_cases key msg s :
  (IsSet E (viper s) key = true /\ mustBeSet E key msg s = (Val tt, s)) \/
  (IsSet E (viper s) key = false /\
   mustBeSet E key msg s = (Exit 1 (FatalText msg), s)).
Proof.
  unfold mustBeSet, isSet, bind, getViper, ret. simpl.
  destruct (IsSet E (viper s) key); [left | right]; done.
Qed.

(** Walks through a run of [mustBeSet] checks: each one either passes or
    ends the process. *)
Ltac walk_checks :=
  repeat match goal with
         | |- context [bind (mustBeSet E ?k ?msg) ?f ?s] =>
             let Hm := fresh "Hm" in
             destruct (mustBeSet_cases k msg s) as [[? Hm] | [? Hm]];
             [ rewrite (bind_Val _ _ _ _ _ Hm)
             | rewrite (bind_Exit _ _ _ _ _ _ Hm); eauto ]
         end;
  try match goal with
      | |- context [mustBeSet E ?k ?msg ?s] =>
          destruct (mustBeSet_cases k msg s) as [[? ->] | [? ->]]; eauto
      end.

(** The switch ends the process, before anything else happens, on every
    misconfigured [ca]. *)
Lemma validateCA_misconfigured s :
  ca_misconfigured E (viper s) ->
  exists why, validateCA E s = (Exit 1 why, s).
Proof.
  unfold ca_misconfigured, unset. intros H.
  unfold validateCA, getString. unfold bind at 1. simpl.
  destruct H as [H | [H | H]].
  - rewrite H. simpl. eauto.
  - apply (not_iff_compat (validationCase_handled _)) in H.
    destruct (validationCase (GetString E (viper s) "ca")) eqn:Hc;
      try (exfalso; apply H; exact Logic.I).
    + eauto.
    + unfold bind, getViper, ret, Fatal. simpl. eauto.
  - destruct H as [[-> H] | [[-> H] | [[-> H] | [[-> H] | [-> H]]]]]; simpl;
      walk_checks; intuition congruence.
Qed.

(** Conversely, when the switch lets the process go on, [ca] names a
    handled backend and nothing has changed. *)
Lemma validateCA_passed s s' :
  validateCA E s = (Val tt, s') ->
  GetString E (viper s) "ca" ∈ handled_backends /\ viper s' = viper s.
Proof.
  intros H. split.
  - apply validationCase_handled.
    revert H. unfold validateCA, getString. unfold bind at 1. simpl.
    destruct (validationCase (GetString E (viper s) "ca")); done.
  - pose proof (proj1 (keeps_validateCA E s)) as [Hv _].
    rewrite H in Hv. exact Hv.
Qed.

End Validation.

(** ** The construction switch *)

Lemma constructionCase_handled ca :
  ca ∈ handled_backends -> constructionCase ca <> CDefault.
Proof.
  unfold handled_backends. rewrite !elem_of_cons, elem_of_nil.
  intros [-> | [-> | [-> | [-> | [-> | [-> | []]]]]]]; discriminate.
Qed.

Section Preflight.
Variable E : Env.

(** What [preflight] leaves behind when it returns: the bound settings,
    a handled backend, and no listener. *)
Lemma preflight_returns flags s r s' :
  preflight E flags s = (Val r, s') ->
  viper s' = settings E flags s
  /\ GetString E (viper s') "ca" ∈ handled_backends
  /\ listeners (trace s') = listeners (trace s).
Proof.
  unfold preflight, settings. intros H.
  apply bind_Val_inv in H as ([] & s1 & Hb & H).
  apply bind_Val_inv in H as ([] & s2 & Hv & H).
  apply bind_Val_inv in H as (ar & s3 & Ha & H).
  apply bind_Val_inv in H as (cfg & s4 & Hc & H).
  injection H as <- <-.
  rewrite Hb. simpl.
  destruct (validateCA_passed E _ _ Hv) as [Hca Hv2].
  pose proof (proj1 (keeps_bindSettings E flags s)) as L1. rewrite Hb in L1.
  pose proof (proj1 (keeps_validateCA E s1)) as [_ L2]. rewrite Hv in L2.
  pose proof (proj1 (keeps_loadAlgorithms E s2)) as [V3 L3]. rewrite Ha in V3, L3.
  pose proof (proj1 (keeps_loadConfig E s3)) as [V4 L4]. rewrite Hc in V4, L4.
  unfold same_settings, same_listeners in *. simpl in *.
  assert (viper s4 = viper s1) as -> by congruence.
  repeat split; [done | congruence].
Qed.

End Preflight.

(** ** Claims about startup validation *)

(** C2.  Whenever the [ca] setting, as the serve command binds it, is
    empty, names no known backend, or names a backend one of whose
    companion settings is unset, [runServeCmd] ends the process with exit
    status 1 (log.Logger.Fatal), and no listener has begun to serve. *)
Theorem misconfigured_ca_is_fatal (E : Env) (flags : gmap string Flag) (s : State) :
  never_served s ->
  ca_misconfigured E (settings E flags s) ->
  exists why s',
    runServeCmd E flags s = (Exit 1 why, s') /\ never_served s'.
Proof.
  unfold never_served, settings. intros Hs Hbad.
  pose proof (keeps_bindSettings E flags s) as [L C].
  unfold runServeCmd, preflight.
  destruct (bindSettings E flags s) as [[[]|c w] s1] eqn:Hb; simpl in *.
  - destruct (validateCA_misconfigured E s1 Hbad) as [why Hv].
    exists why, s1. split; [|unfold same_listeners in L; congruence].
    rewrite (bind_Exit _ _ _ 1 why s1); [done|].
    rewrite (bind_Val _ _ _ _ _ Hb).
    apply bind_Exit. exact Hv.
  - assert (c = 1) as -> by (apply (C c w); done).
    exists w, s1. split; [|unfold same_listeners in L; congruence].
    rewrite (bind_Exit _ _ _ 1 w s1); [done|].
    apply bind_Exit. exact Hb.
Qed.

(** A run with [--ca=fileca] and no [fileca-key-passwd] ends that way. *)
Lemma misconfigured_ca_is_fatal_witness :
  exists why s',
    runServeCmd Sample.no_password (runServeCmd_flags Sample.no_password)
                (runServeCmd_ready Sample.no_password) = (Exit 1 why, s')
    /\ never_served s'.
Proof.
  apply misconfigured_ca_is_fatal.
  - reflexivity.
  - do 4 right. left. split; [vm_compute; reflexivity|].
    right. right. vm_compute. reflexivity.
Defined.

(** C8.  When [runServeCmd] reaches the construction switch, that is when
    everything before it returned, the [ca] setting is one of the six
    backends the switch handles, so its default branch is not taken; the
    switch runs in the very state the earlier steps left. *)
Theorem construction_default_unreachable (E : Env) (flags : gmap string Flag)
    (s s' : State) (r : AlgorithmRegistryConfig * FulcioConfig) :
  preflight E flags s = (Val r, s') ->
  GetString E (viper s') "ca" ∈ handled_backends
  /\ constructionCase (GetString E (viper s') "ca") <> CDefault
  /\ runServeCmd E flags s =
     (baseca <- newCA E ;;
      ctClient <- newCTClient E ;;
      serveAll E r.2 ctClient baseca r.1) s'.
Proof.
  intros H. destruct (preflight_returns E _ _ _ _ H) as (_ & Hca & _).
  split; [exact Hca|]. split; [apply constructionCase_handled, Hca|].
  unfold runServeCmd. rewrite (bind_Val _ _ _ _ _ H). now destruct r.
Qed.

(** With [--ca=ephemeralca] the steps before the switch return, and the
    switch finds a backend it handles. *)
Lemma construction_default_unreachable_witness :
  exists s',
    preflight Sample.ephemeral (runServeCmd_flags Sample.ephemeral)
              (runServeCmd_ready Sample.ephemeral)
    = (Val (defaultAllowedAlgorithms, Sample.empty_config), s')
    /\ GetString Sample.ephemeral (viper s') "ca" ∈ handled_backends
    /\ constructionCase (GetString Sample.ephemeral (viper s') "ca") <> CDefault.
Proof.
  exists (preflight Sample.ephemeral (runServeCmd_flags Sample.ephemeral)
                    (runServeCmd_ready Sample.ephemeral)).2.
  assert (preflight Sample.ephemeral (runServeCmd_flags Sample.ephemeral)
                    (runServeCmd_ready Sample.ephemeral)
          = (Val (defaultAllowedAlgorithms, Sample.empty_config),
             (preflight Sample.ephemeral (runServeCmd_flags Sample.ephemeral)
                        (runServeCmd_ready Sample.ephemeral)).2)) as Hp
    by (apply returns_fst; vm_compute; reflexivity).
  split; [exact Hp|].
  destruct (construction_default_unreachable _ _ _ _ _ Hp) as (H1 & H2 & _).
  exact (conj H1 H2).
Defined.

(** ** The configuration path *)

(** The fallback of lines 245-250: the path becomes the .json one and one
    warning line is logged. *)
Lemma configPath_default_missing (E : Env) (s : State) (err : error) :
  GetString E (viper s) "config-path" = "/etc/fulcio-config/config.yaml" ->
  os_Stat E "/etc/fulcio-config/config.yaml" = StatNotExist err ->
  configPath E s
  = (Val "/etc/fulcio-config/config.json", warned s (fallback_warning err)).
Proof.
  intros Hcp Hstat.
  unfold configPath, getString, bind, getViper, ret, emit. simpl.
  rewrite Hcp. simpl. rewrite Hstat. reflexivity.
Qed.

Lemma warned_grows (s : State) (msg : string) : trace (warned s msg) <> trace s.
Proof.
  unfold warned. simpl. intros H.
  apply (f_equal length) in H. rewrite length_app in H. simpl in H. lia.
Qed.

(** C9, as stated, does not hold: in a world with the default
    [config-path] and no file there, the fallback is not silent, the trace
    grows by a warning line. *)
Lemma config_path_fallback_not_silent :
  GetString Sample.ephemeral (viper (runServeCmd_bound Sample.ephemeral)) "config-path"
  = "/etc/fulcio-config/config.yaml"
  /\ os_Stat Sample.ephemeral "/etc/fulcio-config/config.yaml"
     = StatNotExist "no such file or directory"
  /\ ~ (exists s',
          configPath Sample.ephemeral (runServeCmd_bound Sample.ephemeral)
          = (Val "/etc/fulcio-config/config.json", s')
          /\ trace s' = trace (runServeCmd_bound Sample.ephemeral)).
Proof.
  assert (GetString Sample.ephemeral (viper (runServeCmd_bound Sample.ephemeral))
                    "config-path" = "/etc/fulcio-config/config.yaml") as Hcp
    by (vm_compute; reflexivity).
  assert (os_Stat Sample.ephemeral "/etc/fulcio-config/config.yaml"
          = StatNotExist "no such file or directory") as Hstat
    by (vm_compute; reflexivity).
  split; [exact Hcp|]. split; [exact Hstat|].
  intros (s' & Hpath & Htrace).
  rewrite (configPath_default_missing _ _ _ Hcp Hstat) in Hpath.
  injection Hpath as <-.
  exact (warned_grows _ _ Htrace).
Qed.

(** C9, amended.  With [config-path] at its default
    /etc/fulcio-config/config.yaml and no file there, startup goes on: one
    warning line is logged, nothing else changes, and [config.Load] is
    called with /etc/fulcio-config/config.json.  With any other
    [config-path], [config.Load] is called with that very path, whatever
    the file system holds. *)
Theorem config_path_fallback (E : Env) (s : State) :
  (GetString E (viper s) "config-path" = "/etc/fulcio-config/config.yaml" ->
   forall err,
     os_Stat E "/etc/fulcio-config/config.yaml" = StatNotExist err ->
     configPath E s
     = (Val "/etc/fulcio-config/config.json", warned s (fallback_warning err))
     /\ loadConfig E s =
        (match config_Load E "/etc/fulcio-config/config.json" with
         | inl cfg => Val cfg
         | inr e => Exit 1 (FatalConfigPath "/etc/fulcio-config/config.json" e)
         end, warned s (fallback_warning err)))
  /\ (GetString E (viper s) "config-path" <> "/etc/fulcio-config/config.yaml" ->
      configPath E s = (Val (GetString E (viper s) "config-path"), s)
      /\ loadConfig E s =
         (match config_Load E (GetString E (viper s) "config-path") with
          | inl cfg => Val cfg
          | inr e => Exit 1 (FatalConfigPath (GetString E (viper s) "config-path") e)
          end, s)).
Proof.
  split.
  - intros Hcp err Hstat.
    pose proof (configPath_default_missing E s err Hcp Hstat) as Hpath.
    split; [exact Hpath|].
    unfold loadConfig. rewrite (bind_Val _ _ _ _ _ Hpath).
    destruct (config_Load E _); reflexivity.
  - intros Hcp.
    assert (configPath E s = (Val (GetString E (viper s) "config-path"), s)) as Hpath.
    { unfold configPath, getString, bind, getViper, ret. simpl.
      destruct (String.eqb_spec (GetString E (viper s) "config-path") defaultConfigPath)
        as [Heq|_]; [contradiction | reflexivity]. }
    split; [exact Hpath|].
    unfold loadConfig. rewrite (bind_Val _ _ _ _ _ Hpath).
    destruct (config_Load E _); reflexivity.
Qed.

(** With only config.json in place, the default path falls back to it. *)
Lemma config_path_fallback_witness :
  configPath Sample.ephemeral (runServeCmd_bound Sample.ephemeral)
  = (Val "/etc/fulcio-config/config.json",
     warned (runServeCmd_bound Sample.ephemeral)
            (fallback_warning "no such file or directory"))
  /\ loadConfig Sample.ephemeral (runServeCmd_bound Sample.ephemeral)
     = (Val Sample.empty_config,
        warned (runServeCmd_bound Sample.ephemeral)
               (fallback_warning "no such file or directory")).
Proof.
  apply (proj1 (config_path_fallback Sample.ephemeral
                  (runServeCmd_bound Sample.ephemeral))).
  - vm_compute. reflexivity.
  - vm_compute. reflexivity.
Defined.

(** ** The flag set and the bound settings *)

Section Flags.
Variable E : Env.

Lemma formatAlgorithms_returns l acc s names s' :
  formatAlgorithms E l acc s = (Val names, s') ->
  s' = s /\
  exists fresh,
    names = (acc ++ fresh)%list
    /\ Forall2 (fun a n => FormatSignatureAlgorithmFlag E a = inl n) l fresh.
Proof.
  revert acc. induction l as [|a l IH]; intros acc; simpl.
  - intros [= <- <-]. split; [done|]. exists []. by rewrite app_nil_r.
  - destruct (FormatSignatureAlgorithmFlag E a) as [n|e] eqn:Hf; [|discriminate].
    intros H. destruct (IH _ H) as (-> & fresh & -> & Hall).
    split; [done|]. exists (n :: fresh). split.
    + by rewrite <- app_assoc.
    + by constructor.
Qed.

(** Parsing back what was formatted gives the algorithms themselves, when
    the two library functions are inverse to each other. *)
Lemma parseAlgorithms_formatted l names acc s :
  (forall a n, FormatSignatureAlgorithmFlag E a = inl n ->
               ParseSignatureAlgorithmFlag E n = inl a) ->
  Forall2 (fun a n => FormatSignatureAlgorithmFlag E a = inl n) l names ->
  parseAlgorithms E names acc s = (Val (acc ++ l)%list, s).
Proof.
  intros Hinv Hall. revert acc.
  induction Hall as [|a n l names Hf _ IH]; intros acc; simpl.
  - by rewrite app_nil_r.
  - rewrite (Hinv _ _ Hf), IH, <- app_assoc. done.
Qed.

Lemma newServeCmd_returns s decls s' :
  newServeCmd E s = (Val decls, s') ->
  exists names,
    Forall2 (fun a n => FormatSignatureAlgorithmFlag E a = inl n)
            defaultAllowedAlgorithms names
    /\ decls = serveFlags E names
    /\ trace s' = trace s
    /\ v_aliases (viper s') =
       <["http-port" := "port"]> (<["http-host" := "host"]> (v_aliases (viper s)))
    /\ v_pflags (viper s') = v_pflags (viper s).
Proof.
  unfold newServeCmd, buildDefaultClientSigningAlgorithms. intros H.
  apply bind_Val_inv in H as (names & s1 & Hf & H).
  apply formatAlgorithms_returns in Hf as (-> & fresh & -> & Hall).
  injection H as <- <-. exists fresh. done.
Qed.

Lemma same_flags_refl s : same_flags s s.
Proof. done. Qed.
Lemma same_flags_trans s1 s2 s3 :
  same_flags s1 s2 -> same_flags s2 s3 -> same_flags s1 s3.
Proof. unfold same_flags. intros [-> ->] [-> ->]. done. Qed.

Lemma keeps_checkServeCmdConfigFile path :
  keeps same_flags (checkServeCmdConfigFile E path).
Proof.
  unfold checkServeCmdConfigFile, ReadInConfig.
  keeps_with same_flags_refl same_flags_trans
    ltac:(idtac; match goal with
          | |- keeps _ (modifyViper _) => intros ?; split; [done | discriminate]
          end).
Qed.

(** Once [bindSettings] returns, the flags are bound over whatever was
    bound before, and the aliases are as they were. *)
Lemma bindSettings_returns flags s s' :
  bindSettings E flags s = (Val tt, s') ->
  v_pflags (viper s') = flags ∪ v_pflags (viper s)
  /\ v_aliases (viper s') = v_aliases (viper s).
Proof.
  unfold bindSettings. intros H.
  apply bind_Val_inv in H as ([] & s1 & Hc & H).
  assert (same_flags s s1) as [Hp Ha].
  { unfold fatalOnErr in Hc. apply bind_Val_inv in Hc as (e & s0 & Hc & Hr).
    pose proof (proj1 (keeps_checkServeCmdConfigFile (serveCmdConfigFilePath flags) s)) as K.
    rewrite Hc in K. destruct e; [discriminate|]. injection Hr as <-. exact K. }
  injection H as <-. simpl. by rewrite Hp, Ha.
Qed.

(** A setting no source sets has the default of its flag. *)
Lemma find_unset v key fl :
  v_pflags v !! realKey v key = Some fl ->
  IsSet E v key = false ->
  find E v key true = Some (flag_default fl).
Proof.
  unfold IsSet, find. intros ->. simpl.
  destruct (flag_given fl); [done|].
  destruct (if v_automaticEnv v then _ else _); [done|].
  destruct (v_config v !! _); done.
Qed.

End Flags.

(** ** The default client signing algorithms *)

Section Defaults.
Variable E : Env.

Lemma parseFlags_lookup names key d :
  (key, d) ∈ serveFlags E names ->
  parseFlags E (serveFlags E names) !! key
  = Some {| flag_default := d; flag_given := cmdline E !! key |}.
Proof.
  intros Hin. unfold parseFlags.
  apply elem_of_list_to_map_1.
  - rewrite <- list_fmap_compose.
    apply (bool_decide_unpack _). vm_compute. reflexivity.
  - apply (list_elem_of_fmap_2 (fun d => (d.1, {| flag_default := d.2; flag_given := cmdline E !! d.1 |})) _ _ Hin).
Qed.

(** The aliases of the serve command leave every other key alone. *)
Lemma realKey_serve v key :
  v_aliases v = <["http-port" := "port"]> (<["http-host" := "host"]> ∅) ->
  key <> "http-port" -> key <> "http-host" ->
  realKey v key = key.
Proof.
  intros Ha H1 H2. unfold realKey. rewrite Ha.
  rewrite lookup_insert_ne by done. rewrite lookup_insert_ne by done.
  by rewrite lookup_empty.
Qed.

(** Where the serve command has bound its settings, a key that no source
    sets reads as the default its flag was declared with. *)
Lemma bound_unset_default names s1 s2 key d :
  newServeCmd E initial = (Val (serveFlags E names), s1) ->
  bindSettings E (parseFlags E (serveFlags E names)) s1 = (Val tt, s2) ->
  (key, d) ∈ serveFlags E names ->
  key <> "http-port" -> key <> "http-host" ->
  IsSet E (viper s2) key = false ->
  find E (viper s2) key true = Some d.
Proof.
  intros Hn Hb Hin K1 K2 Hunset.
  apply newServeCmd_returns in Hn as (_ & _ & _ & _ & Ha & Hp).
  apply bindSettings_returns in Hb as (Hp2 & Ha2).
  assert (realKey (viper s2) key = key) as Hk.
  { apply realKey_serve; [|done..]. by rewrite Ha2, Ha. }
  rewrite (find_unset E _ key {| flag_default := d; flag_given := cmdline E !! key |});
    [done | | done].
  rewrite Hk, Hp2. apply lookup_union_Some_l. by apply parseFlags_lookup.
Qed.

End Defaults.

(** C3.  The algorithms [newServeCmd] declares as the default of
    [client-signing-algorithms] are exactly these seven: ECDSA P-256 with
    SHA-256, P-384 with SHA-384, P-521 with SHA-512, RSA PKCS#1 v1.5 with
    2048, 3072 and 4096 bit keys and SHA-256, and Ed25519.  The flag's
    default is the list of their flag names, in that order; it is the value
    of the setting when no source overrides it, and, the parser being the
    inverse of the formatter, the algorithms loaded from it are the seven
    again. *)
Theorem default_client_signing_algorithms (E : Env)
    (decls : list (string * Value)) (s1 : State) :
  newServeCmd E initial = (Val decls, s1) ->
  map details_triple defaultAllowedAlgorithms =
    [ Some (ECDSA, P256, SHA_256);
      Some (ECDSA, P384, SHA_384);
      Some (ECDSA, P521, SHA_512);
      Some (RSA_PKCS1V15, Bits 2048, SHA_256);
      Some (RSA_PKCS1V15, Bits 3072, SHA_256);
      Some (RSA_PKCS1V15, Bits 4096, SHA_256);
      Some (ED25519, NoParam, NoPrehash) ]
  /\ exists names,
       Forall2 (fun a n => FormatSignatureAlgorithmFlag E a = inl n)
               defaultAllowedAlgorithms names
       /\ flag_default <$> (parseFlags E decls !! "client-signing-algorithms")
          = Some (VStringSlice names)
       /\ forall s2,
            bindSettings E (parseFlags E decls) s1 = (Val tt, s2) ->
            IsSet E (viper s2) "client-signing-algorithms" = false ->
            GetStringSlice E (viper s2) "client-signing-algorithms" = names
            /\ ((forall a n, FormatSignatureAlgorithmFlag E a = inl n ->
                             ParseSignatureAlgorithmFlag E n = inl a) ->
                loadAlgorithmConfig E s2 = (Val defaultAllowedAlgorithms, s2)).
Proof.
  intros Hn. split; [reflexivity|].
  destruct (newServeCmd_returns E _ _ _ Hn) as (names & Hall & -> & _).
  assert (("client-signing-algorithms", VStringSlice names) ∈ serveFlags E names)
    as Hin by (by apply (list_elem_of_lookup_2 _ 30%nat)).
  exists names. split; [exact Hall|]. split.
  - by rewrite (parseFlags_lookup E names _ _ Hin).
  - intros s2 Hb Hunset.
    pose proof (bound_unset_default E names s1 s2 _ _ Hn Hb Hin
                  ltac:(discriminate) ltac:(discriminate) Hunset) as Hfind.
    assert (GetStringSlice E (viper s2) "client-signing-algorithms" = names) as Hget
      by (unfold GetStringSlice; now rewrite Hfind).
    split; [exact Hget|].
    intros Hinv. unfold loadAlgorithmConfig, bind, getViper. simpl.
    rewrite Hget. apply (parseAlgorithms_formatted E _ _ [] s2 Hinv Hall).
Qed.

(** With sigstore's flag names: the default reads as the seven names, and
    loads as the seven algorithms. *)
Lemma default_client_signing_algorithms_witness :
  newServeCmd Sample.ephemeral initial
  = (Val (serveFlags Sample.ephemeral Sample.names), runServeCmd_ready Sample.ephemeral)
  /\ GetStringSlice Sample.ephemeral (viper (runServeCmd_bound Sample.ephemeral))
                    "client-signing-algorithms" = Sample.names
  /\ loadAlgorithmConfig Sample.ephemeral (runServeCmd_bound Sample.ephemeral)
     = (Val defaultAllowedAlgorithms, runServeCmd_bound Sample.ephemeral).
Proof.
  assert (newServeCmd Sample.ephemeral initial
          = (Val (serveFlags Sample.ephemeral Sample.names),
             runServeCmd_ready Sample.ephemeral)) as Hn
    by (vm_compute; reflexivity).
  split; [exact Hn|].
  destruct (default_client_signing_algorithms _ _ _ Hn)
    as (_ & names & Hall & Hdef & Hbound).
  assert (flag_default <$>
            (parseFlags Sample.ephemeral (serveFlags Sample.ephemeral Sample.names)
               !! "client-signing-algorithms")
          = Some (VStringSlice Sample.names)) as Hdef'
    by (vm_compute; reflexivity).
  assert (names = Sample.names) as -> by congruence.
  destruct (Hbound (runServeCmd_bound Sample.ephemeral)) as [Hget Hload].
  - unfold runServeCmd_bound, runServeCmd_flags. rewrite Hn.
    apply returns_fst. vm_compute. reflexivity.
  - vm_compute. reflexivity.
  - split; [exact Hget|]. apply Hload.
    intros a n. destruct a; simpl; intros [= <-]; reflexivity.
Defined.

(** ** The CT log client *)

Section CTClient.
Variable E : Env.

Lemma ctOptions_returns s opts s' :
  ctOptions E s = (Val opts, s') ->
  if String.eqb (GetString E (viper s) "ct-log-public-key-path") ""
  then PublicKey opts = ""
  else os_ReadFile E (filepath_Clean E (GetString E (viper s) "ct-log-public-key-path"))
       = inl (PublicKey opts).
Proof.
  unfold ctOptions, getString, bind, getViper, ret. simpl.
  destruct (String.eqb _ ""); simpl.
  - intros [= <- _]. reflexivity.
  - destruct (os_ReadFile E _) as [pem|e]; [|discriminate].
    intros [= <- _]. reflexivity.
Qed.

Lemma ctHTTPClient_returns s hc s' :
  ctHTTPClient E s = (Val hc, s') ->
  Timeout hc = 30 * Second
  /\ if String.eqb (GetString E (viper s) "ct-log.tls-ca-cert") ""
     then Transport hc = None
     else exists caCertPool,
            Transport hc
            = Some {| TLSClientConfig :=
                        {| RootCAs := caCertPool; MinVersion := VersionTLS12 |} |}.
Proof.
  unfold ctHTTPClient, getString, bind, getViper, ret. simpl.
  destruct (String.eqb _ ""); simpl.
  - intros [= <- _]. split; reflexivity.
  - destruct (os_ReadFile E _) as [pem|e]; [|discriminate].
    destruct (AppendCertsFromPEM E pem) as [pool|]; [|discriminate].
    intros [= <- _]. split; [reflexivity | eauto].
Qed.

Lemma newCTClient_returns s ct s' :
  newCTClient E s = (Val ct, s') -> ct_client_spec E (viper s) ct.
Proof.
  unfold newCTClient, getString. unfold bind at 1. simpl.
  destruct (String.eqb_spec (GetString E (viper s) "ct-log-url") "") as [Hurl|Hurl]; simpl.
  - intros [= <- _]. exact Hurl.
  - intros H.
    apply bind_Val_inv in H as (opts & s1 & Ho & H).
    apply bind_Val_inv in H as (hc & s2 & Hh & H).
    assert (viper s1 = viper s) as Hv1.
    { assert (keeps untouched (ctOptions E)) as K
        by (unfold ctOptions, getString; keeps_untouched).
      pose proof (proj1 (K s)) as [Hs _]. now rewrite Ho in Hs. }
    apply ctOptions_returns in Ho. apply ctHTTPClient_returns in Hh.
    rewrite Hv1 in Hh.
    unfold ctclient_New in H. destruct (ctclient_New_err E _ hc opts); [discriminate|].
    injection H as <- _. simpl. tauto.
Qed.

End CTClient.

(** ** The servers a run starts *)

Lemma started_with_refl P s : started_with P s s.
Proof. intros l Hl. by left. Qed.

Lemma started_with_trans P s1 s2 s3 :
  started_with P s1 s2 -> started_with P s2 s3 -> started_with P s1 s3.
Proof.
  intros H12 H23 l Hl. destruct (H23 l Hl) as [Hl2|HP]; [auto | by right].
Qed.

Lemma keeps_emit_started P e :
  match e with Serving l => P l | _ => True end ->
  keeps (started_with P) (emit e).
Proof.
  intros He s; split; [|discriminate].
  intros l. simpl. rewrite listeners_app, elem_of_app.
  intros [Hl | Hl]; [by left|]. right.
  destruct e; simpl in Hl; try (by apply elem_of_nil in Hl).
  apply list_elem_of_singleton in Hl as ->. exact He.
Qed.

Lemma keeps_weaken {A} (I J : State -> State -> Prop) (m : M A) :
  (forall s s', I s s' -> J s s') -> keeps I m -> keeps J m.
Proof. intros HIJ K s. destruct (K s) as [H1 H2]. split; [auto | exact H2]. Qed.

Lemma settings_after_bind {A B} (m : M A) (k : A -> M B) s :
  (forall a, keeps same_settings (k a)) ->
  viper (bind m k s).2 = viper (m s).2.
Proof.
  intros K. unfold bind. destruct (m s) as [[a|c w] s1]; simpl; [|done].
  apply (K a s1).
Qed.

Section Servers.
Variable E : Env.

Lemma keeps_StartDuplexServer cfg ct ca ar host port metricsPort ip :
  keeps (started_with (serves E cfg (NewGRPCCAServer ct ca ar ip)))
        (StartDuplexServer E cfg ct ca ar host port metricsPort ip).
Proof.
  unfold StartDuplexServer.
  keeps_with (started_with_refl (serves E cfg (NewGRPCCAServer ct ca ar ip)))
             (started_with_trans (serves E cfg (NewGRPCCAServer ct ca ar ip)))
             ltac:(apply keeps_emit_started; simpl; done).
Qed.

Lemma keeps_serveAll_started cfg ct ca ar :
  keeps (started_with (serves E cfg (NewGRPCCAServer ct ca ar (NewIssuerPool E cfg))))
        (serveAll E cfg ct ca ar).
Proof.
  unfold serveAll, serveSplit.
  keeps_with (started_with_refl
                (serves E cfg (NewGRPCCAServer ct ca ar (NewIssuerPool E cfg))))
             (started_with_trans
                (serves E cfg (NewGRPCCAServer ct ca ar (NewIssuerPool E cfg))))
             ltac:(first [ apply keeps_StartDuplexServer
                         | apply keeps_emit_started; simpl; done ]).
Qed.

Lemma keeps_preflight flags : keeps same_listeners (preflight E flags).
Proof.
  unfold preflight.
  assert (forall s s', untouched s s' -> same_listeners s s') as W by (by intros ?? [_ ?]).
  keeps_with same_listeners_refl same_listeners_trans
    ltac:(first [ apply keeps_bindSettings
                | apply (keeps_weaken _ _ _ W), keeps_validateCA
                | apply (keeps_weaken _ _ _ W), keeps_loadAlgorithms
                | apply (keeps_weaken _ _ _ W), keeps_loadConfig ]).
Qed.

(** Every listener of a run of [runServeCmd] serves a CA server whose CT
    client is what [newCTClient] returned under the bound settings. *)
Lemma runServeCmd_listeners flags s l :
  l ∈ listeners (trace (runServeCmd E flags s).2) ->
  l ∈ listeners (trace s)
  \/ exists cfg srv s2,
       serves E cfg srv l
       /\ ct_client_spec E (viper s2) (srv_ct srv)
       /\ bindSettings E flags s = (Val tt, s2).
Proof.
  unfold runServeCmd. intros Hl.
  pose proof (proj1 (keeps_preflight flags s)) as L1.
  destruct (preflight E flags s) as [[[ar cfg]|c w] s1] eqn:Hp; simpl in L1.
  2: { rewrite (bind_Exit _ _ _ _ _ _ Hp) in Hl. simpl in Hl. left. congruence. }
  rewrite (bind_Val _ _ _ _ _ Hp) in Hl.
  assert (exists s2, bindSettings E flags s = (Val tt, s2)) as [sb Hb].
  { unfold preflight in Hp. apply bind_Val_inv in Hp as ([] & sb & Hb & _). eauto. }
  apply preflight_returns in Hp as (Hv1 & _ & _).
  unfold settings in Hv1. rewrite Hb in Hv1. simpl in Hv1.
  pose proof (proj1 (keeps_newCA E s1)) as [V2 L2].
  destruct (newCA E s1) as [[ca|c w] s2] eqn:Hca; simpl in V2, L2.
  2: { rewrite (bind_Exit _ _ _ _ _ _ Hca) in Hl. simpl in Hl. left. congruence. }
  rewrite (bind_Val _ _ _ _ _ Hca) in Hl.
  pose proof (proj1 (keeps_newCTClient E s2)) as [V3 L3].
  destruct (newCTClient E s2) as [[ct|c w] s3] eqn:Hct; simpl in V3, L3.
  2: { rewrite (bind_Exit _ _ _ _ _ _ Hct) in Hl. simpl in Hl. left. congruence. }
  rewrite (bind_Val _ _ _ _ _ Hct) in Hl.
  destruct (proj1 (keeps_serveAll_started cfg ct ca ar s3) l Hl) as [Hold | Hnew].
  - left. congruence.
  - right. exists cfg, (NewGRPCCAServer ct ca ar (NewIssuerPool E cfg)), sb.
    split; [exact Hnew|]. split; [|exact Hb]. simpl.
    apply newCTClient_returns in Hct.
    unfold same_settings in *. by rewrite <- Hv1, <- V2.
Qed.

(** [runServeCmd] leaves the settings as [bindSettings] bound them. *)
Lemma runServeCmd_settings flags s :
  viper (runServeCmd E flags s).2 = settings E flags s.
Proof.
  unfold settings, runServeCmd, preflight.
  assert (forall s s', untouched s s' -> same_settings s s') as W by (by intros ?? [? _]).
  rewrite settings_after_bind.
  - rewrite settings_after_bind; [done|]. intros [].
    keeps_with same_settings_refl same_settings_trans
      ltac:(first [ apply (keeps_weaken _ _ _ W), keeps_validateCA
                  | apply (keeps_weaken _ _ _ W), keeps_loadAlgorithms
                  | apply (keeps_weaken _ _ _ W), keeps_loadConfig ]).
  - intros [ar cfg].
    keeps_with same_settings_refl same_settings_trans
      ltac:(first [ apply (keeps_weaken _ _ _ W), keeps_newCA
                  | apply (keeps_weaken _ _ _ W), keeps_newCTClient
                  | apply keeps_serveAll ]).
Qed.

End Servers.

(** ** A run from process start *)

Section Run.
Variable E : Env.

Lemma keeps_newServeCmd : keeps same_listeners (newServeCmd E).
Proof.
  unfold newServeCmd, buildDefaultClientSigningAlgorithms.
  assert (forall s s', untouched s s' -> same_listeners s s') as W by (by intros ?? [_ ?]).
  keeps_with same_listeners_refl same_listeners_trans
    ltac:(first [ apply (keeps_weaken _ _ _ W), keeps_formatAlgorithms
                | apply keeps_modifyViper_listeners ]).
Qed.

Lemma server_of_listener (t : list Event) (srv : GRPCCAServer) :
  srv ∈ servers t ->
  exists l, l ∈ listeners t /\
    match l with
    | DuplexListener _ _ _ srv' | GRPCListener srv' | LegacyUnixListener _ srv' =>
        srv' = srv
    | _ => False
    end.
Proof.
  unfold servers. rewrite list_elem_of_omap. intros (l & Hl & Hs).
  exists l. split; [exact Hl|]. destruct l; simpl in Hs; congruence.
Qed.

(** Behind every server of a run: the declared flags were bound, and the
    CT client is the one [newCTClient] builds from the run's settings. *)
Lemma run_servers srv :
  srv ∈ servers (trace (run E).2) ->
  ct_client_spec E (viper (run E).2) (srv_ct srv)
  /\ exists names s1 s2,
       newServeCmd E initial = (Val (serveFlags E names), s1)
       /\ bindSettings E (parseFlags E (serveFlags E names)) s1 = (Val tt, s2)
       /\ viper s2 = viper (run E).2.
Proof.
  intros Hsrv. apply server_of_listener in Hsrv as (l & Hl & Hsrv).
  unfold run, serve in *.
  pose proof (proj1 (keeps_newServeCmd initial)) as L0.
  destruct (newServeCmd E initial) as [[decls|c w] s1] eqn:Hn; simpl in L0.
  2: { rewrite (bind_Exit _ _ _ _ _ _ Hn) in Hl. simpl in Hl.
       rewrite L0 in Hl. by apply elem_of_nil in Hl. }
  rewrite (bind_Val _ _ _ _ _ Hn) in *.
  destruct (newServeCmd_returns E _ _ _ Hn) as (names & _ & -> & _).
  apply runServeCmd_listeners in Hl as [Hl | (cfg & srv' & s2 & Hserves & Hspec & Hb)].
  { rewrite L0 in Hl. by apply elem_of_nil in Hl. }
  assert (viper s2 = viper (runServeCmd E (parseFlags E (serveFlags E names)) s1).2) as Hv.
  { rewrite runServeCmd_settings. unfold settings. now rewrite Hb. }
  assert (srv' = srv) as ->
    by (destruct l; simpl in Hserves, Hsrv; intuition congruence).
  split; [by rewrite <- Hv|]. exists names, s1, s2.
  split; [reflexivity | split; [exact Hb | exact Hv]].
Qed.

End Run.

(** ** Claims about the CT log client *)

(** Without a CT client the handler submits nothing and answers without an
    SCT. *)
Lemma no_ct_client_no_sct (B : Issuance.Backend) (srv : GRPCCAServer)
    (req : Issuance.Request) :
  srv_ct srv = None ->
  Issuance.submitted (Issuance.CreateSigningCertificate B srv req) = []
  /\ forall resp,
       Issuance.response (Issuance.CreateSigningCertificate B srv req) = inr resp ->
       Issuance.signed_certificate_timestamp resp = None.
Proof.
  intros Hct. unfold Issuance.CreateSigningCertificate, Issuance.issue.
  rewrite Hct.
  repeat case_match; simpl; split; try done; intros resp [= <-]; done.
Qed.

(** C1.  For every CA server a run of the serve command starts: it has a
    CT log client exactly when the effective [ct-log-url] is not empty.
    When it is empty there is no client, the handler submits nothing to a
    log and its responses carry no SCT.  When no source sets [ct-log-url],
    its value is the flag's default http://localhost:6962/test, so the
    server has a CT client. *)
Theorem ct_client_iff_log_url (E : Env) (srv : GRPCCAServer) :
  srv ∈ servers (trace (run E).2) ->
  (is_Some (srv_ct srv) <-> GetString E (viper (run E).2) "ct-log-url" <> "")
  /\ (GetString E (viper (run E).2) "ct-log-url" = "" ->
      srv_ct srv = None
      /\ forall B req,
           Issuance.submitted (Issuance.CreateSigningCertificate B srv req) = []
           /\ forall resp,
                Issuance.response (Issuance.CreateSigningCertificate B srv req)
                = inr resp ->
                Issuance.signed_certificate_timestamp resp = None)
  /\ (IsSet E (viper (run E).2) "ct-log-url" = false ->
      GetString E (viper (run E).2) "ct-log-url" = "http://localhost:6962/test"
      /\ is_Some (srv_ct srv)).
Proof.
  intros Hsrv.
  destruct (run_servers E srv Hsrv) as (Hspec & names & s1 & s2 & Hn & Hb & Hv).
  assert (is_Some (srv_ct srv) <-> GetString E (viper (run E).2) "ct-log-url" <> "")
    as Hiff.
  { unfold ct_client_spec in Hspec. destruct (srv_ct srv) as [c|].
    - split; [tauto | eauto].
    - split; [by intros [? ?] | congruence]. }
  split; [exact Hiff|]. split.
  - intros Hempty.
    assert (srv_ct srv = None) as Hnone.
    { destruct (srv_ct srv) eqn:Hc; [|done].
      exfalso. apply (proj1 Hiff); [eauto | exact Hempty]. }
    split; [exact Hnone|]. intros B req. by apply no_ct_client_no_sct.
  - intros Hunset. rewrite <- Hv in *.
    assert (GetString E (viper s2) "ct-log-url" = "http://localhost:6962/test") as Hurl.
    { unfold GetString.
      rewrite (bound_unset_default E names s1 s2 "ct-log-url"
                 (VString "http://localhost:6962/test") Hn Hb); try done.
      by apply (list_elem_of_lookup_2 _ 6%nat). }
    split; [exact Hurl|]. apply Hiff. rewrite Hurl. discriminate.
Qed.

(** A run with [--ct-log-url=] starts a server without a CT client; a run
    that leaves the flag alone starts one with a client for the default
    URL. *)
Lemma ct_client_iff_log_url_witness :
  (Sample.server_with None ∈ servers (trace (run Sample.no_ct).2)
   /\ forall B req,
        Issuance.submitted
          (Issuance.CreateSigningCertificate B (Sample.server_with None) req) = [])
  /\ (Sample.server_with (Some Sample.default_client)
        ∈ servers (trace (run Sample.ephemeral).2)
      /\ GetString Sample.ephemeral (viper (run Sample.ephemeral).2) "ct-log-url"
         = "http://localhost:6962/test").
Proof.
  assert (Sample.server_with None ∈ servers (trace (run Sample.no_ct).2)) as H1
    by (apply (list_elem_of_lookup_2 _ 0%nat); vm_compute; reflexivity).
  assert (Sample.server_with (Some Sample.default_client)
            ∈ servers (trace (run Sample.ephemeral).2)) as H2
    by (apply (list_elem_of_lookup_2 _ 0%nat); vm_compute; reflexivity).
  split; split; [exact H1 | | exact H2 | ].
  - destruct (ct_client_iff_log_url _ _ H1) as (_ & Hempty & _).
    intros B req. apply Hempty. vm_compute. reflexivity.
  - destruct (ct_client_iff_log_url _ _ H2) as (_ & _ & Hunset).
    apply Hunset. vm_compute. reflexivity.
Defined.

(** C5.  For the CT client of every CA server a run starts: with a
    non-empty [ct-log-public-key-path], the client's pinned public key is
    the content os.ReadFile gives for that path (cleaned by filepath.Clean);
    with an empty one, the client has no pinned key. *)
Theorem ct_public_key_pinned (E : Env) (srv : GRPCCAServer) (c : LogClient) :
  srv ∈ servers (trace (run E).2) ->
  srv_ct srv = Some c ->
  (GetString E (viper (run E).2) "ct-log-public-key-path" <> "" ->
   os_ReadFile E (filepath_Clean E
                    (GetString E (viper (run E).2) "ct-log-public-key-path"))
   = inl (PublicKey (lc_opts c)))
  /\ (GetString E (viper (run E).2) "ct-log-public-key-path" = "" ->
      PublicKey (lc_opts c) = "").
Proof.
  intros Hsrv Hc. destruct (run_servers E srv Hsrv) as (Hspec & _).
  rewrite Hc in Hspec. destruct Hspec as (_ & _ & Hkey & _).
  destruct (String.eqb_spec
              (GetString E (viper (run E).2) "ct-log-public-key-path") "")
    as [Hp|Hp]; split; intros Hq; congruence.
Qed.

(** The server with a pinned key file has that file's content as its key. *)
Lemma ct_public_key_pinned_witness :
  Sample.server_with (Some Sample.duplex_client)
    ∈ servers (trace (run Sample.duplex).2)
  /\ os_ReadFile Sample.duplex "/config/ct/pubkey.pem"
     = inl (PublicKey (lc_opts Sample.duplex_client)).
Proof.
  assert (Sample.server_with (Some Sample.duplex_client)
            ∈ servers (trace (run Sample.duplex).2)) as H
    by (apply (list_elem_of_lookup_2 _ 0%nat); vm_compute; reflexivity).
  split; [exact H|].
  destruct (ct_public_key_pinned Sample.duplex _ Sample.duplex_client H eq_refl)
    as [Hset _].
  assert (GetString Sample.duplex (viper (run Sample.duplex).2)
                    "ct-log-public-key-path" = "/config/ct/pubkey.pem") as Hp
    by (vm_compute; reflexivity).
  rewrite Hp in Hset. apply Hset. discriminate.
Defined.

(** C6.  The HTTP client of the CT client of every CA server a run starts
    has a timeout of 30 seconds, with a TLS root of its own
    ([ct-log.tls-ca-cert] non-empty) and without. *)
Theorem ct_http_timeout (E : Env) (srv : GRPCCAServer) (c : LogClient) :
  srv ∈ servers (trace (run E).2) ->
  srv_ct srv = Some c ->
  Timeout (lc_httpClient c) = 30 * Second
  /\ (GetString E (viper (run E).2) "ct-log.tls-ca-cert" = "" ->
      lc_httpClient c = {| Timeout := 30 * Second; Transport := None |})
  /\ (GetString E (viper (run E).2) "ct-log.tls-ca-cert" <> "" ->
      exists caCertPool,
        lc_httpClient c
        = {| Timeout := 30 * Second;
             Transport :=
               Some {| TLSClientConfig :=
                         {| RootCAs := caCertPool; MinVersion := VersionTLS12 |} |} |}).
Proof.
  intros Hsrv Hc. destruct (run_servers E srv Hsrv) as (Hspec & _).
  rewrite Hc in Hspec. destruct Hspec as (_ & _ & _ & Ht & Htr).
  split; [exact Ht|].
  destruct (lc_httpClient c) as [t tr]. simpl in *. subst t.
  destruct (String.eqb_spec (GetString E (viper (run E).2) "ct-log.tls-ca-cert") "")
    as [Hp|Hp]; split; intros Hq; try congruence.
  destruct Htr as [pool ->]. eauto.
Qed.

(** Thirty seconds in nanoseconds, with a TLS root of its own and without. *)
Lemma ct_http_timeout_witness :
  (Sample.server_with (Some Sample.duplex_client)
     ∈ servers (trace (run Sample.duplex).2)
   /\ Timeout (lc_httpClient Sample.duplex_client) = 30000000000)
  /\ (Sample.server_with (Some Sample.default_client)
        ∈ servers (trace (run Sample.ephemeral).2)
      /\ Timeout (lc_httpClient Sample.default_client) = 30000000000).
Proof.
  assert (Sample.server_with (Some Sample.duplex_client)
            ∈ servers (trace (run Sample.duplex).2)) as H1
    by (apply (list_elem_of_lookup_2 _ 0%nat); vm_compute; reflexivity).
  assert (Sample.server_with (Some Sample.default_client)
            ∈ servers (trace (run Sample.ephemeral).2)) as H2
    by (apply (list_elem_of_lookup_2 _ 0%nat); vm_compute; reflexivity).
  split; split; [exact H1 | | exact H2 | ].
  - exact (proj1 (ct_http_timeout _ _ _ H1 eq_refl)).
  - exact (proj1 (ct_http_timeout _ _ _ H2 eq_refl)).
Defined.

(** ** Claims about the duplex server *)

Section DuplexServer.
Variable E : Env.

Lemma ChainUnaryServer_cons (i : UnaryServerInterceptor)
    (rest : list UnaryServerInterceptor) (c : Call) (handler : UnaryHandler) :
  ChainUnaryServer (i :: rest) c handler
  = i c (fun c' => ChainUnaryServer rest c' handler).
Proof. reflexivity. Qed.

(** With the recovery interceptor outermost no call panics. *)
Lemma recovery_first_survives (rest : list UnaryServerInterceptor)
    (c : Call) (handler : UnaryHandler) :
  ChainUnaryServer
    (grpc_recovery_UnaryServerInterceptor (panicRecoveryHandler E) :: rest) c handler
  = match ChainUnaryServer rest c handler with
    | Panicked p => Returned (inr (panicRecoveryHandler E p))
    | Returned r => Returned r
    end.
Proof. rewrite ChainUnaryServer_cons. reflexivity. Qed.

(** The duplex servers [StartDuplexServer] starts have the options it
    lists. *)
Lemma StartDuplexServer_duplexes cfg ct ca ar host port metricsPort ip s d :
  duplexes (trace s) = [] ->
  d ∈ duplexes (trace (StartDuplexServer E cfg ct ca ar host port metricsPort ip s).2) ->
  d_UnaryInterceptors d = duplexInterceptors E cfg
  /\ d_MaxRecvMsgSize d = maxMsgSize.
Proof.
  intros Hs Hd. unfold duplexes in *.
  apply list_elem_of_omap in Hd as (l & Hl & Hd).
  destruct (proj1 (keeps_StartDuplexServer E cfg ct ca ar host port metricsPort ip s) l Hl)
    as [Hold | Hnew].
  - assert (d ∈ omap (fun l => match l with
                               | DuplexListener _ _ d _ => Some d
                               | _ => None
                               end) (listeners (trace s))) as Hin
      by (apply list_elem_of_omap; eauto).
    rewrite Hs in Hin. by apply elem_of_nil in Hin.
  - destruct l; simpl in Hd; try discriminate.
    injection Hd as <-. simpl in Hnew. tauto.
Qed.

End DuplexServer.

(** C7.  In every duplex server [StartDuplexServer] starts, the recovery
    interceptor is the first of the chain.  So no unary call ends in a
    panic: when the rest of the chain, down to the handler, panics, the
    call returns the error the recovery handler makes of it. *)
Theorem duplex_recovers_from_panics (E : Env) (cfg : FulcioConfig)
    (ct : option LogClient) (ca : CertificateAuthority)
    (ar : AlgorithmRegistryConfig) (host : string) (port metricsPort : Z)
    (ip : IssuerPool) (s : State) (d : Duplex) :
  duplexes (trace s) = [] ->
  d ∈ duplexes (trace (StartDuplexServer E cfg ct ca ar host port metricsPort ip s).2) ->
  exists rest,
    d_UnaryInterceptors d
    = grpc_recovery_UnaryServerInterceptor (panicRecoveryHandler E) :: rest
    /\ forall handler c,
         GRPC.process_survives (GRPC.serveUnary d handler c)
         /\ forall p,
              GRPC.message_size c <= d_MaxRecvMsgSize d ->
              ChainUnaryServer rest c handler = Panicked p ->
              GRPC.serveUnary d handler c = Returned (inr (panicRecoveryHandler E p)).
Proof.
  intros Hs Hd.
  destruct (StartDuplexServer_duplexes E _ _ _ _ _ _ _ _ _ _ Hs Hd) as [Hi _].
  unfold duplexInterceptors in Hi.
  eexists. split; [exact Hi|].
  intros handler c. unfold GRPC.serveUnary. rewrite Hi.
  rewrite recovery_first_survives. split.
  - destruct (_ <? _); [exact Logic.I|].
    destruct (ChainUnaryServer _ c handler); exact Logic.I.
  - intros p Hsize Hp.
    destruct (Z.ltb_spec (d_MaxRecvMsgSize d) (GRPC.message_size c)); [lia|].
    now rewrite Hp.
Qed.

(** A handler that panics, behind the sample duplex server, gives an error. *)
Lemma duplex_recovers_from_panics_witness :
  Sample.duplex_options
    ∈ duplexes (trace (StartDuplexServer Sample.duplex Sample.empty_config None
                         EphemeralCA [] "0.0.0.0" 8080 2112 [] initial).2)
  /\ GRPC.serveUnary Sample.duplex_options (fun _ => Panicked "nil pointer dereference")
       {| call_method := "CreateSigningCertificate"; call_metadata := [];
          call_message := "request" |}
     = Returned (inr "panic: nil pointer dereference").
Proof.
  assert (Sample.duplex_options
            ∈ duplexes (trace (StartDuplexServer Sample.duplex Sample.empty_config None
                                 EphemeralCA [] "0.0.0.0" 8080 2112 [] initial).2)) as H
    by (apply (list_elem_of_lookup_2 _ 0%nat); vm_compute; reflexivity).
  split; [exact H|].
  destruct (duplex_recovers_from_panics Sample.duplex Sample.empty_config None
              EphemeralCA [] "0.0.0.0" 8080 2112 [] initial _ eq_refl H)
    as (rest & Hi & Hcalls).
  injection Hi as <-.
  apply (proj2 (Hcalls _ _)); [vm_compute; discriminate | reflexivity].
Defined.

(** C10.  Every duplex server [StartDuplexServer] starts has a receive
    limit of 4 MiB, that is 2^22 bytes.  A unary call with a larger message
    is refused with ResourceExhausted whatever the handler is, so the
    handler is not run; a message of up to 2^22 bytes goes to the
    interceptor chain. *)
Theorem duplex_max_recv_msg_size (E : Env) (cfg : FulcioConfig)
    (ct : option LogClient) (ca : CertificateAuthority)
    (ar : AlgorithmRegistryConfig) (host : string) (port metricsPort : Z)
    (ip : IssuerPool) (s : State) (d : Duplex) :
  duplexes (trace s) = [] ->
  d ∈ duplexes (trace (StartDuplexServer E cfg ct ca ar host port metricsPort ip s).2) ->
  d_MaxRecvMsgSize d = 4 * 1024 * 1024
  /\ d_MaxRecvMsgSize d = 2 ^ 22
  /\ forall handler c,
       (2 ^ 22 < GRPC.message_size c ->
        GRPC.serveUnary d handler c = Returned (inr GRPC.ResourceExhausted))
       /\ (GRPC.message_size c <= 2 ^ 22 ->
           GRPC.serveUnary d handler c
           = ChainUnaryServer (d_UnaryInterceptors d) c handler).
Proof.
  intros Hs Hd.
  destruct (StartDuplexServer_duplexes E _ _ _ _ _ _ _ _ _ _ Hs Hd) as [_ Hm].
  assert (maxMsgSize = 2 ^ 22) as Hmax by reflexivity.
  split; [rewrite Hm; reflexivity|]. split; [congruence|].
  intros handler c. unfold GRPC.serveUnary. rewrite Hm, Hmax.
  destruct (Z.ltb_spec (2 ^ 22) (GRPC.message_size c)); split; intros; try lia; reflexivity.
Qed.

(** The sample duplex server's limit, in bytes. *)
Lemma duplex_max_recv_msg_size_witness :
  Sample.duplex_options
    ∈ duplexes (trace (StartDuplexServer Sample.duplex Sample.empty_config None
                         EphemeralCA [] "0.0.0.0" 8080 2112 [] initial).2)
  /\ d_MaxRecvMsgSize Sample.duplex_options = 4194304.
Proof.
  assert (Sample.duplex_options
            ∈ duplexes (trace (StartDuplexServer Sample.duplex Sample.empty_config None
                                 EphemeralCA [] "0.0.0.0" 8080 2112 [] initial).2)) as H
    by (apply (list_elem_of_lookup_2 _ 0%nat); vm_compute; reflexivity).
  split; [exact H|].
  exact (proj1 (duplex_max_recv_msg_size Sample.duplex Sample.empty_config None
                  EphemeralCA [] "0.0.0.0" 8080 2112 [] initial _ eq_refl H)).
Defined.

(** ** The validity window *)



(** * Further properties of the serve command *)

(** ** The validation switch, both ways *)

Section ValidationExact.
Variable E : Env.

Lemma isSet_run key s : isSet E key s = (Val (IsSet E (viper s) key), s).
Proof. reflexivity. Qed.

Lemma mustBeSet_set key msg s :
  IsSet E (viper s) key = true -> mustBeSet E key msg s = (Val tt, s).
Proof. intros H. unfold mustBeSet, isSet, bind, getViper, ret. simpl. now rewrite H. Qed.

(** A well configured [ca] passes the switch. *)
Lemma validateCA_configured s :
  ~ ca_misconfigured E (viper s) -> exists s', validateCA E s = (Val tt, s').
Proof.
  unfold ca_misconfigured, unset. intros H.
  assert (GetString E (viper s) "ca" ∈ handled_backends) as Hin.
  { destruct (decide (GetString E (viper s) "ca" ∈ handled_backends)); [done|].
    exfalso. apply H. right. by left. }
  unfold validateCA, getString. unfold bind at 1. simpl.
  unfold handled_backends in Hin. rewrite !elem_of_cons, elem_of_nil in Hin.
  destruct Hin as [Hc | [Hc | [Hc | [Hc | [Hc | [Hc | []]]]]]];
    rewrite Hc in *; simpl.
  - (* googleca *)
    destruct (IsSet E (viper s) "gcp_private_ca_parent") eqn:Hp;
      [|exfalso; apply H; tauto].
    rewrite (bind_Val _ _ _ _ _ (mustBeSet_set _ _ _ Hp)).
    unfold bind, isSet, getViper, ret, when, emit. simpl.
    destruct (IsSet E (viper s) "gcp_private_ca_version"); eauto.
  - (* pkcs11ca *)
    destruct (IsSet E (viper s) "hsm-caroot-id") eqn:Hp;
      [|exfalso; apply H; tauto].
    rewrite (mustBeSet_set _ _ _ Hp). eauto.
  - (* fileca *)
    destruct (IsSet E (viper s) "fileca-cert") eqn:H1; [|exfalso; apply H; tauto].
    destruct (IsSet E (viper s) "fileca-key") eqn:H2; [|exfalso; apply H; tauto].
    destruct (IsSet E (viper s) "fileca-key-passwd") eqn:H3; [|exfalso; apply H; tauto].
    rewrite (bind_Val _ _ _ _ _ (mustBeSet_set _ _ _ H1)).
    rewrite (bind_Val _ _ _ _ _ (mustBeSet_set _ _ _ H2)).
    rewrite (mustBeSet_set _ _ _ H3). eauto.
  - eauto.
  - (* kmsca *)
    destruct (IsSet E (viper s) "kms-resource") eqn:H1; [|exfalso; apply H; tauto].
    destruct (IsSet E (viper s) "kms-cert-chain-path") eqn:H2; [|exfalso; apply H; tauto].
    rewrite (bind_Val _ _ _ _ _ (mustBeSet_set _ _ _ H1)).
    rewrite (mustBeSet_set _ _ _ H2). eauto.
  - (* tinkca *)
    destruct (IsSet E (viper s) "tink-kms-resource") eqn:H1; [|exfalso; apply H; tauto].
    destruct (IsSet E (viper s) "tink-cert-chain-path") eqn:H2; [|exfalso; apply H; tauto].
    destruct (IsSet E (viper s) "tink-keyset-path") eqn:H3; [|exfalso; apply H; tauto].
    rewrite (bind_Val _ _ _ _ _ (mustBeSet_set _ _ _ H1)).
    rewrite (bind_Val _ _ _ _ _ (mustBeSet_set _ _ _ H2)).
    rewrite (mustBeSet_set _ _ _ H3). eauto.
Qed.

End ValidationExact.

(** X1.  The validation switch lets startup go on exactly when the [ca]
    setting is well configured: it names one of the six backends and every
    companion setting of that backend is set ([ephemeralca] has none). *)
Theorem validation_passes_iff_configured (E : Env) (s : State) :
  (exists s', validateCA E s = (Val tt, s')) <-> ~ ca_misconfigured E (viper s).
Proof.
  split.
  - intros [s' Hv] Hbad.
    destruct (validateCA_misconfigured E s Hbad) as [why Hx]. congruence.
  - apply validateCA_configured.
Qed.

(** [--ca=ephemeralca] alone passes; [--ca=fileca] without the password
    does not. *)
Lemma validation_passes_iff_configured_witness :
  (exists s', validateCA Sample.ephemeral (runServeCmd_bound Sample.ephemeral)
              = (Val tt, s'))
  /\ ~ (exists s', validateCA Sample.no_password (runServeCmd_bound Sample.no_password)
                   = (Val tt, s')).
Proof.
  split.
  - apply validation_passes_iff_configured.
    unfold ca_misconfigured, unset.
    assert (GetString Sample.ephemeral (viper (runServeCmd_bound Sample.ephemeral)) "ca"
            = "ephemeralca") as -> by (vm_compute; reflexivity).
    intros [H | [H | [[H _] | [[H _] | [[H _] | [[H _] | [H _]]]]]]];
      try discriminate H.
    apply H. apply (list_elem_of_lookup_2 _ 3%nat). reflexivity.
  - intros Hok. apply validation_passes_iff_configured in Hok. apply Hok.
    do 4 right. left. split; [vm_compute; reflexivity|].
    right. right. vm_compute. reflexivity.
Defined.

(** X2.  With [ca] at googleca and its parent set, the switch never ends
    the process; it logs the deprecation warning exactly when
    [gcp_private_ca_version] is set, and changes nothing else. *)
Theorem googleca_deprecation_warning (E : Env) (s : State) :
  GetString E (viper s) "ca" = "googleca" ->
  IsSet E (viper s) "gcp_private_ca_parent" = true ->
  validateCA E s
  = (Val tt,
     logged s (if IsSet E (viper s) "gcp_private_ca_version"
               then [LogWarn deprecation_warning] else [])).
Proof.
  intros Hca Hp. unfold validateCA, getString. unfold bind at 1. simpl.
  rewrite Hca. simpl.
  rewrite (bind_Val _ _ _ _ _ (mustBeSet_set E _ _ _ Hp)).
  unfold bind, isSet, getViper, ret, when, emit, logged. simpl.
  destruct (IsSet E (viper s) "gcp_private_ca_version"); simpl.
  - reflexivity.
  - rewrite app_nil_r. by destruct s.
Qed.

Lemma googleca_deprecation_warning_witness :
  validateCA Scenario.googleca_versioned (runServeCmd_bound Scenario.googleca_versioned)
  = (Val tt, logged (runServeCmd_bound Scenario.googleca_versioned)
                    [LogWarn deprecation_warning]).
Proof.
  rewrite (googleca_deprecation_warning Scenario.googleca_versioned
             (runServeCmd_bound Scenario.googleca_versioned)).
  - assert (IsSet Scenario.googleca_versioned
                  (viper (runServeCmd_bound Scenario.googleca_versioned))
                  "gcp_private_ca_version" = true) as -> by (vm_compute; reflexivity).
    reflexivity.
  - vm_compute. reflexivity.
  - vm_compute. reflexivity.
Defined.

(** ** The construction switch *)

Section Construction.
Variable E : Env.

Lemma construct_returns ca r :
  construct E ca = inl r -> r = ca /\ ca_New E ca = None.
Proof. unfold construct. destruct (ca_New E ca); [discriminate | intros [= <-]; done]. Qed.

Lemma constructionCase_name (name : string) :
  match constructionCase name with
  | CGoogleca => name = "googleca"
  | CPkcs11ca => name = "pkcs11ca"
  | CFileca => name = "fileca"
  | CEphemeralca => name = "ephemeralca"
  | CKmsca => name = "kmsca"
  | CTinkca => name = "tinkca"
  | CDefault => name ∉ handled_backends
  end.
Proof.
  unfold constructionCase, handled_backends.
  repeat match goal with
         | |- context [String.eqb name ?x] =>
             destruct (String.eqb_spec name x) as [->|?]; [reflexivity|]
         end.
  rewrite !elem_of_cons, elem_of_nil. intuition congruence.
Qed.

(** What [newCA] returns. *)
Lemma newCA_returns (s s' : State) (baseca : CertificateAuthority) :
  newCA E s = (Val baseca, s') ->
  backend_name baseca = GetString E (viper s) "ca"
  /\ built_from_settings E (viper s) baseca
  /\ ca_New E baseca = None
  /\ s' = s.
Proof.
  unfold newCA. intros H.
  apply bind_Val_inv in H as (r & s1 & Hc & H).
  destruct r as [ca|err]; [|discriminate]. injection H as -> ->.
  unfold constructCA, bind, getViper, ret in Hc. simpl in Hc.
  pose proof (constructionCase_name (GetString E (viper s) "ca")) as Hname.
  destruct (constructionCase (GetString E (viper s) "ca"));
    try (injection Hc as Hc <-;
         apply construct_returns in Hc as [-> Hnew];
         simpl; rewrite Hname; done).
  - (* kmsca *)
    destruct (os_ReadFile E _) as [data|e] eqn:Hr; [|discriminate].
    destruct (LoadCertificatesFromPEM E data) as [certs|e] eqn:Hl; [|discriminate].
    injection Hc as Hc <-. apply construct_returns in Hc as [-> Hnew].
    simpl. rewrite Hname. repeat split; eauto.
  - discriminate.
Qed.

End Construction.

(** X3.  When the construction switch yields a backend, it is the backend
    the [ca] setting names, built from the settings of that backend, and
    its constructor reported no error; the step changes nothing. *)
Theorem newCA_builds_named_backend (E : Env) (s s' : State)
    (baseca : CertificateAuthority) :
  newCA E s = (Val baseca, s') ->
  backend_name baseca = GetString E (viper s) "ca"
  /\ built_from_settings E (viper s) baseca
  /\ ca_New E baseca = None
  /\ s' = s.
Proof. apply newCA_returns. Qed.

(** With [--ca=ephemeralca] the switch builds the ephemeral backend. *)
Lemma newCA_builds_named_backend_witness :
  newCA Sample.ephemeral (runServeCmd_bound Sample.ephemeral)
  = (Val EphemeralCA, runServeCmd_bound Sample.ephemeral)
  /\ backend_name EphemeralCA
     = GetString Sample.ephemeral (viper (runServeCmd_bound Sample.ephemeral)) "ca".
Proof.
  assert (newCA Sample.ephemeral (runServeCmd_bound Sample.ephemeral)
          = (Val EphemeralCA, (newCA Sample.ephemeral (runServeCmd_bound Sample.ephemeral)).2))
    as H by (apply returns_fst; vm_compute; reflexivity).
  destruct (newCA_builds_named_backend _ _ _ _ H) as (Hn & _ & _ & Hs).
  rewrite Hs in H. split; [exact H | exact Hn].
Defined.

(** X4.  With [ca] at kmsca, a certificate chain file that cannot be read,
    or that holds no valid PEM certificates, ends the process with status
    1; the message carries the path as configured, the file read is the
    cleaned path. *)
Theorem kmsca_chain_errors_are_fatal (E : Env) (s : State) :
  GetString E (viper s) "ca" = "kmsca" ->
  (forall err,
     os_ReadFile E (filepath_Clean E (GetString E (viper s) "kms-cert-chain-path"))
     = inr err ->
     newCA E s
     = (Exit 1 (FatalKmsChainRead (GetString E (viper s) "kms-cert-chain-path") err), s))
  /\ (forall data err,
        os_ReadFile E (filepath_Clean E (GetString E (viper s) "kms-cert-chain-path"))
        = inl data ->
        LoadCertificatesFromPEM E data = inr err ->
        newCA E s
        = (Exit 1 (FatalKmsChainPEM (GetString E (viper s) "kms-cert-chain-path") err), s)).
Proof.
  intros Hca. split.
  - intros err Hr. unfold newCA, constructCA, bind, getViper. simpl.
    rewrite Hca. simpl. rewrite Hr. reflexivity.
  - intros data err Hr Hl. unfold newCA, constructCA, bind, getViper. simpl.
    rewrite Hca. simpl. rewrite Hr, Hl. reflexivity.
Qed.

Lemma kmsca_chain_errors_are_fatal_witness :
  newCA Scenario.kmsca_no_chain (runServeCmd_bound Scenario.kmsca_no_chain)
  = (Exit 1 (FatalKmsChainRead "/ca/chain.pem" "no such file or directory"),
     runServeCmd_bound Scenario.kmsca_no_chain).
Proof.
  assert (GetString Scenario.kmsca_no_chain
                    (viper (runServeCmd_bound Scenario.kmsca_no_chain))
                    "kms-cert-chain-path" = "/ca/chain.pem") as Hp
    by (vm_compute; reflexivity).
  destruct (kmsca_chain_errors_are_fatal Scenario.kmsca_no_chain
              (runServeCmd_bound Scenario.kmsca_no_chain)) as [Hread _].
  - vm_compute. reflexivity.
  - rewrite Hp in Hread. apply Hread. vm_compute. reflexivity.
Defined.

(** ** The two algorithm loops *)

Section Loops.
Variable E : Env.

Lemma formatAlgorithms_exits l acc s c w s' :
  formatAlgorithms E l acc s = (Exit c w, s') ->
  c = 1 /\ s' = s /\
  exists done_ a rest err,
    l = (done_ ++ a :: rest)%list
    /\ Forall (fun a' => exists n, FormatSignatureAlgorithmFlag E a' = inl n) done_
    /\ FormatSignatureAlgorithmFlag E a = inr err
    /\ w = FatalErr err.
Proof.
  revert acc. induction l as [|a l IH]; intros acc; simpl; [discriminate|].
  destruct (FormatSignatureAlgorithmFlag E a) as [n|err] eqn:Hf.
  - intros H. destruct (IH _ H) as (-> & -> & d & a' & rest & err & -> & Hd & Ha & ->).
    repeat split. exists (a :: d), a', rest, err. repeat split; eauto.
  - intros [= <- <- <-]. repeat split. exists [], a, l, err. repeat split; eauto.
Qed.

Lemma parseAlgorithms_returns l acc s cfg s' :
  parseAlgorithms E l acc s = (Val cfg, s') ->
  s' = s /\
  exists fresh,
    cfg = (acc ++ fresh)%list
    /\ Forall2 (fun str a => ParseSignatureAlgorithmFlag E str = inl a) l fresh.
Proof.
  revert acc. induction l as [|x l IH]; intros acc; simpl.
  - intros [= <- <-]. split; [done|]. exists []. by rewrite app_nil_r.
  - destruct (ParseSignatureAlgorithmFlag E x) as [a|e] eqn:Hp; [|discriminate].
    intros H. destruct (IH _ H) as (-> & fresh & -> & Hall).
    split; [done|]. exists (a :: fresh). split.
    + by rewrite <- app_assoc.
    + by constructor.
Qed.

Lemma parseAlgorithms_exits l acc s c w s' :
  parseAlgorithms E l acc s = (Exit c w, s') ->
  c = 1 /\ s' = s /\
  exists done_ x rest err,
    l = (done_ ++ x :: rest)%list
    /\ Forall (fun x' => exists a, ParseSignatureAlgorithmFlag E x' = inl a) done_
    /\ ParseSignatureAlgorithmFlag E x = inr err
    /\ w = FatalErr err.
Proof.
  revert acc. induction l as [|x l IH]; intros acc; simpl; [discriminate|].
  destruct (ParseSignatureAlgorithmFlag E x) as [a|err] eqn:Hf.
  - intros H. destruct (IH _ H) as (-> & -> & d & x' & rest & err & -> & Hd & Ha & ->).
    repeat split. exists (x :: d), x', rest, err. repeat split; eauto.
  - intros [= <- <- <-]. repeat split. exists [], x, l, err. repeat split; eauto.
Qed.

End Loops.

(** X5.  [buildDefaultClientSigningAlgorithms] gives, for any list of
    algorithms, their flag names one for one and in order (none for the
    empty list); if an algorithm has no flag name, it ends the process with
    status 1 and the error of the first such algorithm.  It changes no
    state. *)
Theorem buildDefaultClientSigningAlgorithms_formats (E : Env)
    (allowedAlgorithms : list PublicKeyDetails) (s : State) :
  (forall names s',
     buildDefaultClientSigningAlgorithms E allowedAlgorithms s = (Val names, s') ->
     s' = s
     /\ Forall2 (fun a n => FormatSignatureAlgorithmFlag E a = inl n)
                allowedAlgorithms names)
  /\ (forall c w s',
        buildDefaultClientSigningAlgorithms E allowedAlgorithms s = (Exit c w, s') ->
        c = 1 /\ s' = s /\
        exists formatted a rest err,
          allowedAlgorithms = (formatted ++ a :: rest)%list
          /\ Forall (fun a' => exists n, FormatSignatureAlgorithmFlag E a' = inl n)
                    formatted
          /\ FormatSignatureAlgorithmFlag E a = inr err
          /\ w = FatalErr err)
  /\ (Forall (fun a => exists n, FormatSignatureAlgorithmFlag E a = inl n)
             allowedAlgorithms ->
      exists names,
        buildDefaultClientSigningAlgorithms E allowedAlgorithms s = (Val names, s)).
Proof.
  unfold buildDefaultClientSigningAlgorithms. split; [|split].
  - intros names s' H.
    apply formatAlgorithms_returns in H as (-> & fresh & -> & Hall). done.
  - intros c w s' H. by apply formatAlgorithms_exits in H.
  - intros Hall.
    destruct (formatAlgorithms E allowedAlgorithms [] s) as [[names|c w] s'] eqn:H.
    + apply formatAlgorithms_returns in H as (-> & _). eauto.
    + apply formatAlgorithms_exits in H
        as (_ & _ & d & a & rest & err & -> & _ & Ha & _).
      apply Forall_app in Hall as [_ Hall].
      apply Forall_cons in Hall as [[n Hn] _]. congruence.
Qed.

(** For sigstore's names: Ed25519 and P-256 format; a list with an
    algorithm that has no flag name ends the process. *)
Lemma buildDefaultClientSigningAlgorithms_formats_witness :
  buildDefaultClientSigningAlgorithms Sample.ephemeral
    [PKIX_ED25519; PKIX_ECDSA_P256_SHA_256] initial
  = (Val ["ed25519"; "ecdsa-sha2-256-nistp256"], initial)
  /\ exists w,
       buildDefaultClientSigningAlgorithms Sample.ephemeral
         [PKIX_ED25519; LMS_SHA256] initial = (Exit 1 w, initial).
Proof.
  destruct (buildDefaultClientSigningAlgorithms_formats Sample.ephemeral
              [PKIX_ED25519; PKIX_ECDSA_P256_SHA_256] initial) as (Hval & _ & _).
  destruct (buildDefaultClientSigningAlgorithms_formats Sample.ephemeral
              [PKIX_ED25519; LMS_SHA256] initial) as (_ & Hexit & _).
  split.
  - assert (buildDefaultClientSigningAlgorithms Sample.ephemeral
              [PKIX_ED25519; PKIX_ECDSA_P256_SHA_256] initial
            = (Val ["ed25519"; "ecdsa-sha2-256-nistp256"],
               (buildDefaultClientSigningAlgorithms Sample.ephemeral
                  [PKIX_ED25519; PKIX_ECDSA_P256_SHA_256] initial).2)) as H
      by (apply returns_fst; vm_compute; reflexivity).
    destruct (Hval _ _ H) as [Hs _]. rewrite Hs in H. exact H.
  - destruct (buildDefaultClientSigningAlgorithms Sample.ephemeral
                [PKIX_ED25519; LMS_SHA256] initial) as [[names|c w] s'] eqn:H.
    + apply (f_equal fst) in H. vm_compute in H. discriminate.
    + destruct (Hexit c w s' eq_refl) as (-> & -> & _). eauto.
Defined.

(** X6.  The allowed algorithms are the entries of
    [client-signing-algorithms] parsed one for one and in order; an entry
    that does not parse ends the process with status 1 and the error of
    the first such entry.  The step changes no state. *)
Theorem loadAlgorithmConfig_parses (E : Env) (s : State) :
  (forall cfg s',
     loadAlgorithmConfig E s = (Val cfg, s') ->
     s' = s
     /\ Forall2 (fun str a => ParseSignatureAlgorithmFlag E str = inl a)
                (GetStringSlice E (viper s) "client-signing-algorithms") cfg)
  /\ (forall c w s',
        loadAlgorithmConfig E s = (Exit c w, s') ->
        c = 1 /\ s' = s /\
        exists parsed str rest err,
          GetStringSlice E (viper s) "client-signing-algorithms"
          = (parsed ++ str :: rest)%list
          /\ Forall (fun x => exists a, ParseSignatureAlgorithmFlag E x = inl a) parsed
          /\ ParseSignatureAlgorithmFlag E str = inr err
          /\ w = FatalErr err).
Proof.
  unfold loadAlgorithmConfig, bind, getViper. simpl. split.
  - intros cfg s' H. apply parseAlgorithms_returns in H as (-> & fresh & -> & Hall). done.
  - intros c w s' H. by apply parseAlgorithms_exits in H.
Qed.

(** An unknown algorithm name after a known one ends the run. *)
Lemma loadAlgorithmConfig_parses_witness :
  exists s',
    loadAlgorithmConfig Scenario.bad_algorithm (runServeCmd_bound Scenario.bad_algorithm)
    = (Exit 1 (FatalErr "could not find matching signature algorithm"), s').
Proof.
  destruct (loadAlgorithmConfig Scenario.bad_algorithm
              (runServeCmd_bound Scenario.bad_algorithm)) as [[cfg|c w] s'] eqn:H.
  - apply (f_equal fst) in H. vm_compute in H. discriminate.
  - destruct (proj2 (loadAlgorithmConfig_parses Scenario.bad_algorithm
                       (runServeCmd_bound Scenario.bad_algorithm)) c w s' H)
      as (-> & _ & _).
    exists s'. f_equal. apply (f_equal fst) in H. vm_compute in H.
    injection H as <-. reflexivity.
Defined.

(** ** The configuration path, the other cases *)

(** X7.  With [config-path] at its default, the .json fallback is taken
    only when os.Stat reports that the file does not exist: when the file
    is there, or when os.Stat fails in another way (permission denied,
    say), [config.Load] is called with the .yaml path and nothing is
    logged. *)
Theorem config_path_kept_unless_missing (E : Env) (s : State) :
  GetString E (viper s) "config-path" = "/etc/fulcio-config/config.yaml" ->
  (forall err, os_Stat E "/etc/fulcio-config/config.yaml" <> StatNotExist err) ->
  configPath E s = (Val "/etc/fulcio-config/config.yaml", s)
  /\ loadConfig E s
     = (match config_Load E "/etc/fulcio-config/config.yaml" with
        | inl cfg => Val cfg
        | inr e => Exit 1 (FatalConfigPath "/etc/fulcio-config/config.yaml" e)
        end, s).
Proof.
  intros Hcp Hstat.
  assert (configPath E s = (Val "/etc/fulcio-config/config.yaml", s)) as Hpath.
  { unfold configPath, getString, bind, getViper, ret. simpl.
    rewrite Hcp. simpl.
    destruct (os_Stat E "/etc/fulcio-config/config.yaml") as [|err|err] eqn:Hs;
      [reflexivity | | reflexivity].
    exfalso. exact (Hstat err eq_refl). }
  split; [exact Hpath|].
  unfold loadConfig. rewrite (bind_Val _ _ _ _ _ Hpath).
  destruct (config_Load E _); reflexivity.
Qed.

(** With config.yaml in place it is the file loaded. *)
Lemma config_path_kept_unless_missing_witness :
  configPath Sample.duplex (runServeCmd_bound Sample.duplex)
  = (Val "/etc/fulcio-config/config.yaml", runServeCmd_bound Sample.duplex).
Proof.
  apply (config_path_kept_unless_missing Sample.duplex (runServeCmd_bound Sample.duplex)).
  - vm_compute. reflexivity.
  - intros err. vm_compute. discriminate.
Defined.

(** ** The CT log client, when it fails *)

Section CTFailures.
Variable E : Env.

Lemma ctOptions_cases s :
  let p := GetString E (viper s) "ct-log-public-key-path" in
  if String.eqb p "" then ctOptions E s = (Val {| PublicKey := "" |}, s)
  else match os_ReadFile E (filepath_Clean E p) with
       | inl pem => ctOptions E s = (Val {| PublicKey := pem |}, s)
       | inr err => ctOptions E s = (Exit 1 (FatalErr err), s)
       end.
Proof.
  unfold ctOptions, getString, bind, getViper, ret. simpl.
  destruct (String.eqb _ ""); simpl; [reflexivity|].
  destruct (os_ReadFile E _); reflexivity.
Qed.

Lemma ctHTTPClient_cases s :
  let p := GetString E (viper s) "ct-log.tls-ca-cert" in
  if String.eqb p "" then
    ctHTTPClient E s = (Val {| Timeout := 30 * Second; Transport := None |}, s)
  else match os_ReadFile E (filepath_Clean E p) with
       | inr err => ctHTTPClient E s = (Exit 1 (FatalErr err), s)
       | inl pem =>
           match AppendCertsFromPEM E pem with
           | None =>
               ctHTTPClient E s
               = (Exit 1 (FatalText "failed to append TLS CA certificate"), s)
           | Some pool =>
               ctHTTPClient E s
               = (Val {| Timeout := 30 * Second;
                         Transport :=
                           Some {| TLSClientConfig :=
                                     {| RootCAs := pool;
                                        MinVersion := VersionTLS12 |} |} |}, s)
           end
       end.
Proof.
  unfold ctHTTPClient, getString, bind, getViper, ret. simpl.
  destruct (String.eqb _ ""); simpl; [reflexivity|].
  destruct (os_ReadFile E _) as [pem|]; [|reflexivity].
  destruct (AppendCertsFromPEM E pem); reflexivity.
Qed.

End CTFailures.

(** X8.  How the CT client step can fail.  Without a [ct-log-url] it
    yields no client and does not end the process, whatever
    [ct-log-public-key-path] and [ct-log.tls-ca-cert] hold and whatever the
    files behind them are.  With a [ct-log-url], a public key file that
    cannot be read ends the process with status 1 and the read error.  And
    whenever the step ends the process, the status is 1, nothing was
    logged or changed, a [ct-log-url] is set, and the cause is one of
    four: the public key file could not be read; the TLS CA file could not
    be read; the TLS CA file held no certificate; or [ctclient.New], called
    with the URL, reported an error. *)
Theorem ct_client_step_failures (E : Env) (s : State) :
  (GetString E (viper s) "ct-log-url" = "" -> newCTClient E s = (Val None, s))
  /\ (GetString E (viper s) "ct-log-url" <> "" ->
      GetString E (viper s) "ct-log-public-key-path" <> "" ->
      forall err,
        os_ReadFile E (filepath_Clean E (GetString E (viper s) "ct-log-public-key-path"))
        = inr err ->
        newCTClient E s = (Exit 1 (FatalErr err), s))
  /\ (forall c w s',
        newCTClient E s = (Exit c w, s') ->
        c = 1 /\ s' = s
        /\ GetString E (viper s) "ct-log-url" <> ""
        /\ ((GetString E (viper s) "ct-log-public-key-path" <> ""
             /\ exists err,
                  os_ReadFile E (filepath_Clean E
                                   (GetString E (viper s) "ct-log-public-key-path"))
                  = inr err
                  /\ w = FatalErr err)
            \/ (GetString E (viper s) "ct-log.tls-ca-cert" <> ""
                /\ exists err,
                     os_ReadFile E (filepath_Clean E
                                      (GetString E (viper s) "ct-log.tls-ca-cert"))
                     = inr err
                     /\ w = FatalErr err)
            \/ (GetString E (viper s) "ct-log.tls-ca-cert" <> ""
                /\ exists pem,
                     os_ReadFile E (filepath_Clean E
                                      (GetString E (viper s) "ct-log.tls-ca-cert"))
                     = inl pem
                     /\ AppendCertsFromPEM E pem = None
                     /\ w = FatalText "failed to append TLS CA certificate")
            \/ (exists httpClient opts err,
                  ctclient_New_err E (GetString E (viper s) "ct-log-url") httpClient opts
                  = Some err
                  /\ w = FatalErr err))).
Proof.
  split; [|split].
  - intros Hurl. unfold newCTClient, getString, bind, getViper, ret. simpl.
    rewrite Hurl. reflexivity.
  - intros Hurl Hp err Hr.
    unfold newCTClient, getString. unfold bind at 1. simpl.
    destruct (String.eqb_spec (GetString E (viper s) "ct-log-url") "") as [?|_];
      [contradiction|]. simpl.
    pose proof (ctOptions_cases E s) as Ho. simpl in Ho.
    destruct (String.eqb_spec (GetString E (viper s) "ct-log-public-key-path") "")
      as [?|_]; [contradiction|].
    rewrite Hr in Ho. apply bind_Exit. exact Ho.
  - intros c w s'.
    unfold newCTClient, getString. unfold bind at 1. simpl.
    destruct (String.eqb_spec (GetString E (viper s) "ct-log-url") "") as [?|Hurl];
      simpl; [discriminate|].
    pose proof (ctOptions_cases E s) as Ho. simpl in Ho.
    pose proof (ctHTTPClient_cases E s) as Hh. simpl in Hh.
    destruct (String.eqb_spec (GetString E (viper s) "ct-log-public-key-path") "")
      as [Hkey|Hkey].
    + rewrite (bind_Val _ _ _ _ _ Ho).
      destruct (String.eqb_spec (GetString E (viper s) "ct-log.tls-ca-cert") "")
        as [Htls|Htls].
      * rewrite (bind_Val _ _ _ _ _ Hh). unfold ctclient_New.
        destruct (ctclient_New_err E _ _ _) as [err|] eqn:Hn; [|discriminate].
        intros [= <- <- <-]. repeat split; [done|]. do 3 right. eauto.
      * destruct (os_ReadFile E _) as [pem|err] eqn:Hr in Hh.
        -- destruct (AppendCertsFromPEM E pem) as [pool|] eqn:Ha.
           ++ rewrite (bind_Val _ _ _ _ _ Hh). unfold ctclient_New.
              destruct (ctclient_New_err E _ _ _) as [err|] eqn:Hn; [|discriminate].
              intros [= <- <- <-]. repeat split; [done|]. do 3 right. eauto.
           ++ rewrite (bind_Exit _ _ _ _ _ _ Hh).
              intros [= <- <- <-]. repeat split; [done|]. do 2 right. left. eauto.
        -- rewrite (bind_Exit _ _ _ _ _ _ Hh).
           intros [= <- <- <-]. repeat split; [done|]. right. left. eauto.
    + destruct (os_ReadFile E _) as [pem|err] eqn:Hr in Ho.
      * rewrite (bind_Val _ _ _ _ _ Ho).
        destruct (String.eqb_spec (GetString E (viper s) "ct-log.tls-ca-cert") "")
          as [Htls|Htls].
        -- rewrite (bind_Val _ _ _ _ _ Hh). unfold ctclient_New.
           destruct (ctclient_New_err E _ _ _) as [err|] eqn:Hn; [|discriminate].
           intros [= <- <- <-]. repeat split; [done|]. do 3 right. eauto.
        -- destruct (os_ReadFile E _) as [pem'|err] eqn:Hr' in Hh.
           ++ destruct (AppendCertsFromPEM E pem') as [pool|] eqn:Ha.
              ** rewrite (bind_Val _ _ _ _ _ Hh). unfold ctclient_New.
                 destruct (ctclient_New_err E _ _ _) as [err|] eqn:Hn; [|discriminate].
                 intros [= <- <- <-]. repeat split; [done|]. do 3 right. eauto.
              ** rewrite (bind_Exit _ _ _ _ _ _ Hh).
                 intros [= <- <- <-]. repeat split; [done|]. do 2 right. left. eauto.
           ++ rewrite (bind_Exit _ _ _ _ _ _ Hh).
              intros [= <- <- <-]. repeat split; [done|]. right. left. eauto.
      * rewrite (bind_Exit _ _ _ _ _ _ Ho).
        intros [= <- <- <-]. repeat split; [done|]. left. eauto.
Qed.

(** The same missing key file: harmless without a log URL, fatal with one. *)
Lemma ct_client_step_failures_witness :
  newCTClient Scenario.no_ct_missing_key (runServeCmd_bound Scenario.no_ct_missing_key)
  = (Val None, runServeCmd_bound Scenario.no_ct_missing_key)
  /\ newCTClient Scenario.ct_missing_key (runServeCmd_bound Scenario.ct_missing_key)
     = (Exit 1 (FatalErr "no such file or directory"),
        runServeCmd_bound Scenario.ct_missing_key).
Proof.
  split.
  - apply (proj1 (ct_client_step_failures _ _)). vm_compute. reflexivity.
  - assert (GetString Scenario.ct_missing_key
              (viper (runServeCmd_bound Scenario.ct_missing_key))
              "ct-log-public-key-path" = "/config/ct/pubkey.pem") as Hp
      by (vm_compute; reflexivity).
    apply (proj1 (proj2 (ct_client_step_failures _ _))).
    + vm_compute. discriminate.
    + rewrite Hp. discriminate.
    + rewrite Hp. vm_compute. reflexivity.
Defined.

(** X9.  When the CT client step yields a client and [ct-log.tls-ca-cert]
    is set, the client's HTTP transport trusts exactly the certificates
    parsed from the file at that (cleaned) path and refuses TLS below 1.2;
    [ctclient.New] was called with the effective URL and reported no
    error. *)
Theorem ct_tls_roots_from_file (E : Env) (s s' : State) (c : LogClient) :
  newCTClient E s = (Val (Some c), s') ->
  GetString E (viper s) "ct-log.tls-ca-cert" <> "" ->
  s' = s
  /\ lc_uri c = GetString E (viper s) "ct-log-url"
  /\ ctclient_New_err E (lc_uri c) (lc_httpClient c) (lc_opts c) = None
  /\ exists pem pool,
       os_ReadFile E (filepath_Clean E (GetString E (viper s) "ct-log.tls-ca-cert"))
       = inl pem
       /\ AppendCertsFromPEM E pem = Some pool
       /\ Transport (lc_httpClient c)
          = Some {| TLSClientConfig := {| RootCAs := pool; MinVersion := 0x0303 |} |}.
Proof.
  intros H Htls.
  unfold newCTClient, getString in H. unfold bind at 1 in H. simpl in H.
  destruct (String.eqb (GetString E (viper s) "ct-log-url") ""); [discriminate|].
  simpl in H.
  apply bind_Val_inv in H as (opts & s1 & Ho & H).
  apply bind_Val_inv in H as (hc & s2 & Hh & H).
  pose proof (ctOptions_cases E s) as Co. simpl in Co.
  assert (s1 = s) as ->.
  { destruct (String.eqb _ "") in Co; [congruence|].
    destruct (os_ReadFile E _) in Co; congruence. }
  pose proof (ctHTTPClient_cases E s) as Ch. simpl in Ch.
  destruct (String.eqb_spec (GetString E (viper s) "ct-log.tls-ca-cert") "")
    as [?|_]; [contradiction|].
  destruct (os_ReadFile E _) as [pem|err] eqn:Hr in Ch; [|congruence].
  destruct (AppendCertsFromPEM E pem) as [pool|] eqn:Ha; [|congruence].
  rewrite Ch in Hh. injection Hh as <- <-.
  unfold ctclient_New in H.
  destruct (ctclient_New_err E _ _ opts) eqn:Hn; [discriminate|].
  injection H as <- <-. simpl. repeat split; [exact Hn|].
  exists pem, pool. done.
Qed.

Lemma ct_tls_roots_from_file_witness :
  newCTClient Sample.duplex (runServeCmd_bound Sample.duplex)
  = (Val (Some Sample.duplex_client), runServeCmd_bound Sample.duplex)
  /\ Transport (lc_httpClient Sample.duplex_client)
     = Some {| TLSClientConfig :=
                 {| RootCAs := ["-----BEGIN CERTIFICATE-----"]; MinVersion := 771 |} |}.
Proof.
  assert (newCTClient Sample.duplex (runServeCmd_bound Sample.duplex)
          = (Val (Some Sample.duplex_client),
             (newCTClient Sample.duplex (runServeCmd_bound Sample.duplex)).2)) as H
    by (apply returns_fst; vm_compute; reflexivity).
  destruct (ct_tls_roots_from_file _ _ _ _ H) as (Hs & _ & _ & _).
  - vm_compute. discriminate.
  - rewrite Hs in H. split; [exact H | reflexivity].
Defined.

(** ** The servers *)

Section DuplexStart.
Variable E : Env.

Lemma listeners_logged s events :
  listeners (trace (logged s events)) = (listeners (trace s) ++ listeners events)%list.
Proof. unfold logged. simpl. apply listeners_app. Qed.

(** What [StartDuplexServer] comes to, case by case. *)
Lemma StartDuplexServer_cases cfg ct ca ar host port metricsPort ip s :
  exists r events,
    StartDuplexServer E cfg ct ca ar host port metricsPort ip s
    = (Val r, logged s events)
    /\ if handlers_registered E then
         match net_Listen_err E host port with
         | Some err =>
             r = Some ("creating listener: " ++ err)
             /\ events = [Serving (DuplexMetricsListener metricsPort)]
         | None =>
             r = match duplex_Serve E with
                 | Some err => Some ("duplex server: " ++ err)
                 | None => None
                 end
             /\ events = [Serving (DuplexMetricsListener metricsPort);
                          LogInfo "Starting duplex server...";
                          Serving (DuplexListener host port
                                     (newDuplex E cfg (viper s) port)
                                     (NewGRPCCAServer ct ca ar ip))]
         end
       else
         events = []
         /\ exists err,
              r = Some ("registering grpc ca handler: " ++ err)
              \/ r = Some ("registering legacy grpc ca handler: " ++ err)
              \/ r = Some ("registering healthz endpoint: " ++ err).
Proof.
  unfold StartDuplexServer, handlers_registered, logged.
  unfold bind at 1. simpl.
  destruct (RegisterHandler_err E "protobuf.RegisterCAHandlerFromEndpoint") as [e1|].
  { exists (Some ("registering grpc ca handler: " ++ e1)), [].
    rewrite app_nil_r. split; [by destruct s | eauto]. }
  destruct (RegisterHandler_err E "legacy.RegisterCAHandlerFromEndpoint") as [e2|].
  { exists (Some ("registering legacy grpc ca handler: " ++ e2)), [].
    rewrite app_nil_r. split; [by destruct s | eauto]. }
  destruct (RegisterHandler_err E "duplexHealthz") as [e3|].
  { exists (Some ("registering healthz endpoint: " ++ e3)), [].
    rewrite app_nil_r. split; [by destruct s | eauto 6]. }
  unfold bind, emit, ret. simpl.
  destruct (net_Listen_err E host port) as [e4|].
  { eexists _, _. split; [reflexivity | done]. }
  simpl.
  exists (match duplex_Serve E with
          | Some err => Some ("duplex server: " ++ err)
          | None => None
          end),
         [Serving (DuplexMetricsListener metricsPort);
          LogInfo "Starting duplex server...";
          Serving (DuplexListener host port (newDuplex E cfg (viper s) port)
                                  (NewGRPCCAServer ct ca ar ip))].
  split; [|done].
  destruct (duplex_Serve E); simpl; rewrite <- !app_assoc; reflexivity.
Qed.

End DuplexStart.

(** X10.  [StartDuplexServer] never ends the process and never touches the
    settings: it returns.  What it returns is fixed by the first step that
    fails: the error of the first failing handler registration (gRPC CA,
    legacy CA, healthz, in that order) wrapped with that step's prefix,
    with no listener started; the error of net.Listen wrapped with
    "creating listener: ", with the metrics endpoint alone started; and,
    when the listener is there, the error of [d.Serve] wrapped with
    "duplex server: ", or nil when [d.Serve] returns nil, with the metrics
    endpoint and the duplex listener started, the latter with the options
    of [newDuplex] and the CA server built from the arguments. *)
Theorem StartDuplexServer_returns_errors (E : Env) (cfg : FulcioConfig)
    (ct : option LogClient) (ca : CertificateAuthority)
    (ar : AlgorithmRegistryConfig) (host : string) (port metricsPort : Z)
    (ip : IssuerPool) (s : State) :
  exists r s',
    StartDuplexServer E cfg ct ca ar host port metricsPort ip s = (Val r, s')
    /\ viper s' = viper s
    /\ (forall err,
         RegisterHandler_err E "protobuf.RegisterCAHandlerFromEndpoint" = Some err ->
         r = Some ("registering grpc ca handler: " ++ err)
         /\ listeners (trace s') = listeners (trace s))
    /\ (RegisterHandler_err E "protobuf.RegisterCAHandlerFromEndpoint" = None ->
        forall err,
          RegisterHandler_err E "legacy.RegisterCAHandlerFromEndpoint" = Some err ->
          r = Some ("registering legacy grpc ca handler: " ++ err)
          /\ listeners (trace s') = listeners (trace s))
    /\ (RegisterHandler_err E "protobuf.RegisterCAHandlerFromEndpoint" = None ->
        RegisterHandler_err E "legacy.RegisterCAHandlerFromEndpoint" = None ->
        forall err,
          RegisterHandler_err E "duplexHealthz" = Some err ->
          r = Some ("registering healthz endpoint: " ++ err)
          /\ listeners (trace s') = listeners (trace s))
    /\ (handlers_registered E = true ->
        forall err,
          net_Listen_err E host port = Some err ->
          r = Some ("creating listener: " ++ err)
          /\ listeners (trace s')
             = (listeners (trace s) ++ [DuplexMetricsListener metricsPort])%list)
    /\ (handlers_registered E = true ->
        net_Listen_err E host port = None ->
        r = match duplex_Serve E with
            | Some err => Some ("duplex server: " ++ err)
            | None => None
            end
        /\ listeners (trace s')
           = (listeners (trace s)
              ++ [DuplexMetricsListener metricsPort;
                  DuplexListener host port (newDuplex E cfg (viper s) port)
                                 (NewGRPCCAServer ct ca ar ip)])%list).
Proof.
  unfold StartDuplexServer, handlers_registered.
  unfold bind at 1. simpl.
  destruct (RegisterHandler_err E "protobuf.RegisterCAHandlerFromEndpoint") as [e1|].
  { eexists _, s. split; [reflexivity|]. split; [reflexivity|].
    split; [by intros err [= <-]|]. repeat (split; [done|]). done. }
  destruct (RegisterHandler_err E "legacy.RegisterCAHandlerFromEndpoint") as [e2|].
  { eexists _, s. split; [reflexivity|]. split; [reflexivity|].
    split; [done|]. split; [by intros _ err [= <-]|]. repeat (split; [done|]). done. }
  destruct (RegisterHandler_err E "duplexHealthz") as [e3|].
  { eexists _, s. split; [reflexivity|]. split; [reflexivity|].
    do 2 (split; [done|]). split; [by intros _ _ err [= <-]|]. split; done. }
  unfold bind, emit, ret. simpl.
  destruct (net_Listen_err E host port) as [e4|].
  { eexists _, _. split; [reflexivity|]. split; [reflexivity|]. simpl.
    do 3 (split; [done|]). split; [|done].
    intros _ err [= <-]. split; [reflexivity | apply listeners_app]. }
  simpl.
  exists (match duplex_Serve E with
          | Some err => Some ("duplex server: " ++ err)
          | None => None
          end),
         (logged s [Serving (DuplexMetricsListener metricsPort);
                    LogInfo "Starting duplex server...";
                    Serving (DuplexListener host port (newDuplex E cfg (viper s) port)
                                            (NewGRPCCAServer ct ca ar ip))]).
  split.
  { unfold logged. destruct (duplex_Serve E); simpl; rewrite <- !app_assoc; reflexivity. }
  split; [reflexivity|]. rewrite listeners_logged.
  do 4 (split; [done|]). intros _ _. split; reflexivity.
Qed.

(** In the one-port sample every step succeeds until [d.Serve] returns at
    shutdown; its error comes back wrapped, behind both listeners. *)
Lemma StartDuplexServer_returns_errors_witness :
  exists s',
    StartDuplexServer Sample.duplex Sample.empty_config None EphemeralCA []
                      "0.0.0.0" 8080 2112 [] initial
    = (Val (Some "duplex server: context canceled"), s')
    /\ listeners (trace s')
       = [DuplexMetricsListener 2112;
          DuplexListener "0.0.0.0" 8080
            (newDuplex Sample.duplex Sample.empty_config (viper initial) 8080)
            (NewGRPCCAServer None EphemeralCA [] [])].
Proof.
  destruct (StartDuplexServer_returns_errors Sample.duplex Sample.empty_config None
              EphemeralCA [] "0.0.0.0" 8080 2112 [] initial)
    as (r & s' & Hrun & _ & _ & _ & _ & _ & Hserved).
  destruct (Hserved eq_refl eq_refl) as [-> Hl].
  exists s'. split; [exact Hrun | exact Hl].
Defined.

(** X11.  [runServeCmd] starts one duplex server when [port] equals
    [grpc-port] and [host] equals [grpc-host], and the separate gRPC,
    legacy, HTTP and metrics servers otherwise; never listeners of both
    kinds. *)
Theorem serve_mode_listeners (E : Env) (cfg : FulcioConfig)
    (ct : option LogClient) (ca : CertificateAuthority)
    (ar : AlgorithmRegistryConfig) (s : State) (l : Listener) :
  l ∈ listeners (trace (serveAll E cfg ct ca ar s).2) ->
  l ∈ listeners (trace s)
  \/ if duplex_mode E (viper s) then of_duplex_server l else of_split_servers l.
Proof.
  unfold serveAll, duplex_mode. unfold bind at 1. simpl.
  destruct (String.eqb (GetString E (viper s) "port") (GetString E (viper s) "grpc-port")
            && String.eqb (GetString E (viper s) "host") (GetString E (viper s) "grpc-host")).
  - assert (keeps (started_with of_duplex_server)
              (err <- StartDuplexServer E cfg ct ca ar (GetString E (viper s) "host")
                        (GetInt E (viper s) "port") (GetInt E (viper s) "metrics-port")
                        (NewIssuerPool E cfg) ;;
               match err with
               | Some e =>
                   if negb (String.eqb e http_ErrServerClosed)
                   then Fatal (FatalErr e) else ret tt
               | None => Fatal FatalNil
               end)) as K.
    { unfold StartDuplexServer.
      keeps_with (started_with_refl of_duplex_server)
                 (started_with_trans of_duplex_server)
                 ltac:(apply keeps_emit_started; simpl; done). }
    intros Hl. exact (proj1 (K s) l Hl).
  - assert (keeps (started_with of_split_servers)
              (serveSplit E cfg ct ca ar (NewIssuerPool E cfg))) as K.
    { unfold serveSplit.
      keeps_with (started_with_refl of_split_servers)
                 (started_with_trans of_split_servers)
                 ltac:(apply keeps_emit_started; simpl; done). }
    intros Hl. exact (proj1 (K s) l Hl).
Qed.

(** With the default ports the HTTP listener is one of four split ones. *)
Lemma serve_mode_listeners_witness :
  HTTPListener "0.0.0.0:8080"
    ∈ listeners (trace (serveAll Sample.ephemeral Sample.empty_config None EphemeralCA []
                          (runServeCmd_bound Sample.ephemeral)).2)
  /\ duplex_mode Sample.ephemeral (viper (runServeCmd_bound Sample.ephemeral)) = false.
Proof.
  assert (HTTPListener "0.0.0.0:8080"
            ∈ listeners (trace (serveAll Sample.ephemeral Sample.empty_config None
                                  EphemeralCA []
                                  (runServeCmd_bound Sample.ephemeral)).2)) as H
    by (apply (list_elem_of_lookup_2 _ 2%nat); vm_compute; reflexivity).
  split; [exact H|].
  destruct (serve_mode_listeners _ _ _ _ _ _ _ H) as [Hold | Hnew].
  - exfalso. revert Hold.
    assert (listeners (trace (runServeCmd_bound Sample.ephemeral)) = []) as ->
      by (vm_compute; reflexivity).
    apply not_elem_of_nil.
  - destruct (duplex_mode Sample.ephemeral (viper (runServeCmd_bound Sample.ephemeral)));
      [destruct Hnew | reflexivity].
Defined.

(** X12.  In duplex mode [runServeCmd] never returns normally: whatever
    [StartDuplexServer] returns, a wrapped error or nil after a clean
    shutdown, differs from http.ErrServerClosed, so the process ends in
    log.Logger.Fatal with status 1. *)
Theorem duplex_mode_ends_fatally (E : Env) (cfg : FulcioConfig)
    (ct : option LogClient) (ca : CertificateAuthority)
    (ar : AlgorithmRegistryConfig) (s : State) :
  duplex_mode E (viper s) = true ->
  exists w s', serveAll E cfg ct ca ar s = (Exit 1 w, s') /\ viper s' = viper s.
Proof.
  unfold duplex_mode. intros Hmode.
  unfold serveAll. unfold bind at 1. simpl. rewrite Hmode.
  destruct (StartDuplexServer_cases E cfg ct ca ar (GetString E (viper s) "host")
              (GetInt E (viper s) "port") (GetInt E (viper s) "metrics-port")
              (NewIssuerPool E cfg) s) as (r & events & Hrun & Hcases).
  rewrite (bind_Val _ _ _ _ _ Hrun).
  assert (forall e, r = Some e -> String.eqb e http_ErrServerClosed = false) as Hne.
  { intros e ->. destruct (handlers_registered E).
    - destruct (net_Listen_err E _ _).
      + destruct Hcases as [[= ->] _]. reflexivity.
      + destruct Hcases as [Hr _]. destruct (duplex_Serve E); [|discriminate].
        injection Hr as ->. reflexivity.
    - destruct Hcases as (_ & err & [[= ->] | [[= ->] | [= ->]]]); reflexivity. }
  destruct r as [e|].
  - rewrite (Hne e eq_refl). simpl. eexists _, _. split; reflexivity.
  - eexists _, _. split; reflexivity.
Qed.

Lemma duplex_mode_ends_fatally_witness :
  exists s',
    serveAll Sample.duplex Sample.empty_config None EphemeralCA []
             (runServeCmd_bound Sample.duplex)
    = (Exit 1 (FatalErr "duplex server: context canceled"), s').
Proof.
  destruct (duplex_mode_ends_fatally Sample.duplex Sample.empty_config None
              EphemeralCA [] (runServeCmd_bound Sample.duplex)) as (w & s' & H & _).
  - vm_compute. reflexivity.
  - exists s'. rewrite H. f_equal. f_equal.
    apply (f_equal fst) in H. vm_compute in H. injection H as <-. reflexivity.
Defined.

(** ** The bound settings *)

Section Bound.
Variable E : Env.




End Bound.



(** ** Aliases and defaults *)

(** X14.  The two places that rename http-host and http-port agree: the
    aliases [newServeCmd] registers with the settings store resolve every
    key exactly as the flag set's normalisation function renames flags.
    So the HTTP endpoint of the split servers, read through the aliases,
    is the [host] and [port] settings joined by a colon. *)
Theorem aliases_follow_flag_normalisation (E : Env) (decls : list (string * Value))
    (s1 : State) :
  newServeCmd E initial = (Val decls, s1) ->
  (forall name, realKey (viper s1) name = normalizeFlagName name)
  /\ forall cfg ct ca ar ip s addr,
       v_aliases (viper s) = v_aliases (viper s1) ->
       HTTPListener addr ∈ listeners (trace (serveSplit E cfg ct ca ar ip s).2) ->
       HTTPListener addr ∈ listeners (trace s)
       \/ addr = GetString E (viper s) "host" ++ ":" ++ GetString E (viper s) "port".
Proof.
  intros Hn. apply newServeCmd_returns in Hn as (_ & _ & _ & _ & Ha & _).
  simpl in Ha.
  assert (forall v name, v_aliases v = v_aliases (viper s1) ->
                         realKey v name = normalizeFlagName name) as Hreal.
  { intros v name Hv. unfold realKey, normalizeFlagName. rewrite Hv, Ha.
    destruct (String.eqb_spec name "http-port") as [->|Hp]; [reflexivity|].
    rewrite lookup_insert_ne by done.
    destruct (String.eqb_spec name "http-host") as [->|Hh]; [reflexivity|].
    rewrite lookup_insert_ne by done. by rewrite lookup_empty. }
  split; [intros name; by apply Hreal|].
  intros cfg ct ca ar ip s addr Hv.
  assert (GetString E (viper s) "http-host" = GetString E (viper s) "host"
          /\ GetString E (viper s) "http-port" = GetString E (viper s) "port")
    as [Hhost Hport].
  { unfold GetString, find. rewrite !(Hreal _ _ Hv). done. }
  unfold serveSplit. unfold bind at 1. simpl. rewrite Hhost, Hport.
  set (endpoint := GetString E (viper s) "host" ++ ":" ++ GetString E (viper s) "port").
  set (P := fun l => match l with HTTPListener a => a = endpoint | _ => True end).
  match goal with
  | |- _ ∈ listeners (trace (?m s).2) -> _ =>
      assert (keeps (started_with P) m) as K
  end.
  { keeps_with (started_with_refl P) (started_with_trans P)
               ltac:(apply keeps_emit_started; simpl; done). }
  intros Hl. destruct (proj1 (K s) _ Hl) as [Hold | Hnew]; [by left | by right].
Qed.

(** The alias is resolved, another key is left alone. *)
Lemma aliases_follow_flag_normalisation_witness :
  realKey (viper (runServeCmd_ready Sample.ephemeral)) "http-port" = "port"
  /\ realKey (viper (runServeCmd_ready Sample.ephemeral)) "grpc-port" = "grpc-port".
Proof.
  assert (newServeCmd Sample.ephemeral initial
          = (Val (serveFlags Sample.ephemeral Sample.names),
             runServeCmd_ready Sample.ephemeral)) as Hn
    by (apply returns_fst; vm_compute; reflexivity).
  destruct (aliases_follow_flag_normalisation _ _ _ Hn) as [Hreal _].
  split; rewrite Hreal; reflexivity.
Defined.

(** X15.  Unless a command-line flag, an environment variable or the
    [--config] file sets [port] or [grpc-port], the HTTP port is 8080 and
    the gRPC port is 8081, so [runServeCmd] takes the split-server path,
    never the duplex one. *)
Theorem default_ports_serve_split (E : Env) (names : list string) (s1 s2 : State) :
  newServeCmd E initial = (Val (serveFlags E names), s1) ->
  bindSettings E (parseFlags E (serveFlags E names)) s1 = (Val tt, s2) ->
  IsSet E (viper s2) "port" = false ->
  IsSet E (viper s2) "grpc-port" = false ->
  GetString E (viper s2) "port" = "8080"
  /\ GetString E (viper s2) "grpc-port" = "8081"
  /\ duplex_mode E (viper s2) = false.
Proof.
  intros Hn Hb Hp Hg.
  assert (GetString E (viper s2) "port" = "8080") as H1.
  { unfold GetString.
    rewrite (bound_unset_default E names s1 s2 "port" (VString "8080") Hn Hb);
      [reflexivity | | done | done | done].
    apply (list_elem_of_lookup_2 _ 20%nat). reflexivity. }
  assert (GetString E (viper s2) "grpc-port" = "8081") as H2.
  { unfold GetString.
    rewrite (bound_unset_default E names s1 s2 "grpc-port" (VString "8081") Hn Hb);
      [reflexivity | | done | done | done].
    apply (list_elem_of_lookup_2 _ 22%nat). reflexivity. }
  unfold duplex_mode. rewrite H1, H2. done.
Qed.

Lemma default_ports_serve_split_witness :
  duplex_mode Sample.ephemeral (viper (runServeCmd_bound Sample.ephemeral)) = false.
Proof.
  apply (default_ports_serve_split Sample.ephemeral Sample.names
           (runServeCmd_ready Sample.ephemeral) (runServeCmd_bound Sample.ephemeral)).
  - apply returns_fst. vm_compute. reflexivity.
  - apply returns_fst. vm_compute. reflexivity.
  - vm_compute. reflexivity.
  - vm_compute. reflexivity.
Defined.

(** ** The [--config] file *)

Section ConfigFile.
Variable E : Env.

Local Ltac unchanged :=
  eexists _, _; split; [reflexivity|];
  repeat split; try done; try (by intros [? [=]]); try (by intros _ [=]).

Lemma checkServeCmdConfigFile_cases (path : string) (s : State) :
  exists r s',
    checkServeCmdConfigFile E path s = (Val r, s')
    /\ trace s' = trace s
    /\ v_pflags (viper s') = v_pflags (viper s)
    /\ v_aliases (viper s') = v_aliases (viper s)
    /\ (path = "" -> r = None /\ s' = s)
    /\ (is_Some r -> v_config (viper s') = v_config (viper s))
    /\ (path <> "" -> r = None ->
        os_Stat E path = StatOk
        /\ exists abspath content,
             filepath_Abs E path = inl abspath
             /\ GoStrings.TrimPrefix (filepath_Ext E abspath) "." ∈ viper_SupportedExts E
             /\ viper_ReadInConfig E
                  (GoStrings.TrimSuffix (filepath_Base E abspath) (filepath_Ext E abspath))
                  (GoStrings.TrimPrefix (filepath_Ext E abspath) ".")
                  (v_configPaths (viper s) ++ [filepath_Dir E path])%list
                = inl content
             /\ v_config (viper s') = content).
Proof.
  unfold checkServeCmdConfigFile.
  destruct (String.eqb_spec path "") as [->|Hpath]; simpl; [unchanged|].
  destruct (os_Stat E path) as [|err|err] eqn:Hstat; [|unchanged..].
  destruct (filepath_Abs E path) as [abspath|err] eqn:Habs; [|unchanged].
  destruct (existsb _ (viper_SupportedExts E)) eqn:Hext; simpl; [|unchanged].
  unfold ReadInConfig, bind, modifyViper, getViper, ret. simpl.
  destruct (viper_ReadInConfig E _ _ _) as [content|err] eqn:Hread; simpl;
    [|unchanged].
  eexists None, _. split; [reflexivity|].
  repeat split; try done; try (by intros [? [=]]).
  exists abspath, content. repeat split; [|exact Hread].
  apply existsb_exists in Hext as (x & Hx & Heq).
  apply String.eqb_eq in Heq as <-. by apply list_elem_of_In.
Qed.

End ConfigFile.

(** X16.  [checkServeCmdConfigFile] never ends the process and logs
    nothing; it leaves flags and aliases alone.  Without a path it does
    nothing.  When it returns an error the loaded configuration is the one
    from before.  When it returns nil for a path, the file exists, its
    extension is one viper supports, and the configuration is what viper
    read for the file's base name without the extension, the extension
    without its dot as type, and the directory of the path added to the
    search paths. *)
Theorem checkServeCmdConfigFile_outcomes (E : Env) (path : string) (s : State) :
  exists r s',
    checkServeCmdConfigFile E path s = (Val r, s')
    /\ trace s' = trace s
    /\ v_pflags (viper s') = v_pflags (viper s)
    /\ v_aliases (viper s') = v_aliases (viper s)
    /\ (path = "" -> r = None /\ s' = s)
    /\ (is_Some r -> v_config (viper s') = v_config (viper s))
    /\ (path <> "" -> r = None ->
        os_Stat E path = StatOk
        /\ exists abspath content,
             filepath_Abs E path = inl abspath
             /\ GoStrings.TrimPrefix (filepath_Ext E abspath) "." ∈ viper_SupportedExts E
             /\ viper_ReadInConfig E
                  (GoStrings.TrimSuffix (filepath_Base E abspath) (filepath_Ext E abspath))
                  (GoStrings.TrimPrefix (filepath_Ext E abspath) ".")
                  (v_configPaths (viper s) ++ [filepath_Dir E path])%list
                = inl content
             /\ v_config (viper s') = content).
Proof. apply checkServeCmdConfigFile_cases. Qed.

(** /etc/fulcio/serve.yaml is read as the configuration "serve" of type
    "yaml" in /etc/fulcio. *)
Lemma checkServeCmdConfigFile_outcomes_witness :
  exists s',
    checkServeCmdConfigFile Scenario.layered "/etc/fulcio/serve.yaml" initial
    = (Val None, s')
    /\ v_config (viper s') !! "ca" = Some (VString "ephemeralca").
Proof.
  destruct (checkServeCmdConfigFile_outcomes Scenario.layered "/etc/fulcio/serve.yaml"
              initial) as (r & s' & Hrun & _ & _ & _ & _ & _ & Hloaded).
  assert (r = None) as ->.
  { apply (f_equal fst) in Hrun. vm_compute in Hrun. by injection Hrun as <-. }
  exists s'. split; [exact Hrun|].
  destruct (Hloaded ltac:(discriminate) eq_refl)
    as (_ & abspath & content & Habs & _ & Hread & ->).
  vm_compute in Habs. injection Habs as <-.
  apply (f_equal (fun r : Result (gmap string Value) =>
                    match r with inl c => c !! "ca" | inr _ => None end)) in Hread.
  rewrite <- Hread. vm_compute. reflexivity.
Defined.

(** X17.  An error of [checkServeCmdConfigFile] ends [runServeCmd] at
    once, with status 1 and that error: no flag is bound, nothing is
    validated or logged, no backend is built and no listener starts. *)
Theorem bad_config_file_is_fatal (E : Env) (flags : gmap string Flag)
    (s s' : State) (err : error) :
  checkServeCmdConfigFile E (serveCmdConfigFilePath flags) s = (Val (Some err), s') ->
  runServeCmd E flags s = (Exit 1 (FatalErr err), s')
  /\ trace s' = trace s
  /\ v_pflags (viper s') = v_pflags (viper s).
Proof.
  intros Hc. split.
  - assert (fatalOnErr (checkServeCmdConfigFile E (serveCmdConfigFilePath flags)) s
            = (Exit 1 (FatalErr err), s')) as Hf
      by (unfold fatalOnErr; rewrite (bind_Val _ _ _ _ _ Hc); reflexivity).
    unfold runServeCmd, preflight, bindSettings.
    apply bind_Exit, bind_Exit, bind_Exit, Hf.
  - destruct (checkServeCmdConfigFile_cases E (serveCmdConfigFilePath flags) s)
      as (r & s0 & Hrun & Ht & Hp & _).
    rewrite Hrun in Hc. injection Hc as -> ->. done.
Qed.

Lemma bad_config_file_is_fatal_witness :
  exists s',
    runServeCmd Scenario.config_missing (runServeCmd_flags Scenario.config_missing)
                (runServeCmd_ready Scenario.config_missing)
    = (Exit 1 (FatalErr "unable to stat config file provided: no such file or directory"),
       s').
Proof.
  eexists.
  apply (bad_config_file_is_fatal Scenario.config_missing
           (runServeCmd_flags Scenario.config_missing)
           (runServeCmd_ready Scenario.config_missing)).
  apply returns_fst. vm_compute. reflexivity.
Defined.

(** X20.  The settings file is located from the command line only: the
    path is the variable the [--config] flag is bound to, read before the
    environment is consulted.  Without [--config] on the command line
    [runServeCmd] binds its settings without reading any settings file,
    whatever FULCIO_SERVE_CONFIG says. *)
Theorem config_file_from_command_line_only (E : Env) (names : list string)
    (s : State) :
  cmdline E !! "config" = None ->
  exists s',
    bindSettings E (parseFlags E (serveFlags E names)) s = (Val tt, s')
    /\ v_config (viper s') = v_config (viper s)
    /\ trace s' = trace s.
Proof.
  intros Hcmd.
  assert (serveCmdConfigFilePath (parseFlags E (serveFlags E names)) = "") as Hpath.
  { unfold serveCmdConfigFilePath.
    rewrite (parseFlags_lookup E names "config" (VString ""))
      by (apply (list_elem_of_lookup_2 _ 0%nat); reflexivity).
    rewrite Hcmd. reflexivity. }
  unfold bindSettings. rewrite Hpath.
  eexists. split; [reflexivity|]. split; reflexivity.
Qed.

Lemma config_file_from_command_line_only_witness :
  environ Scenario.config_in_env !! "FULCIO_SERVE_CONFIG" = Some "/etc/fulcio/serve.yaml"
  /\ exists s',
       bindSettings Scenario.config_in_env
         (parseFlags Scenario.config_in_env
            (serveFlags Scenario.config_in_env Sample.names))
         (runServeCmd_ready Scenario.config_in_env)
       = (Val tt, s')
       /\ v_config (viper s') = v_config (viper (runServeCmd_ready Scenario.config_in_env)).
Proof.
  split; [vm_compute; reflexivity|].
  destruct (config_file_from_command_line_only Scenario.config_in_env Sample.names
              (runServeCmd_ready Scenario.config_in_env)) as (s' & Hb & Hc & _).
  - vm_compute. reflexivity.
  - exists s'. split; [exact Hb | exact Hc].
Defined.

(** ** From the settings to the servers *)

Section Wiring.
Variable E : Env.

Lemma loadAlgorithms_returns s ar s' :
  loadAlgorithms E s = (Val ar, s') ->
  s' = s
  /\ exists algorithmConfig,
       Forall2 (fun str a => ParseSignatureAlgorithmFlag E str = inl a)
               (GetStringSlice E (viper s) "client-signing-algorithms") algorithmConfig
       /\ NewAlgorithmRegistryConfig E algorithmConfig = inl ar.
Proof.
  unfold loadAlgorithms. intros H.
  apply bind_Val_inv in H as (algs & s1 & Hl & H).
  unfold loadAlgorithmConfig, bind, getViper in Hl. simpl in Hl.
  apply parseAlgorithms_returns in Hl as (-> & fresh & -> & Hall).
  destruct (NewAlgorithmRegistryConfig E _) as [r|e] eqn:Hr; [|discriminate].
  injection H as <- <-. split; [done|]. exists fresh. done.
Qed.

Lemma loadConfig_returns s cfg s' :
  loadConfig E s = (Val cfg, s') ->
  viper s' = viper s
  /\ exists path,
       config_Load E path = inl cfg
       /\ (path = GetString E (viper s) "config-path"
           \/ GetString E (viper s) "config-path" = defaultConfigPath
              /\ (exists err, os_Stat E defaultConfigPath = StatNotExist err)
              /\ path = "/etc/fulcio-config/config.json").
Proof.
  unfold loadConfig. intros H.
  apply bind_Val_inv in H as (cp & s1 & Hp & H).
  destruct (config_Load E cp) as [c|e] eqn:Hl; [|discriminate].
  injection H as <- <-.
  unfold configPath, getString, bind, getViper, ret in Hp. simpl in Hp.
  destruct (String.eqb_spec (GetString E (viper s) "config-path") defaultConfigPath)
    as [Heq|Hne].
  - rewrite Heq in Hp.
    destruct (os_Stat E defaultConfigPath) as [|err|err] eqn:Hstat.
    + injection Hp as <- <-. split; [done|]. exists defaultConfigPath. split; [done|].
      left. done.
    + unfold emit in Hp. simpl in Hp. injection Hp as <- <-. split; [done|].
      exists "/etc/fulcio-config/config.json". split; [exact Hl|].
      right. eauto.
    + injection Hp as <- <-. split; [done|]. exists defaultConfigPath. split; [done|].
      left. done.
  - injection Hp as <- <-. split; [done|]. eauto.
Qed.

(** Behind every listener [runServeCmd] starts is a CA server made from
    the bound settings. *)
Lemma runServeCmd_wiring flags s l :
  l ∈ listeners (trace (runServeCmd E flags s).2) ->
  l ∈ listeners (trace s)
  \/ exists cfg srv sb,
       serves E cfg srv l
       /\ bindSettings E flags s = (Val tt, sb)
       /\ wired_from_settings E (viper sb) srv.
Proof.
  unfold runServeCmd. intros Hl.
  pose proof (proj1 (keeps_preflight E flags s)) as L1.
  destruct (preflight E flags s) as [[[ar cfg]|c w] s1] eqn:Hp; simpl in L1.
  2: { rewrite (bind_Exit _ _ _ _ _ _ Hp) in Hl. simpl in Hl. left. congruence. }
  rewrite (bind_Val _ _ _ _ _ Hp) in Hl.
  unfold preflight in Hp.
  apply bind_Val_inv in Hp as ([] & sb & Hb & Hp).
  apply bind_Val_inv in Hp as ([] & s2 & Hv & Hp).
  apply bind_Val_inv in Hp as (ar' & s3 & Ha & Hp).
  apply bind_Val_inv in Hp as (cfg' & s4 & Hc & Hp).
  injection Hp as -> -> ->.
  destruct (validateCA_passed E _ _ Hv) as [_ Hv2].
  destruct (loadAlgorithms_returns _ _ _ Ha) as (-> & algs & Hparsed & Hreg).
  destruct (loadConfig_returns _ _ _ Hc) as (Hv4 & path & Hload & Hpath).
  rewrite Hv2 in Hparsed, Hpath.
  assert (viper s1 = viper sb) as Hv1 by congruence.
  pose proof (proj1 (keeps_newCA E s1)) as [_ L2].
  destruct (newCA E s1) as [[ca|c w] s5] eqn:Hca; simpl in L2.
  2: { rewrite (bind_Exit _ _ _ _ _ _ Hca) in Hl. simpl in Hl. left. congruence. }
  rewrite (bind_Val _ _ _ _ _ Hca) in Hl.
  destruct (newCA_returns E _ _ _ Hca) as (Hname & Hbuilt & Hnew & ->).
  rewrite Hv1 in Hname, Hbuilt.
  pose proof (proj1 (keeps_newCTClient E s1)) as [_ L3].
  destruct (newCTClient E s1) as [[ct|c w] s6] eqn:Hct; simpl in L3.
  2: { rewrite (bind_Exit _ _ _ _ _ _ Hct) in Hl. simpl in Hl. left. congruence. }
  rewrite (bind_Val _ _ _ _ _ Hct) in Hl.
  destruct (proj1 (keeps_serveAll_started E cfg ct ca ar s6) l Hl) as [Hold | Hnew'].
  - left. congruence.
  - right. exists cfg, (NewGRPCCAServer ct ca ar (NewIssuerPool E cfg)), sb.
    split; [exact Hnew'|]. split; [exact Hb|].
    unfold wired_from_settings. simpl.
    split; [exact Hname|]. split; [exact Hbuilt|]. split; [exact Hnew|].
    split; [exists algs; done|]. exists path, cfg. done.
Qed.

End Wiring.

(** X18.  Every CA server a run of the serve command starts is made from
    the run's settings: its backend is the one the [ca] setting names,
    built from that backend's settings with a constructor that reported no
    error; its algorithm registry is built from the entries of
    [client-signing-algorithms], parsed in order; its issuer pool comes
    from the configuration loaded from [config-path], or from
    /etc/fulcio-config/config.json when the default path does not
    exist. *)
Theorem run_servers_wired_from_settings (E : Env) (srv : GRPCCAServer) :
  srv ∈ servers (trace (run E).2) ->
  wired_from_settings E (viper (run E).2) srv.
Proof.
  intros Hsrv. apply server_of_listener in Hsrv as (l & Hl & Hsrv).
  unfold run, serve in *.
  pose proof (proj1 (keeps_newServeCmd E initial)) as L0.
  destruct (newServeCmd E initial) as [[decls|c w] s1] eqn:Hn; simpl in L0.
  2: { rewrite (bind_Exit _ _ _ _ _ _ Hn) in Hl. simpl in Hl.
       rewrite L0 in Hl. by apply elem_of_nil in Hl. }
  rewrite (bind_Val _ _ _ _ _ Hn) in *.
  apply runServeCmd_wiring in Hl as [Hl | (cfg & srv' & sb & Hserves & Hb & Hw)].
  { rewrite L0 in Hl. by apply elem_of_nil in Hl. }
  assert (viper sb = viper (runServeCmd E (parseFlags E decls) s1).2) as Hv.
  { rewrite runServeCmd_settings. unfold settings. now rewrite Hb. }
  assert (srv' = srv) as ->
    by (destruct l; simpl in Hserves, Hsrv; intuition congruence).
  by rewrite <- Hv.
Qed.

(** The fileca server watches its files ([fileca-watch] defaults to
    true). *)
Lemma run_servers_wired_from_settings_witness :
  {| srv_ct := Some Sample.default_client;
     srv_ca := FileCA "/ca/cert.pem" "/ca/key.pem" "secret" true;
     srv_algorithmRegistry := defaultAllowedAlgorithms;
     srv_ip := [] |} ∈ servers (trace (run Scenario.fileca).2)
  /\ GetString Scenario.fileca (viper (run Scenario.fileca).2) "ca" = "fileca"
  /\ GetBool Scenario.fileca (viper (run Scenario.fileca).2) "fileca-watch" = true.
Proof.
  assert ({| srv_ct := Some Sample.default_client;
             srv_ca := FileCA "/ca/cert.pem" "/ca/key.pem" "secret" true;
             srv_algorithmRegistry := defaultAllowedAlgorithms;
             srv_ip := [] |} ∈ servers (trace (run Scenario.fileca).2)) as H
    by (apply (list_elem_of_lookup_2 _ 0%nat); vm_compute; reflexivity).
  split; [exact H|].
  destruct (run_servers_wired_from_settings _ _ H) as (Hname & Hbuilt & _).
  split; [symmetry; exact Hname|].
  destruct Hbuilt as (_ & _ & _ & Hwatch). symmetry. exact Hwatch.
Defined.

(** ** The split servers *)

(** X19.  What the split-server path hands to its listeners.  An error of
    [createGRPCServer] ends the process with that error before anything is
    started or logged.  Every listener the path starts is one of four: the
    gRPC listener and the legacy listener, both in front of the CA server
    built from the arguments, the legacy one on the socket of the
    [legacy-unix-domain-socket] setting; the HTTP listener on
    [http-host]:[http-port]; the metrics listener on the port of
    [metrics-port] on all interfaces.  When [createLegacyGRPCServer] fails,
    no listener but the gRPC one has been started. *)
Theorem split_listeners_follow_settings (E : Env) (cfg : FulcioConfig)
    (ct : option LogClient) (ca : CertificateAuthority)
    (ar : AlgorithmRegistryConfig) (ip : IssuerPool) (s : State) :
  (forall err,
     createGRPCServer_err E = Some err ->
     serveSplit E cfg ct ca ar ip s = (Exit 1 (FatalErr err), s))
  /\ (forall l,
        l ∈ listeners (trace (serveSplit E cfg ct ca ar ip s).2) ->
        l ∈ listeners (trace s)
        \/ match l with
           | GRPCListener srv => srv = NewGRPCCAServer ct ca ar ip
           | LegacyUnixListener socket srv =>
               socket = GetString E (viper s) "legacy-unix-domain-socket"
               /\ srv = NewGRPCCAServer ct ca ar ip
           | HTTPListener addr =>
               addr = GetString E (viper s) "http-host" ++ ":"
                      ++ GetString E (viper s) "http-port"
           | MetricsListener addr => addr = ":" ++ GetString E (viper s) "metrics-port"
           | DuplexListener _ _ _ _ | DuplexMetricsListener _ => False
           end)
  /\ (forall err l,
        createLegacyGRPCServer_err E = Some err ->
        l ∈ listeners (trace (serveSplit E cfg ct ca ar ip s).2) ->
        l ∈ listeners (trace s) \/ l = GRPCListener (NewGRPCCAServer ct ca ar ip)).
Proof.
  split; [|split].
  - intros err Herr. unfold serveSplit. unfold bind at 1. simpl.
    rewrite Herr. reflexivity.
  - intros l. unfold serveSplit. unfold bind at 1. simpl.
    set (P := fun l : Listener =>
                match l with
                | GRPCListener srv => srv = NewGRPCCAServer ct ca ar ip
                | LegacyUnixListener socket srv =>
                    socket = GetString E (viper s) "legacy-unix-domain-socket"
                    /\ srv = NewGRPCCAServer ct ca ar ip
                | HTTPListener addr =>
                    addr = GetString E (viper s) "http-host" ++ ":"
                           ++ GetString E (viper s) "http-port"
                | MetricsListener addr =>
                    addr = ":" ++ GetString E (viper s) "metrics-port"
                | DuplexListener _ _ _ _ | DuplexMetricsListener _ => False
                end).
    match goal with
    | |- _ ∈ listeners (trace (?m s).2) -> _ =>
        assert (keeps (started_with P) m) as K
    end.
    { keeps_with (started_with_refl P) (started_with_trans P)
                 ltac:(apply keeps_emit_started; simpl; done). }
    intros Hl. exact (proj1 (K s) l Hl).
  - intros err l Herr. unfold serveSplit. unfold bind at 1. simpl.
    destruct (createGRPCServer_err E); simpl; [by left|].
    unfold bind, emit. simpl. rewrite Herr. simpl.
    rewrite listeners_app. simpl.
    rewrite elem_of_app, list_elem_of_singleton. done.
Qed.

(** In the default world the legacy listener is on the default socket and
    the metrics listener on port 2112. *)
Lemma split_listeners_follow_settings_witness :
  GetString Sample.ephemeral (viper (runServeCmd_bound Sample.ephemeral))
            "legacy-unix-domain-socket" = "@fulcio-legacy-grpc-socket"
  /\ MetricsListener ":2112"
     ∈ listeners (trace (serveSplit Sample.ephemeral Sample.empty_config None
                           EphemeralCA [] []
                           (runServeCmd_bound Sample.ephemeral)).2).
Proof.
  assert (LegacyUnixListener "@fulcio-legacy-grpc-socket"
                             (NewGRPCCAServer None EphemeralCA [] [])
            ∈ listeners (trace (serveSplit Sample.ephemeral Sample.empty_config None
                                  EphemeralCA [] []
                                  (runServeCmd_bound Sample.ephemeral)).2)) as H
    by (apply (list_elem_of_lookup_2 _ 1%nat); vm_compute; reflexivity).
  destruct (split_listeners_follow_settings Sample.ephemeral Sample.empty_config None
              EphemeralCA [] [] (runServeCmd_bound Sample.ephemeral))
    as (_ & Hbound & _).
  split.
  - destruct (Hbound _ H) as [Hold | [Hsocket _]].
    + exfalso. revert Hold.
      assert (listeners (trace (runServeCmd_bound Sample.ephemeral)) = []) as ->
        by (vm_compute; reflexivity).
      apply not_elem_of_nil.
    + symmetry. exact Hsocket.
  - apply (list_elem_of_lookup_2 _ 3%nat). vm_compute. reflexivity.
Defined.
